(** * Receiver node (Nodo_edge-final.ino): ingestion and alerting pipeline

    A shallow embedding of the receiver sketch: the ESP-NOW receive callback
    [OnDataRecv], the storage writer [saveDataToSD], the two evaluator tasks
    [DHTTask] and [SoilTask] and the dispatcher [TelegramTask], together with
    the three FreeRTOS queues they share.  The two sender sketches, the soil
    node with its pump and the environment node, are embedded in [SoilNode]
    and [DhtNode], with the bytes they put on the air in [Repr].

    Conventions.
    - A C [float] is an IEEE-754 binary32 value, held as a [spec_float] in
      canonical form (24-bit mantissa).  The only float operations of the
      sketches are comparisons with constants and, in the soil node, the
      assignment of an integer percentage; both are exact.
    - A C [int] is a 32-bit two's complement integer held as a [Z].
    - A queue is the list of its items, oldest first.
    - The collaborators that are not part of the sketch (the SD library, the
      time source, the Telegram client, the number formatters of the Arduino
      core) appear as a small model or as a parameter, each one documented
      where it is introduced. *)

From Stdlib Require Import ZArith List Ascii SpecFloat DecimalString DecimalPos
  DecimalZ Strings.Byte.
From stdpp Require Import gmap strings list.

Set Warnings "-clear-no-such-hyp".
Set Default Proof Using "Type".

Local Open Scope Z_scope.

(** ** Wire format *)

Module Wire.

(** [uint8_t] as an integer in 0..255. *)
Definition byteZ (b : byte) : Z := Z.of_N (Byte.to_N b).

(** Four consecutive bytes read as one 32-bit word; the ESP32 is
    little-endian, so the first byte is the least significant. *)
Definition le32 (b0 b1 b2 b3 : byte) : Z :=
  Z.lor (byteZ b0)
    (Z.lor (Z.shiftl (byteZ b1) 8)
       (Z.lor (Z.shiftl (byteZ b2) 16) (Z.shiftl (byteZ b3) 24))).

(** A 32-bit word read as an [int]. *)
Definition int_of_bits (w : Z) : Z :=
  if w <? 2 ^ 31 then w else w - 2 ^ 32.

(** A 32-bit word read as a [float]: sign bit 31, biased exponent in bits
    30..23, fraction in bits 22..0. *)
Definition float_of_bits (w : Z) : spec_float :=
  let s := Z.testbit w 31 in
  let e := Z.land (Z.shiftr w 23) 255 in
  let m := Z.land w (2 ^ 23 - 1) in
  if e =? 0 then
    if m =? 0 then S754_zero s else S754_finite s (Z.to_pos m) (-149)
  else if e =? 255 then
    if m =? 0 then S754_infinity s else S754_nan
  else S754_finite s (Z.to_pos (m + 2 ^ 23)) (e - 150).

(** [incoming[i]]; the callers only read below the length they checked. *)
Definition byte_at (incoming : list byte) (i : nat) : byte :=
  nth i incoming x00.

Definition word_at (incoming : list byte) (i : nat) : Z :=
  le32 (byte_at incoming i) (byte_at incoming (i + 1))
       (byte_at incoming (i + 2)) (byte_at incoming (i + 3)).

End Wire.

(** ** Data structures of the sketch *)

Record dht_message_t := {
  temp : spec_float;
  hum : spec_float;
  luz : Z;
  mq5 : Z
}.

Record soil_message_t := {
  soil : spec_float
}.

Definition sizeof_dht_message_t : Z := 16.
Definition sizeof_soil_message_t : Z := 4.

(** [memcpy(&d, incoming, sizeof(dht_message_t))]: the four fields lie at
    offsets 0, 4, 8 and 12. *)
Definition memcpy_dht (incoming : list byte) : dht_message_t :=
  {| temp := Wire.float_of_bits (Wire.word_at incoming 0);
     hum := Wire.float_of_bits (Wire.word_at incoming 4);
     luz := Wire.int_of_bits (Wire.word_at incoming 8);
     mq5 := Wire.int_of_bits (Wire.word_at incoming 12) |}.

(** [memcpy(&s, incoming, sizeof(soil_message_t))]. *)
Definition memcpy_soil (incoming : list byte) : soil_message_t :=
  {| soil := Wire.float_of_bits (Wire.word_at incoming 0) |}.

(** MACs de los nodos. *)
Definition unifiedSenderMAC : list byte := [x08; xd1; xf9; xee; x4f; x2c].
Definition soilSenderMAC : list byte := [xa0; xb7; x65; x1b; x18; x50].

(** [memcmp(a, b, n) == 0]: the first [n] bytes agree.  An address handed
    over by ESP-NOW always has six bytes. *)
Fixpoint memcmp_eq (a b : list byte) (n : nat) : bool :=
  match n with
  | O => true
  | S n' =>
      match a, b with
      | x :: a', y :: b' => Byte.eqb x y && memcmp_eq a' b' n'
      | _, _ => false
      end
  end.

(** ** Umbrales

    The macros are [double] constants; each is exactly representable in
    binary32, and a [float] promoted to [double] keeps its value, so the
    comparisons can be made on the binary32 values. *)

Definition f30 : spec_float := Wire.float_of_bits 0x41F00000.
Definition f70 : spec_float := Wire.float_of_bits 0x428C0000.
Definition f80 : spec_float := Wire.float_of_bits 0x42A00000.
Definition f0 : spec_float := Wire.float_of_bits 0.

Definition TEMP_THRESHOLD : spec_float := f30.
Definition HUM_THRESHOLD : spec_float := f80.
Definition SOIL_THRESHOLD_LOW : spec_float := f30.
Definition SOIL_THRESHOLD_HIGH : spec_float := f70.
(** [int] operands are converted to [double] exactly, so [luz > 700.0] is the
    comparison of integers. *)
Definition LDR_THRESHOLD : Z := 700.
Definition MQ5_THRESHOLD : Z := 1500.

(** [a < b] and [a > b] on floats; both are false when an operand is a NaN. *)
Definition flt (a b : spec_float) : bool := SFltb a b.
Definition fgt (a b : spec_float) : bool := SFltb b a.
Definition fle (a b : spec_float) : bool := SFleb a b.

(** Sign, mantissa and exponent of a finite float, to check the constants. *)
Definition finite_parts (x : spec_float) : option (bool * Z * Z) :=
  match x with
  | S754_finite s m e => Some (s, Z.pos m, e)
  | _ => None
  end.

(** ** Text

    [String] values and C strings are Rocq strings. *)

(** The two characters written ["\n"] in the sketch denote a line feed. *)
Definition nl : string := String "010"%char "".

(** [String(n)] for an [int], and the [%d] conversion of [printf]: the decimal
    digits, with a minus sign for a negative number. *)
Definition String_int (n : Z) : string := NilZero.string_of_int (Z.to_int n).

(** [msg.length()] used as a condition. *)
Definition nonempty (msg : string) : bool := negb (String.length msg =? 0)%nat.

(** A formatter with one decimal, rounding half away from zero on the exact
    value.  It is the instance used to run the model on examples; the
    definitions below do not depend on it. *)
Definition fixed1 (x : spec_float) : string :=
  match x with
  | S754_zero s => if s then "-0.0" else "0.0"
  | S754_infinity s => if s then "-inf" else "inf"
  | S754_nan => "nan"
  | S754_finite s m e =>
      let tenths :=
        if 0 <=? e then Z.pos m * 2 ^ e * 10
        else (Z.pos m * 20 + 2 ^ (- e)) / (2 * 2 ^ (- e)) in
      (if s then "-" else "") +:+ String_int (tenths / 10) +:+ "."
        +:+ String_int (tenths mod 10)
  end.

(** ** Time source

    [struct tm] as filled by [getLocalTime]: [tm_year] counts from 1900 and
    [tm_mon] from 0. *)
Record tm := {
  tm_year : Z;
  tm_mon : Z;
  tm_mday : Z;
  tm_hour : Z;
  tm_min : Z;
  tm_sec : Z
}.

(** A broken-down time as [localtime_r] produces it, for a date with a
    four-digit year. *)
Definition tm_ok (t : tm) : Prop :=
  1000 <= tm_year t + 1900 <= 9999 /\ 0 <= tm_mon t <= 11 /\
  1 <= tm_mday t <= 31 /\ 0 <= tm_hour t <= 23 /\
  0 <= tm_min t <= 59 /\ 0 <= tm_sec t <= 60.

(** A number printed on two digits, as [%m], [%d] and [%H] do. *)
Definition two_digits (n : Z) : string :=
  if n <? 10 then "0" +:+ String_int n else String_int n.

(** The conversions the sketch uses. *)
Definition strftime_conv (c : ascii) (t : tm) : string :=
  match c with
  | "Y"%char => String_int (tm_year t + 1900)
  | "m"%char => two_digits (tm_mon t + 1)
  | "d"%char => two_digits (tm_mday t)
  | "H"%char => two_digits (tm_hour t)
  | _ => ""
  end.

Fixpoint strftime_text (format : string) (t : tm) : string :=
  match format with
  | EmptyString => ""
  | String "%" (String c rest) => strftime_conv c t +:+ strftime_text rest t
  | String a rest => String a (strftime_text rest t)
  end.

(** [strftime(buf, maxsize, format, &t)].  When the text and its terminator
    do not fit in [maxsize] bytes the C function returns 0 and leaves the
    buffer indeterminate; the model then yields the empty string, which is
    not a path of the card.  With [tm_ok] every call of the sketch fits. *)
Definition strftime (maxsize : nat) (format : string) (t : tm) : string :=
  let text := strftime_text format t in
  if (String.length text <? maxsize)%nat then text else "".

(** ** SD card

    The SD_MMC library is a collaborator of the sketch.  The model keeps what
    the sketch can observe: whether the volume is mounted, the directories
    and the content of the files.  A directory can be created and a file
    opened only under an existing directory; the root is the empty prefix of
    a top-level path.  Faults of the medium other than a missing volume are
    outside the model. *)
Record sd_card := {
  mounted : bool;
  dirs : gset string;
  files : gmap string string
}.

(** The path without its last component: ["/a/b"] gives ["/a"], ["/a"] gives
    the root [""]; a text without a slash is not a path. *)
Fixpoint parent (path : string) : option string :=
  match path with
  | EmptyString => None
  | String c rest =>
      match parent rest with
      | Some d => Some (String c d)
      | None => if Ascii.eqb c "/" then Some "" else None
      end
  end.

Definition is_dir (card : sd_card) (path : string) : bool :=
  bool_decide (path = "") || bool_decide (path ∈ dirs card).

Definition is_file (card : sd_card) (path : string) : bool :=
  bool_decide (is_Some (files card !! path)).

Definition parent_is_dir (card : sd_card) (path : string) : bool :=
  match parent path with
  | Some d => is_dir card d
  | None => false
  end.

(** [SD_MMC.exists(path)]. *)
Definition SD_exists (card : sd_card) (path : string) : bool :=
  mounted card && (bool_decide (path ∈ dirs card) || is_file card path).

(** [SD_MMC.mkdir(path)]; the sketch ignores the result. *)
Definition SD_mkdir (card : sd_card) (path : string) : sd_card :=
  if mounted card && parent_is_dir card path && negb (SD_exists card path)
  then {| mounted := mounted card;
          dirs := {[ path ]} ∪ dirs card;
          files := files card |}
  else card.

(** [if (!SD_MMC.exists(path)) SD_MMC.mkdir(path);] *)
Definition mkdir_if_absent (card : sd_card) (path : string) : sd_card :=
  if SD_exists card path then card else SD_mkdir card path.

(** [SD_MMC.open(path, FILE_APPEND)]: the file is created when it is absent;
    [None] is a [File] on which nothing is written, the invalid one that
    tests false or the handle of a directory. *)
Definition SD_open_append (card : sd_card) (path : string) : option sd_card :=
  if mounted card && parent_is_dir card path
     && negb (bool_decide (path ∈ dirs card))
  then Some {| mounted := mounted card;
               dirs := dirs card;
               files := if is_file card path then files card
                        else <[ path := "" ]> (files card) |}
  else None.

(** Content of a file, empty for a file that is absent. *)
Definition content (card : sd_card) (path : string) : string :=
  default "" (files card !! path).

(** [file.printf(...)] on a file opened for appending, then [file.close()]. *)
Definition File_append (card : sd_card) (path text : string) : sd_card :=
  {| mounted := mounted card;
     dirs := dirs card;
     files := <[ path := content card path +:+ text ]> (files card) |}.

(** The three buffers of [saveDataToSD] and their formats. *)
Definition datePath (timeinfo : tm) : string :=
  strftime 15 "/%Y-%m-%d" timeinfo.
Definition hourPath (timeinfo : tm) : string :=
  strftime 18 "/%Y-%m-%d/%H" timeinfo.
Definition filePath (timeinfo : tm) : string :=
  strftime 25 "/%Y-%m-%d/%H/data.txt" timeinfo.

(** ** Queues

    [xQueueCreate(5, ...)]; every send and receive of the sketch waits with
    [portMAX_DELAY], so a call on a full (resp. empty) queue does not return:
    [None] stands for the caller staying suspended. *)
Definition QUEUE_LENGTH : nat := 5.

Definition xQueueSend {A} (q : list A) (item : A) : option (list A) :=
  if (length q <? QUEUE_LENGTH)%nat then Some (q ++ [item]) else None.

Definition xQueueReceive {A} (q : list A) : option (A * list A) :=
  match q with
  | [] => None
  | item :: q' => Some (item, q')
  end.

(** ** State of the receiver *)

(** A [char*] is an address; the null pointer is the address 0, which is
    the address of no block. *)
Definition NULL : N := 0%N.

(** What the node does to its collaborators, in order: a call of
    [saveDataToSD], a call of [malloc] with the pointer it returned, a call
    of [bot.sendMessage] with the pointer it was made from, the text and
    its result, a call of [free]. *)
Inductive event :=
  | EvSave (temp hum soil : spec_float) (luz mq5 : Z)
  | EvMalloc (buf : N)
  | EvSendMessage (buf : N) (text : string) (ok : bool)
  | EvFree (buf : N).

(** [dhtQueue], [soilQueue] and [msgQueue] are the globals of the sketch;
    [msgQueue] carries the pointers the evaluators got from [malloc]: the
    address of a block of [heap] with the text copied into it, or the null
    pointer.  [dht_buf] and [soil_buf] are the local [buf] of an evaluator
    task that has called [malloc] and has not yet completed [xQueueSend]. *)
Record state := {
  dhtQueue : list dht_message_t;
  soilQueue : list soil_message_t;
  msgQueue : list N;
  heap : gmap N string;
  dht_buf : option N;
  soil_buf : option N;
  card : sd_card;
  trace : list event
}.

Definition init (c : sd_card) : state :=
  {| dhtQueue := []; soilQueue := []; msgQueue := []; heap := ∅;
     dht_buf := None; soil_buf := None; card := c; trace := [] |}.

Definition set_dhtQueue (q : list dht_message_t) (st : state) : state :=
  {| dhtQueue := q; soilQueue := soilQueue st; msgQueue := msgQueue st;
     heap := heap st; dht_buf := dht_buf st; soil_buf := soil_buf st;
     card := card st; trace := trace st |}.

Definition set_soilQueue (q : list soil_message_t) (st : state) : state :=
  {| dhtQueue := dhtQueue st; soilQueue := q; msgQueue := msgQueue st;
     heap := heap st; dht_buf := dht_buf st; soil_buf := soil_buf st;
     card := card st; trace := trace st |}.

Definition set_msgQueue (q : list N) (st : state) : state :=
  {| dhtQueue := dhtQueue st; soilQueue := soilQueue st; msgQueue := q;
     heap := heap st; dht_buf := dht_buf st; soil_buf := soil_buf st;
     card := card st; trace := trace st |}.

Definition set_heap (h : gmap N string) (st : state) : state :=
  {| dhtQueue := dhtQueue st; soilQueue := soilQueue st;
     msgQueue := msgQueue st; heap := h; dht_buf := dht_buf st;
     soil_buf := soil_buf st; card := card st; trace := trace st |}.

Definition set_dht_buf (b : option N) (st : state) : state :=
  {| dhtQueue := dhtQueue st; soilQueue := soilQueue st;
     msgQueue := msgQueue st; heap := heap st; dht_buf := b;
     soil_buf := soil_buf st; card := card st; trace := trace st |}.

Definition set_soil_buf (b : option N) (st : state) : state :=
  {| dhtQueue := dhtQueue st; soilQueue := soilQueue st;
     msgQueue := msgQueue st; heap := heap st; dht_buf := dht_buf st;
     soil_buf := b; card := card st; trace := trace st |}.

Definition set_card (c : sd_card) (st : state) : state :=
  {| dhtQueue := dhtQueue st; soilQueue := soilQueue st;
     msgQueue := msgQueue st; heap := heap st; dht_buf := dht_buf st;
     soil_buf := soil_buf st; card := c; trace := trace st |}.

Definition emit (e : event) (st : state) : state :=
  {| dhtQueue := dhtQueue st; soilQueue := soilQueue st;
     msgQueue := msgQueue st; heap := heap st; dht_buf := dht_buf st;
     soil_buf := soil_buf st; card := card st; trace := trace st ++ [e] |}.

(** The block [malloc] returns when it finds room: one that is not in
    use, at an address that is not null. *)
Definition malloc_block (h : gmap N string) : N :=
  fresh ({[ NULL ]} ∪ dom h).

(** [malloc(msg.length() + 1)] followed by [msg.toCharArray(buf, ...)];
    [mem] tells whether the allocator finds room.  If it does, the result
    is a block that is not in use, holding the text of [msg].  If it does
    not, [malloc] returns the null pointer; the sketch does not test it,
    [toCharArray] returns at once on a null buffer, and the null pointer is
    what the task goes on with. *)
Definition malloc_copy (mem : bool) (msg : string) (st : state)
    : N * state :=
  if mem then
    let buf := malloc_block (heap st) in
    (buf, emit (EvMalloc buf) (set_heap (<[ buf := msg ]> (heap st)) st))
  else (NULL, emit (EvMalloc NULL) st).

(** [free(buf)]; [free(NULL)] does nothing. *)
Definition free (buf : N) (st : state) : state :=
  if (buf =? NULL)%N then emit (EvFree buf) st
  else emit (EvFree buf) (set_heap (delete buf (heap st)) st).

(** [String(buf)] for a [char*]: the text at that address, the empty
    [String] for the null pointer. *)
Definition String_of (h : gmap N string) (buf : N) : string :=
  if (buf =? NULL)%N then "" else default "" (h !! buf).

(** ** The sender nodes

    The two sender sketches read their sensors once per wake period, hand
    the bytes of their [sensorSend] structure to [esp_now_send] and go to
    deep sleep.  What they print on the serial port and how they configure
    the radio is left out; what they send, the pin they drive and how they
    end is kept, in order, as a list of effects. *)

(** *** The structure as bytes

    [&sensorSend] cast to a pointer to bytes: the object representation of
    the fields on the ESP32, the counterpart of [Wire]. *)

Module Repr.

(** A [float] in memory: sign in bit 31, biased exponent in bits 30..23,
    fraction in bits 22..0.  A NaN is given the default pattern of the
    platform. *)
Definition bits_of_float (x : spec_float) : Z :=
  match x with
  | S754_zero s => Z.b2z s * 2 ^ 31
  | S754_infinity s => Z.b2z s * 2 ^ 31 + 255 * 2 ^ 23
  | S754_nan => 0x7FC00000
  | S754_finite s m e =>
      if Z.pos m <? 2 ^ 23 then Z.b2z s * 2 ^ 31 + Z.pos m
      else Z.b2z s * 2 ^ 31 + (e + 150) * 2 ^ 23 + (Z.pos m - 2 ^ 23)
  end.

(** An [int] in memory: two's complement on 32 bits. *)
Definition bits_of_int (n : Z) : Z := n mod 2 ^ 32.

Definition byte_of (z : Z) : byte :=
  default x00 (Byte.of_N (Z.to_N (z mod 256))).

(** The four bytes of a word, least significant first. *)
Definition bytes_of_word (w : Z) : list byte :=
  [byte_of w; byte_of (Z.shiftr w 8); byte_of (Z.shiftr w 16);
   byte_of (Z.shiftr w 24)].

(** An [int] assigned to a [float]: the nearest binary32 value, ties to
    even. *)
Definition float_of_int (n : Z) : spec_float :=
  binary_normalize 24 128 n 0 false.

Definition isnan (x : spec_float) : bool :=
  match x with
  | S754_nan => true
  | _ => false
  end.

End Repr.

(** *** Soil node (soil_moisture_pump.ino) *)

Module SoilNode.

Definition SOIL_PIN : Z := 34.
Definition RELAY_PIN : Z := 23.
Definition UMBRAL_HUMEDAD : Z := 30.
Definition VALOR_SECO : Z := 2590.
Definition VALOR_MOJADO : Z := 1200.
Definition RELAY_ACTIVO_LOW : bool := false.

Definition receiverMAC : list byte := [x5c; x01; x3b; x72; xf2; xcc].

Record struct_message_send := {
  soil : spec_float
}.

Definition sensorSend_bytes (sensorSend : struct_message_send)
    : list byte :=
  Repr.bytes_of_word (Repr.bits_of_float (soil sensorSend)).

Inductive effect :=
  | DigitalWrite (pin : Z) (high : bool)
  | TimerWakeup (us : Z)
  | EspNowSend (peer : list byte) (data : list byte)
  | TaskDelay (ms : Z)
  | DeepSleepStart.

(** [map] of the Arduino core for the ESP32: the arithmetic is that of
    [long], with the division of C, which truncates.  The products of the
    sketch stay far inside the range of [long] for every reading of the
    converter. *)
Definition map (x in_min in_max out_min out_max : Z) : Z :=
  let run := in_max - in_min in
  if run =? 0 then -1
  else
    let rise := out_max - out_min in
    let delta := x - in_min in
    Z.quot (delta * rise) run + out_min.

(** The macro [constrain(amt, low, high)]. *)
Definition constrain (amt low high : Z) : Z :=
  if amt <? low then low else if high <? amt then high else amt.

(** The percentage computed from the reading [raw] of [analogRead]. *)
Definition pct (raw : Z) : Z :=
  constrain (map raw VALOR_SECO VALOR_MOJADO 0 100) 0 100.

(** What the task sees each time it evaluates the condition of its wait
    loop: the flag set by [OnDataSent] and the value of [millis() - t0]. *)
Record glance := {
  envioCompleto : bool;
  elapsed : Z
}.

(** [while (!envioCompleto && millis() - t0 < 500) vTaskDelay(10 ms);]
    from the [k]-th evaluation of the condition on.  [None]: the fuel does
    not suffice to see the loop end. *)
Fixpoint wait_send (fuel : nat) (seen : nat -> glance) (k : nat)
    : option (list effect) :=
  match fuel with
  | O => None
  | S fuel' =>
      if negb (envioCompleto (seen k)) && (elapsed (seen k) <? 500)
      then option_map (cons (TaskDelay 10)) (wait_send fuel' seen (S k))
      else Some []
  end.

Definition relay_on : effect :=
  if RELAY_ACTIVO_LOW then DigitalWrite RELAY_PIN false
  else DigitalWrite RELAY_PIN true.

Definition relay_off : effect :=
  if RELAY_ACTIVO_LOW then DigitalWrite RELAY_PIN true
  else DigitalWrite RELAY_PIN false.

(** [tareaHumedad]; the result of [esp_now_send] is only printed. *)
Definition tareaHumedad (fuel : nat) (raw : Z) (seen : nat -> glance)
    : option (list effect) :=
  let pct := map raw VALOR_SECO VALOR_MOJADO 0 100 in
  let pct := constrain pct 0 100 in
  let sensorSend := {| soil := Repr.float_of_int pct |} in
  match wait_send fuel seen 0 with
  | Some waited =>
      Some
        ([EspNowSend receiverMAC (sensorSend_bytes sensorSend)] ++ waited
         ++ (if pct <? UMBRAL_HUMEDAD
             then [relay_on; TaskDelay 2000; relay_off]
             else [])
         ++ [TaskDelay 100; DeepSleepStart])
  | None => None
  end.

(** [setup]: its effects and whether it creates the task; the two
    arguments tell whether [esp_now_init] and [esp_now_add_peer] return
    [ESP_OK]. *)
Definition setup (init_ok peer_ok : bool) : list effect * bool :=
  let done := [relay_off; TimerWakeup (30 * 1000000)] in
  if negb init_ok then (done, false)
  else if negb peer_ok then (done, false)
  else (done, true).

(** One wake period: [setup], then the task if it was created; [loop] does
    nothing. *)
Definition wake (fuel : nat) (init_ok peer_ok : bool) (raw : Z)
    (seen : nat -> glance) : option (list effect) :=
  let (done, task) := setup init_ok peer_ok in
  if task then option_map (app done) (tareaHumedad fuel raw seen)
  else Some done.

(** The levels written to the relay pin, in order. *)
Definition relay_levels (effects : list effect) : list bool :=
  omap
    (fun e =>
       match e with
       | DigitalWrite pin high => if pin =? RELAY_PIN then Some high else None
       | _ => None
       end)
    effects.

(** The payloads handed to [esp_now_send], in order. *)
Definition sends (effects : list effect) : list (list byte * list byte) :=
  omap
    (fun e =>
       match e with
       | EspNowSend peer data => Some (peer, data)
       | _ => None
       end)
    effects.

(** The clock moves on between two evaluations of the condition. *)
Definition advancing (seen : nat -> glance) : Prop :=
  0 <= elapsed (seen O) /\
  forall k, elapsed (seen k) < elapsed (seen (S k)).

End SoilNode.

(** *** Environment node *)

Module DhtNode.

Definition receiverMAC : list byte := [x5c; x01; x3b; x72; xf2; xcc].

Record struct_message_send := {
  temp : spec_float;
  hum : spec_float;
  luz : Z;
  mq5 : Z
}.

(** The four fields lie at offsets 0, 4, 8 and 12. *)
Definition sensorSend_bytes (sensorSend : struct_message_send)
    : list byte :=
  Repr.bytes_of_word (Repr.bits_of_float (temp sensorSend))
  ++ Repr.bytes_of_word (Repr.bits_of_float (hum sensorSend))
  ++ Repr.bytes_of_word (Repr.bits_of_int (luz sensorSend))
  ++ Repr.bytes_of_word (Repr.bits_of_int (mq5 sensorSend)).

Inductive effect :=
  | EspNowSend (peer : list byte) (data : list byte)
  | Delay (ms : Z)
  | DeepSleep (us : Z).

(** How [setup] ends, after the effects listed: in one of its two loops
    [while (true) delay(1000)], or in deep sleep. *)
Inductive outcome :=
  | Stuck (effects : list effect)
  | Asleep (effects : list effect).

(** [setup]; the two flags tell whether [esp_now_init] and
    [esp_now_add_peer] return [ESP_OK], and [t], [h], [luz] and [mq5] are
    the four readings.  The first [delay(100)] follows [Serial.begin], the
    second the send. *)
Definition setup (init_ok peer_ok : bool) (t h : spec_float) (luz mq5 : Z)
    : outcome :=
  let begun := [Delay 100] in
  if negb init_ok then Stuck begun
  else if negb peer_ok then Stuck begun
  else
    let sent :=
      if Repr.isnan t || Repr.isnan h then []
      else
        let sensorSend := {| temp := t; hum := h; luz := luz; mq5 := mq5 |} in
        [EspNowSend receiverMAC (sensorSend_bytes sensorSend)] in
    Asleep (begun ++ sent ++ [Delay 100; DeepSleep (30 * 1000000)]).

(** The effects seen so far when a loop [while (true) delay(1000)] has gone
    round [n] times; all the effects when [setup] has reached deep sleep. *)
Definition observed (n : nat) (o : outcome) : list effect :=
  match o with
  | Stuck effects => effects ++ repeat (Delay 1000) n
  | Asleep effects => effects
  end.

End DhtNode.

(** ** The sketch *)

Section Receiver.

(** The two float formatters of the platform: [String(x, 1)] of the Arduino
    core and the [%.1f] conversion of [printf].  Both print a [float] with
    one decimal; the development relies on nothing else about them. *)
Variable String_float1 : spec_float -> string.
Variable printf_f1 : spec_float -> string.

Inductive printf_arg :=
  | AFloat (x : spec_float)
  | AInt (n : Z).

(** [printf] for the conversions the sketch uses: [%.1f], [%d] and [%%]. *)
Fixpoint printf_text (format : string) (args : list printf_arg) : string :=
  match format with
  | EmptyString => ""
  | String "%" (String "%" rest) => String "%" (printf_text rest args)
  | String "%" (String "d" rest) =>
      match args with
      | AInt n :: args' => String_int n +:+ printf_text rest args'
      | _ => ""
      end
  | String "%" (String "." (String "1" (String "f" rest))) =>
      match args with
      | AFloat x :: args' => printf_f1 x +:+ printf_text rest args'
      | _ => ""
      end
  | String a rest => String a (printf_text rest args)
  end.

(** The line written by [file.printf] in [saveDataToSD]. *)
Definition log_line (temp hum soil : spec_float) (luz mq5 : Z) : string :=
  printf_text
    ("Temp: %.1f°C, Hum: %.1f%%, Suelo: %.1f%%, Luz: %d, MQ5: %d" +:+ nl)
    [AFloat temp; AFloat hum; AFloat soil; AInt luz; AInt mq5].

(** [saveDataToSD(temp, hum, soil, luz, mq5)]; [now] is what
    [getLocalTime(&timeinfo)] delivers at the call, [None] when it fails. *)
Definition saveDataToSD (now : option tm) (temp hum soil : spec_float)
    (luz mq5 : Z) (st : state) : state :=
  let st := emit (EvSave temp hum soil luz mq5) st in
  match now with
  | None => st
  | Some timeinfo =>
      let c := card st in
      let c := mkdir_if_absent c (datePath timeinfo) in
      let c := mkdir_if_absent c (hourPath timeinfo) in
      match SD_open_append c (filePath timeinfo) with
      | Some c' =>
          set_card
            (File_append c' (filePath timeinfo)
               (log_line temp hum soil luz mq5)) st
      | None => set_card c st
      end
  end.

(** *** Recepción ESP-NOW *)

Record esp_now_recv_info_t := {
  src_addr : list byte
}.

(** [OnDataRecv(info, incoming, len)], with [len] the number of bytes of
    [incoming].  [None]: the callback is suspended in [xQueueSend]. *)
Definition OnDataRecv (info : esp_now_recv_info_t) (incoming : list byte)
    (now : option tm) (st : state) : option state :=
  let len := Z.of_nat (length incoming) in
  if memcmp_eq (src_addr info) soilSenderMAC 6
     && (len =? sizeof_soil_message_t)
  then
    let s := memcpy_soil incoming in
    match xQueueSend (soilQueue st) s with
    | Some q =>
        Some (saveDataToSD now f0 f0 (soil s) 0 0 (set_soilQueue q st))
    | None => None
    end
  else if memcmp_eq (src_addr info) unifiedSenderMAC 6
          && (len =? sizeof_dht_message_t)
  then
    let d := memcpy_dht incoming in
    match xQueueSend (dhtQueue st) d with
    | Some q =>
        Some (saveDataToSD now (temp d) (hum d) f0 (luz d) (mq5 d)
                (set_dhtQueue q st))
    | None => None
    end
  else Some st.

(** *** Tareas *)

Definition line_temp (d : dht_message_t) : string :=
  "⚠ Alta temperatura: " +:+ String_float1 (temp d) +:+ "°C" +:+ nl.
Definition line_hum (d : dht_message_t) : string :=
  "💧 Alta humedad: " +:+ String_float1 (hum d) +:+ "%" +:+ nl.
Definition line_luz (d : dht_message_t) : string :=
  "🌑 Luz baja: " +:+ String_int (luz d) +:+ nl.
Definition line_mq5 (d : dht_message_t) : string :=
  "🔥 Posible gas detectado: " +:+ String_int (mq5 d) +:+ nl.

(** The text [msg] built by one pass of [DHTTask]. *)
Definition DHTTask_msg (d : dht_message_t) : string :=
  let msg := "" in
  let msg := if fgt (temp d) TEMP_THRESHOLD then msg +:+ line_temp d
             else msg in
  let msg := if fgt (hum d) HUM_THRESHOLD then msg +:+ line_hum d
             else msg in
  let msg := if LDR_THRESHOLD <? luz d then msg +:+ line_luz d else msg in
  let msg := if MQ5_THRESHOLD <? mq5 d then msg +:+ line_mq5 d else msg in
  msg.

Definition line_dry (s : soil_message_t) : string :=
  "🚨 Suelo muy seco, Bomba encendida: " +:+ String_float1 (soil s)
    +:+ "%" +:+ nl.
Definition line_wet (s : soil_message_t) : string :=
  "🌊 Suelo demasiado húmedo: " +:+ String_float1 (soil s) +:+ "%" +:+ nl.

(** The text [msg] built by one pass of [SoilTask]. *)
Definition SoilTask_msg (s : soil_message_t) : string :=
  let msg := "" in
  if flt (soil s) SOIL_THRESHOLD_LOW then msg +:+ line_dry s
  else if fgt (soil s) SOIL_THRESHOLD_HIGH then msg +:+ line_wet s
  else msg.

(** One scheduling step of [DHTTask]: either the pass from [xQueueReceive]
    up to the call of [xQueueSend], or the completion of that send.
    [mem] tells whether [malloc], if the step calls it, finds room.
    [None]: the task is suspended on the queue it waits for. *)
Definition DHTTask (mem : bool) (st : state) : option state :=
  match dht_buf st with
  | Some buf =>
      match xQueueSend (msgQueue st) buf with
      | Some q => Some (set_dht_buf None (set_msgQueue q st))
      | None => None
      end
  | None =>
      match xQueueReceive (dhtQueue st) with
      | Some (d, q) =>
          let st := set_dhtQueue q st in
          let msg := DHTTask_msg d in
          if nonempty msg then
            let (buf, st) := malloc_copy mem msg st in
            Some (set_dht_buf (Some buf) st)
          else Some st
      | None => None
      end
  end.

(** One scheduling step of [SoilTask], as for [DHTTask]. *)
Definition SoilTask (mem : bool) (st : state) : option state :=
  match soil_buf st with
  | Some buf =>
      match xQueueSend (msgQueue st) buf with
      | Some q => Some (set_soil_buf None (set_msgQueue q st))
      | None => None
      end
  | None =>
      match xQueueReceive (soilQueue st) with
      | Some (s, q) =>
          let st := set_soilQueue q st in
          let msg := SoilTask_msg s in
          if nonempty msg then
            let (buf, st) := malloc_copy mem msg st in
            Some (set_soil_buf (Some buf) st)
          else Some st
      | None => None
      end
  end.

(** [String(recvBuffer)]: the text held by the buffer, the empty text when
    the pointer is null. *)
Definition String_of_buf (st : state) (buf : N) : string :=
  String_of (heap st) buf.

(** One pass of [TelegramTask]; [ok] is the result of [bot.sendMessage]. *)
Definition TelegramTask (ok : bool) (st : state) : option state :=
  match xQueueReceive (msgQueue st) with
  | Some (recvBuffer, q) =>
      let st := set_msgQueue q st in
      let st :=
        emit (EvSendMessage recvBuffer (String_of_buf st recvBuffer) ok)
          st in
      Some (free recvBuffer st)
  | None => None
  end.

(** *** The node as a transition system

    A step is what one party does between two suspensions: a whole call of
    the receive callback, the part of an evaluator pass on either side of
    its [xQueueSend], a whole pass of the dispatcher.  The parties share the
    three queues and the allocator only, and each step uses them through one
    queue operation and at most one allocation or release; whether an
    allocation finds room is an input of the step, as the result of a
    delivery is.  The card is
    touched by the callback alone, which is why its [saveDataToSD] is taken
    together with the send before it: what the tasks do in between neither
    sees nor changes the card.  A party that is suspended has no step;
    [run] is a sequence of steps that all happen. *)

Inductive action :=
  | Receive (info : esp_now_recv_info_t) (incoming : list byte)
      (now : option tm)
  | RunDHT (mem : bool)
  | RunSoil (mem : bool)
  | RunTelegram (ok : bool).

Definition step (a : action) (st : state) : option state :=
  match a with
  | Receive info incoming now => OnDataRecv info incoming now st
  | RunDHT mem => DHTTask mem st
  | RunSoil mem => SoilTask mem st
  | RunTelegram ok => TelegramTask ok st
  end.

Fixpoint run (acts : list action) (st : state) : option state :=
  match acts with
  | [] => Some st
  | a :: acts' =>
      match step a st with
      | Some st' => run acts' st'
      | None => None
      end
  end.

(** The dispatcher alone, once per delivery result. *)
Definition dispatch (oks : list bool) (st : state) : option state :=
  run (map RunTelegram oks) st.

(** ** Vocabulary of the properties *)

(** *** Floats *)

(** The exact value of a finite binary32 float in units of 2^-149, the
    weight of the last bit of the smallest floats; [None] for an infinity
    or a NaN. *)
Definition float_units (x : spec_float) : option Z :=
  match x with
  | S754_zero _ => Some 0
  | S754_finite s m e =>
      Some ((if s then -1 else 1) * (Z.pos m * 2 ^ (e + 149)))
  | _ => None
  end.

(** The shape of a decoded binary32 float: a 24-bit mantissa whose leading
    bit is set unless the exponent is the smallest one. *)
Definition binary32 (x : spec_float) : Prop :=
  match x with
  | S754_finite _ m e =>
      -149 <= e <= 104 /\ Z.pos m < 2 ^ 24 /\ (-149 < e -> 2 ^ 23 <= Z.pos m)
  | _ => True
  end.

(** *** Messages *)

(** Whether the callback accepts a message, and for which class. *)
Definition is_soil_message (info : esp_now_recv_info_t)
    (incoming : list byte) : Prop :=
  src_addr info = soilSenderMAC /\ length incoming = 4%nat.

Definition is_dht_message (info : esp_now_recv_info_t)
    (incoming : list byte) : Prop :=
  src_addr info = unifiedSenderMAC /\ length incoming = 16%nat.

(** *** Traces *)

(** The steps of the three tasks, as opposed to the receive callback. *)
Definition is_task (a : action) : bool :=
  match a with
  | Receive _ _ _ => false
  | _ => true
  end.

(** The calls of [saveDataToSD] in a trace. *)
Definition is_save (e : event) : bool :=
  match e with
  | EvSave _ _ _ _ _ => true
  | _ => false
  end.

Definition saves (tr : list event) : list event := filter is_save tr.

(** The pointers handed to [free] in a trace, and the results of the
    deliveries attempted in it, in order. *)
Definition freed (tr : list event) : list N :=
  omap (fun e => match e with EvFree buf => Some buf | _ => None end) tr.

Definition deliveries (tr : list event) : list bool :=
  omap
    (fun e => match e with EvSendMessage _ _ ok => Some ok | _ => None end)
    tr.

(** The pointers whose delivery was attempted in a trace, in order. *)
Definition sent (tr : list event) : list N :=
  omap
    (fun e => match e with EvSendMessage buf _ _ => Some buf | _ => None end)
    tr.

(** The allocations and releases of a trace replayed on the set of blocks
    in use: the blocks in use at the end, or [None] when a block is
    allocated while in use or released while not in use.  A [malloc] that
    returned the null pointer has allocated nothing, and [free(NULL)]
    releases nothing. *)
Fixpoint replay (tr : list event) (live : gset N) : option (gset N) :=
  match tr with
  | [] => Some live
  | EvMalloc buf :: tr' =>
      if decide (buf = NULL) then replay tr' live
      else if decide (buf ∈ live) then None
      else replay tr' ({[ buf ]} ∪ live)
  | EvFree buf :: tr' =>
      if decide (buf = NULL) then replay tr' live
      else if decide (buf ∈ live) then replay tr' (live ∖ {[ buf ]})
      else None
  | _ :: tr' => replay tr' live
  end.

(** The steps in which [malloc], if it is called, finds room. *)
Definition mallocs_succeed (a : action) : Prop :=
  match a with
  | RunDHT mem | RunSoil mem => mem = true
  | _ => True
  end.

(** *** Paths and storage *)

(** A text without the path separator. *)
Fixpoint slash_free (s : string) : bool :=
  match s with
  | EmptyString => true
  | String c rest => negb (Ascii.eqb c "/") && slash_free rest
  end.

(** The date and the hour of a broken-down time, as [YYYY-MM-DD] and
    [HH]. *)
Definition date_text (t : tm) : string :=
  String_int (tm_year t + 1900) +:+ "-" +:+ two_digits (tm_mon t + 1)
    +:+ "-" +:+ two_digits (tm_mday t).

Definition hour_text (t : tm) : string := two_digits (tm_hour t).

Definition same_hour (t1 t2 : tm) : Prop :=
  tm_year t1 = tm_year t2 /\ tm_mon t1 = tm_mon t2 /\
  tm_mday t1 = tm_mday t2 /\ tm_hour t1 = tm_hour t2.

(** The card is mounted and the three paths of [saveDataToSD] are not
    taken by an entry of the other kind. *)
Definition storage_ready (c : sd_card) (t : tm) : Prop :=
  mounted c = true /\ is_file c (datePath t) = false /\
  is_file c (hourPath t) = false /\ filePath t ∉ dirs c.

(** The checks run over the ranges of [tm_ok]. *)
Definition year_text_ok (y : Z) : bool :=
  (String.length (String_int y) =? 4)%nat && slash_free (String_int y).

Definition two_digits_ok (n : Z) : bool :=
  (String.length (two_digits n) =? 2)%nat && slash_free (two_digits n).

(** The lines of the log: the line of a soil record, with 0 in the fields
    of the environment node, and the line of an environment record, with 0
    in the soil field. *)
Definition record_line (line : string) : Prop :=
  (exists s, line = log_line f0 f0 s 0 0) \/
  (exists t h l m, line = log_line t h f0 l m).

(** *** Alerts *)

(** The conditions of the environment evaluator as the specification lists
    them, with the predicate and the line of each one, written out;
    [spec_alert_text] is the alert the specification describes: the lines
    of the conditions that hold, in the order of the list, each one
    followed by a line feed (character 10). *)
Inductive condition :=
  | HighTemperature
  | HighHumidity
  | LowLight
  | GasDetected.

Definition spec_conditions : list condition :=
  [HighTemperature; HighHumidity; LowLight; GasDetected].

Definition spec_fires (d : dht_message_t) (c : condition) : bool :=
  match c with
  | HighTemperature => fgt (temp d) f30
  | HighHumidity => fgt (hum d) f80
  | LowLight => 700 <? luz d
  | GasDetected => 1500 <? mq5 d
  end.

Definition spec_line (d : dht_message_t) (c : condition) : string :=
  match c with
  | HighTemperature => "⚠ Alta temperatura: " +:+ String_float1 (temp d) +:+ "°C"
  | HighHumidity => "💧 Alta humedad: " +:+ String_float1 (hum d) +:+ "%"
  | LowLight => "🌑 Luz baja: " +:+ String_int (luz d)
  | GasDetected => "🔥 Posible gas detectado: " +:+ String_int (mq5 d)
  end.

Definition spec_alert_text (d : dht_message_t) : string :=
  foldr (fun line text => line +:+ String "010"%char text) ""
    (map (spec_line d) (List.filter (spec_fires d) spec_conditions)).

(** An evaluator step raises the alert [text]: the step allocates a buffer
    holding [text] and leaves the alert queue as it is; the next step of
    the task, once the alert queue has room, puts that buffer at its
    back. *)
Definition raises (task : state -> option state)
    (pending : state -> option N) (st : state) (text : string)
    : Prop :=
  exists buf st1,
    task st = Some st1 /\ pending st1 = Some buf /\
    heap st1 !! buf = Some text /\ msgQueue st1 = msgQueue st /\
    ((length (msgQueue st) < QUEUE_LENGTH)%nat ->
       exists st2, task st1 = Some st2 /\
         msgQueue st2 = msgQueue st ++ [buf] /\
         heap st2 !! buf = Some text).

(** *** Ownership of the alert buffers *)

(** The pointers held: those in transit on the alert queue and those an
    evaluator got from [malloc] and has not yet sent.  The buffers that
    have an owner are the pointers held that are not null. *)
Definition held (st : state) : list N :=
  msgQueue st ++ option_list (dht_buf st) ++ option_list (soil_buf st).

Definition not_null (bufs : list N) : list N :=
  filter (fun buf => buf <> NULL) bufs.

Definition owned (st : state) : list N := not_null (held st).

(** The text handed to the Telegram client is empty exactly when the
    pointer is null. *)
Definition sends_text (e : event) : Prop :=
  match e with
  | EvSendMessage buf text _ => text = "" <-> buf = NULL
  | _ => True
  end.

(** The ownership discipline of the alert buffers: no buffer has two
    owners, the allocated buffers are exactly the owned ones, every buffer
    holds a text that is not empty, and the Telegram client was handed an
    empty text exactly for the null pointers; the trace allocates only
    blocks that are not in use and releases only blocks that are, and the
    pointers released are those whose delivery was attempted, once each
    and in the same order. *)
Definition consistent (st : state) : Prop :=
  NoDup (owned st) /\
  (forall buf, buf ∈ owned st <-> buf ∈ dom (heap st)) /\
  (forall buf text, heap st !! buf = Some text -> text <> "") /\
  Forall sends_text (trace st) /\
  replay (trace st) ∅ = Some (dom (heap st)) /\
  freed (trace st) = sent (trace st).

(** What the dispatcher does with the pointers [bufs], one delivery result
    each: it sends the text of the buffer, then releases the buffer. *)
Definition dispatch_events (h : gmap N string)
    (bufs : list N) (oks : list bool) : list event :=
  flat_map
    (fun '(buf, ok) => [EvSendMessage buf (String_of h buf) ok; EvFree buf])
    (zip bufs oks).

(** *** Sample inputs *)

(** 2024-03-01 14:22:00 and, in the same hour, 14:40:05. *)
Definition sample_time : tm :=
  {| tm_year := 124; tm_mon := 2; tm_mday := 1;
     tm_hour := 14; tm_min := 22; tm_sec := 0 |}.

Definition sample_time_later : tm :=
  {| tm_year := 124; tm_mon := 2; tm_mday := 1;
     tm_hour := 14; tm_min := 40; tm_sec := 5 |}.

(** A mounted card with nothing on it. *)
Definition empty_card : sd_card :=
  {| mounted := true; dirs := ∅; files := ∅ |}.

(** The payloads of a soil reading of 25.0, 50.0 and 75.0 percent, of an
    environment reading of 31.0 degrees, 50.0 percent, light 0, gas 0, and
    of one of 31.0 degrees, 85.0 percent, light 800, gas 1600. *)
Definition soil_25 : list byte := [x00; x00; xc8; x41].

Definition soil_50 : list byte := [x00; x00; x48; x42].

Definition soil_75 : list byte := [x00; x00; x96; x42].

Definition dht_31 : list byte :=
  [x00; x00; xf8; x41; x00; x00; x48; x42;
   x00; x00; x00; x00; x00; x00; x00; x00].

Definition dht_all : list byte :=
  [x00; x00; xf8; x41; x00; x00; xaa; x42;
   x20; x03; x00; x00; x40; x06; x00; x00].

Definition from_soil : esp_now_recv_info_t :=
  {| src_addr := soilSenderMAC |}.

Definition from_dht : esp_now_recv_info_t :=
  {| src_addr := unifiedSenderMAC |}.

Definition from_stranger : esp_now_recv_info_t :=
  {| src_addr := [x5c; x01; x3b; x72; xf2; xcc] |}.

(** A soil reading and an environment reading arrive, then each evaluator
    runs twice: once to build its alert, once to put it on the queue.
    Both allocations find room. *)
Definition sample_actions : list action :=
  [Receive from_soil soil_25 (Some sample_time);
   Receive from_dht dht_31 (Some sample_time_later);
   RunSoil true; RunSoil true; RunDHT true; RunDHT true].


(** *** Further vocabulary: the node as a whole *)

(** Every queue within the length it was created with. *)
Definition within_capacity (st : state) : Prop :=
  (length (dhtQueue st) <= QUEUE_LENGTH)%nat /\
  (length (soilQueue st) <= QUEUE_LENGTH)%nat /\
  (length (msgQueue st) <= QUEUE_LENGTH)%nat.

(** Nothing is in transit: the queues are empty and no evaluator holds a
    buffer. *)
Definition quiescent (st : state) : Prop :=
  dhtQueue st = [] /\ soilQueue st = [] /\ msgQueue st = [] /\
  dht_buf st = None /\ soil_buf st = None.

(** The work left to the tasks: a record may still need its evaluator pass,
    the send of its alert and the pass of the dispatcher. *)
Definition backlog (st : state) : nat :=
  3 * (length (dhtQueue st) + length (soilQueue st))
  + 2 * (length (option_list (dht_buf st))
         + length (option_list (soil_buf st)))
  + length (msgQueue st).

(** Whether the record carried by a message, if the callback accepts it,
    makes its evaluator build an alert. *)
Definition alerting (info : esp_now_recv_info_t) (incoming : list byte)
    : bool :=
  let len := Z.of_nat (length incoming) in
  if memcmp_eq (src_addr info) soilSenderMAC 6
     && (len =? sizeof_soil_message_t)
  then nonempty (SoilTask_msg (memcpy_soil incoming))
  else if memcmp_eq (src_addr info) unifiedSenderMAC 6
          && (len =? sizeof_dht_message_t)
  then nonempty (DHTTask_msg (memcpy_dht incoming))
  else false.

Definition quiet_action (a : action) : Prop :=
  match a with
  | Receive info incoming _ => alerting info incoming = false
  | _ => True
  end.

(** An action without the reading of the clock that comes with it. *)
Definition forget_time (a : action) : action :=
  match a with
  | Receive info incoming _ => Receive info incoming None
  | _ => a
  end.

(** No alert is being prepared or waiting, and none has been: the records
    still queued build no text, no buffer is allocated, and the trace holds
    calls of the storage writer only. *)
Definition silent (st : state) : Prop :=
  Forall (fun d => nonempty (DHTTask_msg d) = false) (dhtQueue st) /\
  Forall (fun s => nonempty (SoilTask_msg s) = false) (soilQueue st) /\
  msgQueue st = [] /\ heap st = ∅ /\ dht_buf st = None /\
  soil_buf st = None /\ Forall (fun e => is_save e = true) (trace st).

(** A step of a task in a schedule where every delivery has the result
    [ok] and every allocation the result [mem]. *)
Definition task_step (ok mem : bool) (a : action) : Prop :=
  match a with
  | Receive _ _ _ => False
  | RunTelegram ok' => ok' = ok
  | RunDHT mem' | RunSoil mem' => mem' = mem
  end.

(** *** The sender nodes *)

(** [binary32] as a test, and the checks run over the percentages: the
    value sent for [p] percent is a binary32 float of value exactly [p],
    and its comparisons with the two soil thresholds are those of the
    integers. *)
Definition binary32_check (x : spec_float) : bool :=
  match x with
  | S754_finite _ m e =>
      (-149 <=? e) && (e <=? 104) && (Z.pos m <? 2 ^ 24)
      && ((e <=? -149) || (2 ^ 23 <=? Z.pos m))
  | _ => true
  end.

Definition percentage_ok (p : Z) : bool :=
  let x := Repr.float_of_int p in
  binary32_check x
  && match float_units x with
     | Some u => u =? p * 2 ^ 149
     | None => false
     end
  && Bool.eqb (flt x SOIL_THRESHOLD_LOW) (p <? 30)
  && Bool.eqb (fgt x SOIL_THRESHOLD_HIGH) (70 <? p).

(** The record the soil node sends for the reading [raw], and its bytes. *)
Definition soil_sent (raw : Z) : SoilNode.struct_message_send :=
  {| SoilNode.soil := Repr.float_of_int (SoilNode.pct raw) |}.

(** The record of the environment node for its four readings. *)
Definition dht_sent (t h : spec_float) (l m : Z)
    : DhtNode.struct_message_send :=
  {| DhtNode.temp := t; DhtNode.hum := h; DhtNode.luz := l;
     DhtNode.mq5 := m |}.

(** *** Counting alerts *)

(** A step that brings in a record for which an alert is due. *)
Definition brings_alert (a : action) : bool :=
  match a with
  | Receive info incoming _ => alerting info incoming
  | _ => false
  end.

(** The alerts under way: the queued records that will make their
    evaluator build a text, the pointers held by the evaluators and the
    pointers on the alert queue. *)
Definition alerts_under_way (st : state) : nat :=
  length (List.filter (fun d => nonempty (DHTTask_msg d)) (dhtQueue st))
  + length (List.filter (fun s => nonempty (SoilTask_msg s)) (soilQueue st))
  + length (option_list (dht_buf st)) + length (option_list (soil_buf st))
  + length (msgQueue st).

(** The send of the soil node is confirmed before the fourth look at the
    flag, 30 ms after it was made. *)
Definition sample_glances (k : nat) : SoilNode.glance :=
  {| SoilNode.envioCompleto := (3 <=? k)%nat;
     SoilNode.elapsed := 10 * Z.of_nat k |}.

(** Five soil records of 50.0 percent wait for their evaluator. *)
Definition full_soil_queue : state :=
  set_soilQueue (repeat (memcpy_soil soil_50) 5) (init empty_card).

(** A soil reading of 50.0 percent and a message from a stranger arrive,
    and the soil evaluator runs once. *)
Definition quiet_actions : list action :=
  [Receive from_soil soil_50 (Some sample_time);
   Receive from_stranger soil_25 None; RunSoil true].

(** ** Properties *)

(** *** Floats: constants, decoding and comparison *)

Example f30_is_30 : finite_parts f30 = Some (false, 30 * 2 ^ 19, -19).
Proof. reflexivity. Qed.

Example f70_is_70 : finite_parts f70 = Some (false, 70 * 2 ^ 17, -17).
Proof. reflexivity. Qed.

Example f80_is_80 : finite_parts f80 = Some (false, 80 * 2 ^ 17, -17).
Proof. reflexivity. Qed.

Lemma f30_normal : f30 = S754_finite false 15728640 (-19).
Proof. reflexivity. Qed.

Lemma f70_normal : f70 = S754_finite false 9175040 (-17).
Proof. reflexivity. Qed.

Lemma f80_normal : f80 = S754_finite false 10485760 (-17).
Proof. reflexivity. Qed.

Lemma f0_normal : f0 = S754_zero false.
Proof. reflexivity. Qed.

Lemma sample_dht_fields :
  memcpy_dht dht_31 =
    {| temp := S754_finite false 16252928 (-19);
       hum := S754_finite false 13107200 (-18); luz := 0; mq5 := 0 |}.
Proof. vm_compute. reflexivity. Qed.

Example sample_dht_is_31_and_50 :
  finite_parts (temp (memcpy_dht dht_31)) = Some (false, 31 * 2 ^ 19, -19) /\
  finite_parts (hum (memcpy_dht dht_31)) = Some (false, 50 * 2 ^ 18, -18).
Proof. split; vm_compute; reflexivity. Qed.

Lemma SFcompare_swap (a b : spec_float) :
  SFcompare b a = CompOpp <$> SFcompare a b.
Proof.
  destruct a as [sa|sa| |sa ma ea], b as [sb|sb| |sb mb eb]; simpl;
    try done; try (by destruct sa); try (by destruct sb);
    try (by destruct sa, sb).
  rewrite (Z.compare_antisym eb ea).
  destruct sa, sb; simpl; try done;
    destruct (eb ?= ea); simpl; try done;
    by rewrite (Pos.compare_cont_antisym ma mb Eq).
Qed.

(** [a <= b] excludes [b < a]. *)
Lemma fle_not_gt (a b : spec_float) : fle a b = true -> fgt a b = false.
Proof.
  unfold fle, fgt, SFleb, SFltb. rewrite (SFcompare_swap a b).
  by destruct (SFcompare a b) as [[]|].
Qed.

Lemma fle_not_lt (a b : spec_float) : fle a b = true -> flt b a = false.
Proof. apply fle_not_gt. Qed.

(** Nothing lies below 30 and above 70. *)
Lemma below_low_not_above_high (x : spec_float) :
  flt x SOIL_THRESHOLD_LOW = true -> fgt x SOIL_THRESHOLD_HIGH = false.
Proof.
  unfold flt, fgt, SFltb, SOIL_THRESHOLD_LOW, SOIL_THRESHOLD_HIGH.
  rewrite f30_normal, f70_normal.
  destruct x as [s|s| |s m e]; unfold SFcompare; try done.
  - by destruct s.
  - destruct s; [done|].
    destruct (Z.compare_spec e (-19)); destruct (Z.compare_spec (-17) e);
      try done; lia.
Qed.

Lemma float_of_bits_binary32 (w : Z) :
  0 <= w < 2 ^ 32 -> binary32 (Wire.float_of_bits w).
Proof.
  intros Hw. unfold Wire.float_of_bits.
  assert (Hm : 0 <= Z.land w (2 ^ 23 - 1) < 2 ^ 23).
  { change (2 ^ 23 - 1) with (Z.ones 23). rewrite Z.land_ones by lia.
    apply Z.mod_pos_bound. lia. }
  assert (He : 0 <= Z.land (Z.shiftr w 23) 255 < 2 ^ 8).
  { change 255 with (Z.ones 8). rewrite Z.land_ones by lia.
    apply Z.mod_pos_bound. lia. }
  set (m := Z.land w (2 ^ 23 - 1)) in *.
  set (e := Z.land (Z.shiftr w 23) 255) in *.
  destruct (Z.eqb_spec e 0) as [He0|He0].
  - destruct (Z.eqb_spec m 0) as [Hm0|Hm0]; [exact I|].
    simpl. rewrite Z2Pos.id by lia. lia.
  - destruct (Z.eqb_spec e 255) as [He1|He1].
    + destruct (m =? 0); exact I.
    + simpl. rewrite Z2Pos.id by lia. lia.
Qed.

Lemma pow2_split (a b : Z) : 0 <= a -> 0 <= b -> 2 ^ (a + b) = 2 ^ a * 2 ^ b.
Proof. intros. by apply Z.pow_add_r. Qed.

(** A float with the smaller exponent is below a normal float with a larger
    one. *)
Lemma units_lt_by_exponent (m1 m2 : positive) (e1 e2 : Z) :
  -149 <= e1 -> e1 < e2 -> Z.pos m1 < 2 ^ 24 -> 2 ^ 23 <= Z.pos m2 ->
  Z.pos m1 * 2 ^ (e1 + 149) < Z.pos m2 * 2 ^ (e2 + 149).
Proof.
  intros He1 He Hm1 Hm2.
  replace (e2 + 149) with ((e1 + 149) + 1 + (e2 - e1 - 1)) by lia.
  rewrite (pow2_split (e1 + 149 + 1) (e2 - e1 - 1)) by lia.
  rewrite (pow2_split (e1 + 149) 1) by lia.
  assert (HA : 0 < 2 ^ (e1 + 149)) by (apply Z.pow_pos_nonneg; lia).
  assert (HB : 0 < 2 ^ (e2 - e1 - 1)) by (apply Z.pow_pos_nonneg; lia).
  change (2 ^ 1) with 2. change (2 ^ 24) with (2 * 2 ^ 23) in Hm1.
  set (A := 2 ^ (e1 + 149)) in *. set (B := 2 ^ (e2 - e1 - 1)) in *.
  set (k := 2 ^ 23) in *.
  assert (H1 : Z.pos m1 * A < 2 * k * A) by (apply Z.mul_lt_mono_pos_r; lia).
  assert (H2 : 2 * k * A <= 2 * Z.pos m2 * A)
    by (apply Z.mul_le_mono_nonneg_r; lia).
  assert (H3 : 2 * Z.pos m2 * A * 1 <= 2 * Z.pos m2 * A * B)
    by (apply Z.mul_le_mono_nonneg_l; lia).
  lia.
Qed.

(** On decoded floats [flt] is the order of the values. *)
Lemma flt_exact (x y : spec_float) (vx vy : Z) :
  binary32 x -> binary32 y ->
  float_units x = Some vx -> float_units y = Some vy ->
  flt x y = true <-> vx < vy.
Proof.
  unfold flt, SFltb.
  destruct x as [sx|sx| |sx mx ex], y as [sy|sy| |sy my ey]; try done;
    unfold SFcompare, binary32, float_units;
    intros Hx Hy [= <-] [= <-].
  - lia.
  - assert (0 < 2 ^ (ey + 149)) by (apply Z.pow_pos_nonneg; lia).
    destruct sy; split; try done; nia.
  - assert (0 < 2 ^ (ex + 149)) by (apply Z.pow_pos_nonneg; lia).
    destruct sx; split; try done; nia.
  - destruct Hx as (Hex & Hmx & Hnx), Hy as (Hey & Hmy & Hny).
    assert (0 < 2 ^ (ex + 149)) by (apply Z.pow_pos_nonneg; lia).
    assert (0 < 2 ^ (ey + 149)) by (apply Z.pow_pos_nonneg; lia).
    destruct sx, sy.
    + destruct (Z.compare_spec ex ey) as [->|Hlt|Hgt].
      * rewrite Pos.compare_cont_spec. cbn [Pos.switch_Eq].
        destruct (Pos.compare_spec mx my) as [->|Hm|Hm]; cbn [CompOpp];
          split; try done; nia.
      * pose proof (units_lt_by_exponent mx my ex ey ltac:(lia) Hlt Hmx
                      ltac:(apply Hny; lia)).
        split; [done|lia].
      * pose proof (units_lt_by_exponent my mx ey ex ltac:(lia) Hgt Hmy
                      ltac:(apply Hnx; lia)).
        split; [intros _|done]. lia.
    + split; [intros _|done]. nia.
    + split; [done|]. nia.
    + destruct (Z.compare_spec ex ey) as [->|Hlt|Hgt].
      * rewrite Pos.compare_cont_spec. cbn [Pos.switch_Eq].
        destruct (Pos.compare_spec mx my) as [->|Hm|Hm];
          split; try done; nia.
      * pose proof (units_lt_by_exponent mx my ex ey ltac:(lia) Hlt Hmx
                      ltac:(apply Hny; lia)).
        split; [intros _|done]. lia.
      * pose proof (units_lt_by_exponent my mx ey ex ltac:(lia) Hgt Hmy
                      ltac:(apply Hnx; lia)).
        split; [done|lia].
Qed.

Lemma fle_exact (x y : spec_float) (vx vy : Z) :
  binary32 x -> binary32 y ->
  float_units x = Some vx -> float_units y = Some vy ->
  fle x y = true <-> vx <= vy.
Proof.
  intros Hx Hy Ux Uy.
  assert (E : fle x y = negb (flt y x)).
  { unfold fle, flt, SFleb, SFltb. rewrite (SFcompare_swap x y).
    destruct x as [sx|sx| |sx mx ex], y as [sy|sy| |sy my ey]; try done;
      unfold SFcompare; cbn [fmap option_fmap option_map].
    - by destruct sy.
    - by destruct sx.
    - by destruct sx, sy, (ex ?= ey), (Pos.compare_cont Eq mx my). }
  rewrite E, negb_true_iff, <- not_true_iff_false.
  rewrite (flt_exact y x vy vx Hy Hx Uy Ux). lia.
Qed.

(** The comparisons of the two evaluators on a decoded value [v], counted
    in units of 2^-149: they are the comparisons with 30, 70 and 80. *)
Lemma threshold_comparisons_exact (x : spec_float) (v : Z) :
  binary32 x -> float_units x = Some v ->
  (flt x SOIL_THRESHOLD_LOW = true <-> v < 30 * 2 ^ 149) /\
  (fgt x SOIL_THRESHOLD_HIGH = true <-> 70 * 2 ^ 149 < v) /\
  (fle SOIL_THRESHOLD_LOW x = true <-> 30 * 2 ^ 149 <= v) /\
  (fle x SOIL_THRESHOLD_HIGH = true <-> v <= 70 * 2 ^ 149) /\
  (fgt x TEMP_THRESHOLD = true <-> 30 * 2 ^ 149 < v) /\
  (fgt x HUM_THRESHOLD = true <-> 80 * 2 ^ 149 < v).
Proof.
  intros Hx Ux.
  assert (H30 : binary32 f30) by (by apply float_of_bits_binary32).
  assert (H70 : binary32 f70) by (by apply float_of_bits_binary32).
  assert (H80 : binary32 f80) by (by apply float_of_bits_binary32).
  assert (U30 : float_units f30 = Some (30 * 2 ^ 149)) by reflexivity.
  assert (U70 : float_units f70 = Some (70 * 2 ^ 149)) by reflexivity.
  assert (U80 : float_units f80 = Some (80 * 2 ^ 149)) by reflexivity.
  unfold SOIL_THRESHOLD_LOW, SOIL_THRESHOLD_HIGH, TEMP_THRESHOLD,
    HUM_THRESHOLD, fgt.
  split; [by apply flt_exact|].
  split; [by apply (flt_exact f70 x)|].
  split; [by apply fle_exact|].
  split; [by apply fle_exact|].
  split; [by apply (flt_exact f30 x)|].
  by apply (flt_exact f80 x).
Qed.

(** *** Text *)

Lemma string_app_cons (c : ascii) (a b : string) :
  String c a +:+ b = String c (a +:+ b).
Proof. reflexivity. Qed.

Lemma string_app_nil_l (a : string) : "" +:+ a = a.
Proof. reflexivity. Qed.

Lemma string_app_nil_r (a : string) : a +:+ "" = a.
Proof.
  induction a as [|c a IH]; [done|]. rewrite string_app_cons. by f_equal.
Qed.

Lemma string_app_assoc (a b c : string) : (a +:+ b) +:+ c = a +:+ b +:+ c.
Proof.
  induction a as [|x a IH]; [done|]. rewrite !string_app_cons. by f_equal.
Qed.

Lemma string_length_app (a b : string) :
  String.length (a +:+ b) = (String.length a + String.length b)%nat.
Proof.
  induction a as [|c a IH]; [done|].
  rewrite string_app_cons. simpl. by rewrite IH.
Qed.

Lemma nonempty_text (msg : string) : nonempty msg = true -> msg <> "".
Proof. by intros H ->. Qed.

Lemma log_line_text t h s l m :
  log_line t h s l m =
    "Temp: " +:+ printf_f1 t +:+ "°C, Hum: " +:+ printf_f1 h
      +:+ "%, Suelo: " +:+ printf_f1 s +:+ "%, Luz: " +:+ String_int l
      +:+ ", MQ5: " +:+ String_int m +:+ nl.
Proof. reflexivity. Qed.

Lemma line_dry_not_wet s : line_dry s <> line_wet s.
Proof. unfold line_dry, line_wet. discriminate. Qed.

(** *** Queues *)

Lemma xQueueSend_room {A} (q : list A) (item : A) :
  (length q < QUEUE_LENGTH)%nat -> xQueueSend q item = Some (q ++ [item]).
Proof.
  intros H. unfold xQueueSend.
  by destruct (Nat.ltb_spec (length q) QUEUE_LENGTH); [|lia].
Qed.

Lemma xQueueSend_full {A} (q : list A) (item : A) :
  (QUEUE_LENGTH <= length q)%nat -> xQueueSend q item = None.
Proof.
  intros H. unfold xQueueSend.
  by destruct (Nat.ltb_spec (length q) QUEUE_LENGTH); [lia|].
Qed.

Lemma xQueueSend_Some {A} (q q' : list A) (item : A) :
  xQueueSend q item = Some q' -> q' = q ++ [item].
Proof. unfold xQueueSend. destruct (_ <? _)%nat; congruence. Qed.

(** *** The receive callback *)

Lemma memcmp_eq_true (a b : list byte) (n : nat) :
  length a = n -> length b = n -> memcmp_eq a b n = true -> a = b.
Proof.
  revert a b. induction n as [|n IH]; intros [|x a] [|y b] Ha Hb;
    simpl in *; try done.
  intros [Hxy Hab]%andb_prop. apply Byte.byte_dec_bl in Hxy.
  f_equal; [done|]. apply IH; [lia | lia | done].
Qed.

Lemma memcmp_eq_refl (a : list byte) (n : nat) :
  length a = n -> memcmp_eq a a n = true.
Proof.
  revert a. induction n as [|n IH]; intros [|x a] Ha; simpl in *; try done.
  rewrite (Byte.byte_dec_lb eq_refl). simpl. apply IH. lia.
Qed.

Lemma memcmp_eq_false (a b : list byte) (n : nat) :
  length a = n -> length b = n -> a <> b -> memcmp_eq a b n = false.
Proof.
  intros Ha Hb Hne. destruct (memcmp_eq a b n) eqn:E; [|done].
  by apply memcmp_eq_true in E.
Qed.

Lemma OnDataRecv_soil info incoming now st :
  is_soil_message info incoming ->
  OnDataRecv info incoming now st =
    match xQueueSend (soilQueue st) (memcpy_soil incoming) with
    | Some q =>
        Some (saveDataToSD now f0 f0 (soil (memcpy_soil incoming)) 0 0
                (set_soilQueue q st))
    | None => None
    end.
Proof.
  intros [Hsrc Hlen]. unfold OnDataRecv. by rewrite Hsrc, Hlen.
Qed.

Lemma OnDataRecv_dht info incoming now st :
  is_dht_message info incoming ->
  OnDataRecv info incoming now st =
    match xQueueSend (dhtQueue st) (memcpy_dht incoming) with
    | Some q =>
        Some (saveDataToSD now (temp (memcpy_dht incoming))
                (hum (memcpy_dht incoming)) f0 (luz (memcpy_dht incoming))
                (mq5 (memcpy_dht incoming)) (set_dhtQueue q st))
    | None => None
    end.
Proof.
  intros [Hsrc Hlen]. unfold OnDataRecv. by rewrite Hsrc, Hlen.
Qed.

Lemma OnDataRecv_drop info incoming now st :
  length (src_addr info) = 6%nat ->
  ~ is_soil_message info incoming -> ~ is_dht_message info incoming ->
  OnDataRecv info incoming now st = Some st.
Proof.
  intros H6 Hs Hd. unfold OnDataRecv.
  destruct (memcmp_eq (src_addr info) soilSenderMAC 6) eqn:E1; simpl.
  - apply memcmp_eq_true in E1; [|done..].
    destruct (Z.of_nat (length incoming) =? sizeof_soil_message_t) eqn:E2.
    + exfalso. apply Hs. split; [done|]. unfold sizeof_soil_message_t in E2. lia.
    + rewrite E1. done.
  - destruct (memcmp_eq (src_addr info) unifiedSenderMAC 6) eqn:E3; [|done].
    apply memcmp_eq_true in E3; [|done..]. simpl.
    destruct (Z.of_nat (length incoming) =? sizeof_dht_message_t) eqn:E2; [|done].
    exfalso. apply Hd. split; [done|]. unfold sizeof_dht_message_t in E2. lia.
Qed.

(** [saveDataToSD] touches the card and the trace only. *)
Lemma saveDataToSD_queues now t h s l m st :
  let st' := saveDataToSD now t h s l m st in
  dhtQueue st' = dhtQueue st /\ soilQueue st' = soilQueue st /\
  msgQueue st' = msgQueue st /\ heap st' = heap st /\
  dht_buf st' = dht_buf st /\ soil_buf st' = soil_buf st /\
  trace st' = trace st ++ [EvSave t h s l m].
Proof.
  unfold saveDataToSD. destruct now as [timeinfo|]; [|done].
  by destruct (SD_open_append _ _).
Qed.

(** C1.  A message from a registered sender whose payload has the size of
    that sender's schema is decoded as that schema, and the record is put
    at the back of the queue of its class; the other two queues keep their
    content.  The put waits for room: while the queue of the class holds
    five records the callback stays suspended and has enqueued nothing. *)
Theorem OnDataRecv_routes_to_own_queue info incoming now st :
  (is_soil_message info incoming ->
     ((length (soilQueue st) < QUEUE_LENGTH)%nat ->
        exists st', OnDataRecv info incoming now st = Some st' /\
          soilQueue st' = soilQueue st ++ [memcpy_soil incoming] /\
          dhtQueue st' = dhtQueue st /\ msgQueue st' = msgQueue st) /\
     ((QUEUE_LENGTH <= length (soilQueue st))%nat ->
        OnDataRecv info incoming now st = None)) /\
  (is_dht_message info incoming ->
     ((length (dhtQueue st) < QUEUE_LENGTH)%nat ->
        exists st', OnDataRecv info incoming now st = Some st' /\
          dhtQueue st' = dhtQueue st ++ [memcpy_dht incoming] /\
          soilQueue st' = soilQueue st /\ msgQueue st' = msgQueue st) /\
     ((QUEUE_LENGTH <= length (dhtQueue st))%nat ->
        OnDataRecv info incoming now st = None)).
Proof.
  split; intros Hmsg.
  - rewrite (OnDataRecv_soil _ _ now st Hmsg). split; intros Hlen.
    + rewrite (xQueueSend_room _ _ Hlen). eexists. split; [reflexivity|].
      by destruct (saveDataToSD_queues now f0 f0
                     (soil (memcpy_soil incoming)) 0 0
                     (set_soilQueue (soilQueue st ++ [memcpy_soil incoming])
                        st)) as (-> & -> & -> & _).
    + by rewrite (xQueueSend_full _ _ Hlen).
  - rewrite (OnDataRecv_dht _ _ now st Hmsg). split; intros Hlen.
    + rewrite (xQueueSend_room _ _ Hlen). eexists. split; [reflexivity|].
      by destruct (saveDataToSD_queues now (temp (memcpy_dht incoming))
                     (hum (memcpy_dht incoming)) f0
                     (luz (memcpy_dht incoming)) (mq5 (memcpy_dht incoming))
                     (set_dhtQueue (dhtQueue st ++ [memcpy_dht incoming])
                        st)) as (-> & -> & -> & _).
    + by rewrite (xQueueSend_full _ _ Hlen).
Qed.

(** C2.  A message whose sender is not registered, or whose payload does
    not have the size of its sender's schema, leaves the whole state as it
    was: no queue grows, the card is not touched and the trace gains no
    call of [saveDataToSD]. *)
Theorem OnDataRecv_drops_unknown_or_malformed info incoming now st :
  length (src_addr info) = 6%nat ->
  (src_addr info <> soilSenderMAC /\ src_addr info <> unifiedSenderMAC) \/
  (src_addr info = soilSenderMAC /\ length incoming <> 4%nat) \/
  (src_addr info = unifiedSenderMAC /\ length incoming <> 16%nat) ->
  OnDataRecv info incoming now st = Some st.
Proof.
  intros H6 Hcase. apply OnDataRecv_drop; [done|..];
    intros [Hsrc Hlen]; destruct Hcase as [[H1 H2]|[[H1 H2]|[H1 H2]]];
    try done; rewrite H1 in Hsrc; discriminate.
Qed.

(** *** The card under the storage writer *)

Lemma SD_mkdir_files c path : files (SD_mkdir c path) = files c.
Proof. unfold SD_mkdir. by destruct (_ && _). Qed.

Lemma SD_mkdir_mounted c path : mounted (SD_mkdir c path) = mounted c.
Proof. unfold SD_mkdir. by destruct (_ && _). Qed.

Lemma content_mkdir c path p : content (SD_mkdir c path) p = content c p.
Proof. unfold content. by rewrite SD_mkdir_files. Qed.

Lemma content_mkdir_if_absent c path p :
  content (mkdir_if_absent c path) p = content c p.
Proof.
  unfold mkdir_if_absent. destruct (SD_exists c path); [done|].
  apply content_mkdir.
Qed.

Lemma content_open c c' path p :
  SD_open_append c path = Some c' -> content c' p = content c p.
Proof.
  unfold SD_open_append. destruct (_ && _); [|done]. intros [= <-].
  unfold content, is_file. simpl. case_bool_decide as Hf; [done|].
  destruct (decide (path = p)) as [->|Hne].
  - rewrite lookup_insert_eq. simpl.
    destruct (files c !! p) eqn:E; [|done]. exfalso. apply Hf. by eexists.
  - by rewrite lookup_insert_ne.
Qed.

Lemma content_append c path text p :
  content (File_append c path text) p =
    if decide (path = p) then content c p +:+ text else content c p.
Proof.
  unfold content at 1, File_append. simpl. case_decide as Hp.
  - subst. by rewrite lookup_insert_eq.
  - by rewrite lookup_insert_ne.
Qed.

Lemma content_insert (c : sd_card) (fs : gmap string string) path text p :
  files c = <[ path := text ]> fs ->
  content c p = if decide (p = path) then text else default "" (fs !! p).
Proof.
  intros E. unfold content. rewrite E. case_decide as Hp.
  - subst. by rewrite lookup_insert_eq.
  - by rewrite lookup_insert_ne.
Qed.

(** A call of [saveDataToSD] changes the content of at most one file, the
    one at [filePath], and only by putting its line after what was there. *)
Lemma saveDataToSD_content now t h s l m st p :
  content (card (saveDataToSD now t h s l m st)) p = content (card st) p \/
  exists timeinfo, now = Some timeinfo /\ p = filePath timeinfo /\
    content (card (saveDataToSD now t h s l m st)) p =
      content (card st) p +:+ log_line t h s l m.
Proof.
  unfold saveDataToSD. destruct now as [timeinfo|]; [|by left].
  cbn [card emit].
  set (c2 := mkdir_if_absent _ (hourPath timeinfo)).
  assert (H2 : forall q, content c2 q = content (card st) q).
  { intros q. unfold c2. by rewrite !content_mkdir_if_absent. }
  destruct (SD_open_append c2 (filePath timeinfo)) as [c3|] eqn:E;
    cbn [card set_card].
  - rewrite content_append. case_decide as Hp.
    + right. exists timeinfo. split; [done|]. split; [done|].
      by rewrite (content_open _ _ _ _ E), H2.
    + left. by rewrite (content_open _ _ _ _ E), H2.
  - left. apply H2.
Qed.

(** *** Only the callback touches the card *)

Lemma saves_app tr1 tr2 : saves (tr1 ++ tr2) = saves tr1 ++ saves tr2.
Proof. apply filter_app. Qed.

Lemma task_step_card a st st' :
  is_task a = true -> step a st = Some st' ->
  card st' = card st /\ saves (trace st') = saves (trace st).
Proof.
  destruct a as [info incoming now|mem|mem|ok]; simpl; [done|..]; intros _.
  - unfold DHTTask, malloc_copy. destruct (dht_buf st) as [buf|].
    + destruct (xQueueSend _ _); [|done]. by intros [= <-].
    + destruct (xQueueReceive _) as [[d q]|]; [|done].
      destruct (nonempty _); [|by intros [= <-]].
      destruct mem; intros [= <-]; simpl; (split; [done|]);
        rewrite saves_app; simpl; by rewrite app_nil_r.
  - unfold SoilTask, malloc_copy. destruct (soil_buf st) as [buf|].
    + destruct (xQueueSend _ _); [|done]. by intros [= <-].
    + destruct (xQueueReceive _) as [[s q]|]; [|done].
      destruct (nonempty _); [|by intros [= <-]].
      destruct mem; intros [= <-]; simpl; (split; [done|]);
        rewrite saves_app; simpl; by rewrite app_nil_r.
  - unfold TelegramTask. destruct (xQueueReceive _) as [[buf q]|]; [|done].
    unfold free. destruct (buf =? NULL)%N; intros [= <-]; simpl;
      (split; [done|]); rewrite !saves_app; simpl; by rewrite !app_nil_r.
Qed.

Lemma task_run_card acts st st' :
  forallb is_task acts = true -> run acts st = Some st' ->
  card st' = card st /\ saves (trace st') = saves (trace st).
Proof.
  revert st. induction acts as [|a acts IH]; intros st Hall Hrun;
    simpl in *.
  - by injection Hrun as <-.
  - apply andb_prop in Hall as [Ha Hall].
    destruct (step a st) as [st1|] eqn:E; [|done].
    destruct (task_step_card _ _ _ Ha E) as [Hc Hs].
    destruct (IH _ Hall Hrun) as [Hc' Hs']. split; congruence.
Qed.

(** C7.  When [getLocalTime] fails, [saveDataToSD] returns at once: the
    state after the call differs from the state before it only by the
    record of the call in the trace.  No directory is created and no file
    is opened or written, nothing is kept for a later attempt, and no
    later step of a task writes to the card. *)
Theorem saveDataToSD_without_time_writes_nothing t h s l m st :
  saveDataToSD None t h s l m st = emit (EvSave t h s l m) st /\
  card (saveDataToSD None t h s l m st) = card st /\
  (forall acts st',
     forallb is_task acts = true ->
     run acts (saveDataToSD None t h s l m st) = Some st' ->
     card st' = card st).
Proof.
  split; [done|]. split; [done|]. intros acts st' Hall Hrun.
  by destruct (task_run_card _ _ _ Hall Hrun) as [-> _].
Qed.

(** C6, amended.  The request for persistence is made by the receive
    callback, not by the evaluator tasks: a receive that accepts a record
    calls [saveDataToSD] exactly once, for that record, after putting it
    on its queue and whatever its values are; a step of a task never calls
    [saveDataToSD] and leaves the card as it is. *)
Theorem persistence_is_requested_by_the_callback :
  (forall info incoming now st st',
     OnDataRecv info incoming now st = Some st' ->
     (is_soil_message info incoming ->
        soilQueue st' = soilQueue st ++ [memcpy_soil incoming] /\
        saves (trace st') =
          saves (trace st)
            ++ [EvSave f0 f0 (soil (memcpy_soil incoming)) 0 0]) /\
     (is_dht_message info incoming ->
        dhtQueue st' = dhtQueue st ++ [memcpy_dht incoming] /\
        saves (trace st') =
          saves (trace st)
            ++ [EvSave (temp (memcpy_dht incoming))
                  (hum (memcpy_dht incoming)) f0
                  (luz (memcpy_dht incoming))
                  (mq5 (memcpy_dht incoming))])) /\
  (forall a st st',
     is_task a = true -> step a st = Some st' ->
     saves (trace st') = saves (trace st) /\ card st' = card st).
Proof.
  split.
  - intros info incoming now st st' Hrecv. split; intros Hmsg.
    + rewrite (OnDataRecv_soil _ _ now st Hmsg) in Hrecv.
      unfold xQueueSend in Hrecv.
      destruct (_ <? _)%nat; [|done].
      apply (inj Some) in Hrecv. subst st'.
      destruct (saveDataToSD_queues now f0 f0
                  (soil (memcpy_soil incoming)) 0 0
                  (set_soilQueue (soilQueue st ++ [memcpy_soil incoming])
                     st)) as (_ & -> & _ & _ & _ & _ & ->).
      split; [done|]. by rewrite saves_app.
    + rewrite (OnDataRecv_dht _ _ now st Hmsg) in Hrecv.
      unfold xQueueSend in Hrecv.
      destruct (_ <? _)%nat; [|done].
      apply (inj Some) in Hrecv. subst st'.
      destruct (saveDataToSD_queues now (temp (memcpy_dht incoming))
                  (hum (memcpy_dht incoming)) f0
                  (luz (memcpy_dht incoming)) (mq5 (memcpy_dht incoming))
                  (set_dhtQueue (dhtQueue st ++ [memcpy_dht incoming]) st))
        as (-> & _ & _ & _ & _ & _ & ->).
      split; [done|]. by rewrite saves_app.
  - intros a st st' Ha Hstep.
    by destruct (task_step_card _ _ _ Ha Hstep) as [-> ->].
Qed.

(** *** Paths *)

Lemma slash_free_app (a b : string) :
  slash_free (a +:+ b) = slash_free a && slash_free b.
Proof.
  induction a as [|c a IH]; [done|].
  rewrite string_app_cons. simpl. by rewrite IH, andb_assoc.
Qed.

Lemma parent_slash_free (s : string) : slash_free s = true -> parent s = None.
Proof.
  induction s as [|c s IH]; simpl; [done|].
  intros [Hc Hs]%andb_prop. rewrite (IH Hs).
  by destruct (Ascii.eqb c "/").
Qed.

Lemma parent_last (a b : string) :
  slash_free b = true -> parent (a +:+ String "/" b) = Some a.
Proof.
  intros Hb. induction a as [|c a IH].
  - change ("" +:+ String "/" b) with (String "/" b). simpl.
    by rewrite (parent_slash_free _ Hb).
  - rewrite string_app_cons. simpl. by rewrite IH.
Qed.

Lemma year_text (y : Z) :
  1000 <= y <= 9999 ->
  String.length (String_int y) = 4%nat /\ slash_free (String_int y) = true.
Proof.
  intros Hy.
  assert (Hall : forallb year_text_ok (seqZ 1000 9000) = true)
    by (vm_compute; reflexivity).
  rewrite forallb_forall in Hall.
  assert (Hin : In y (seqZ 1000 9000)).
  { apply list_elem_of_In, elem_of_seqZ. lia. }
  apply Hall in Hin. apply andb_prop in Hin as [H1 H2].
  by apply Nat.eqb_eq in H1.
Qed.

Lemma two_digits_text (n : Z) :
  0 <= n <= 99 ->
  String.length (two_digits n) = 2%nat /\ slash_free (two_digits n) = true.
Proof.
  intros Hn.
  assert (Hall : forallb two_digits_ok (seqZ 0 100) = true)
    by (vm_compute; reflexivity).
  rewrite forallb_forall in Hall.
  assert (Hin : In n (seqZ 0 100)).
  { apply list_elem_of_In, elem_of_seqZ. lia. }
  apply Hall in Hin. apply andb_prop in Hin as [H1 H2].
  by apply Nat.eqb_eq in H1.
Qed.

Lemma date_text_ok (t : tm) :
  tm_ok t ->
  String.length (date_text t) = 10%nat /\ slash_free (date_text t) = true.
Proof.
  intros (Hy & Hm & Hd & _). unfold date_text.
  destruct (year_text (tm_year t + 1900)) as [L1 S1]; [lia|].
  destruct (two_digits_text (tm_mon t + 1)) as [L2 S2]; [lia|].
  destruct (two_digits_text (tm_mday t)) as [L3 S3]; [lia|].
  rewrite !string_length_app, !slash_free_app, L1, L2, L3, S1, S2, S3.
  done.
Qed.

Lemma hour_text_ok (t : tm) :
  tm_ok t ->
  String.length (hour_text t) = 2%nat /\ slash_free (hour_text t) = true.
Proof. intros (_ & _ & _ & Hh & _). apply two_digits_text. lia. Qed.

Lemma datePath_text (t : tm) : tm_ok t -> datePath t = "/" +:+ date_text t.
Proof.
  intros Ht. destruct (date_text_ok t Ht) as [L _].
  assert (E : strftime_text "/%Y-%m-%d" t = "/" +:+ date_text t).
  { unfold date_text. simpl. by rewrite string_app_nil_r. }
  unfold datePath, strftime. rewrite E.
  change ("/" +:+ date_text t) with (String "/" (date_text t)).
  simpl. by rewrite L.
Qed.

Lemma hourPath_text (t : tm) :
  tm_ok t -> hourPath t = "/" +:+ date_text t +:+ "/" +:+ hour_text t.
Proof.
  intros Ht. destruct (date_text_ok t Ht) as [L _].
  destruct (hour_text_ok t Ht) as [L' _].
  assert (E : strftime_text "/%Y-%m-%d/%H" t =
              "/" +:+ date_text t +:+ "/" +:+ hour_text t).
  { unfold date_text, hour_text. simpl.
    by rewrite string_app_nil_r, !string_app_assoc. }
  unfold hourPath, strftime. rewrite E.
  change ("/" +:+ date_text t +:+ "/" +:+ hour_text t)
    with (String "/" (date_text t +:+ String "/" (hour_text t))).
  simpl. by rewrite string_length_app, L; simpl; rewrite L'.
Qed.

Lemma filePath_text (t : tm) :
  tm_ok t ->
  filePath t = "/" +:+ date_text t +:+ "/" +:+ hour_text t +:+ "/data.txt".
Proof.
  intros Ht. destruct (date_text_ok t Ht) as [L _].
  destruct (hour_text_ok t Ht) as [L' _].
  assert (E : strftime_text "/%Y-%m-%d/%H/data.txt" t =
              "/" +:+ date_text t +:+ "/" +:+ hour_text t +:+ "/data.txt").
  { unfold date_text, hour_text. simpl.
    by rewrite !string_app_assoc. }
  unfold filePath, strftime. rewrite E.
  change ("/" +:+ date_text t +:+ "/" +:+ hour_text t +:+ "/data.txt")
    with (String "/" (date_text t +:+ String "/" (hour_text t +:+ "/data.txt"))).
  simpl. by rewrite string_length_app, L; simpl; rewrite string_length_app, L'.
Qed.

Lemma path_lengths (t : tm) :
  tm_ok t ->
  String.length (datePath t) = 11%nat /\
  String.length (hourPath t) = 14%nat /\
  String.length (filePath t) = 23%nat.
Proof.
  intros Ht. destruct (date_text_ok t Ht) as [L _].
  destruct (hour_text_ok t Ht) as [L' _].
  rewrite datePath_text, hourPath_text, filePath_text by done.
  rewrite !string_length_app, L, L'. done.
Qed.

Lemma path_parents (t : tm) :
  tm_ok t ->
  parent (datePath t) = Some "" /\
  parent (hourPath t) = Some (datePath t) /\
  parent (filePath t) = Some (hourPath t).
Proof.
  intros Ht. destruct (date_text_ok t Ht) as [_ S].
  destruct (hour_text_ok t Ht) as [_ S'].
  rewrite hourPath_text, filePath_text, datePath_text by done.
  split; [|split].
  - by apply (parent_last "").
  - by apply (parent_last ("/" +:+ date_text t)).
  - replace ("/" +:+ date_text t +:+ "/" +:+ hour_text t +:+ "/data.txt")
      with (("/" +:+ date_text t +:+ "/" +:+ hour_text t)
              +:+ String "/" "data.txt")
      by (by rewrite !string_app_assoc).
    by apply parent_last.
Qed.

Lemma paths_distinct (t : tm) :
  tm_ok t ->
  datePath t <> hourPath t /\ datePath t <> filePath t /\
  hourPath t <> filePath t.
Proof.
  intros Ht. destruct (path_lengths t Ht) as (L1 & L2 & L3).
  repeat split; intros E; rewrite E in *; congruence.
Qed.

Lemma same_hour_paths (t1 t2 : tm) :
  same_hour t1 t2 ->
  datePath t2 = datePath t1 /\ hourPath t2 = hourPath t1 /\
  filePath t2 = filePath t1.
Proof.
  intros (Hy & Hm & Hd & Hh).
  unfold datePath, hourPath, filePath, strftime. simpl.
  by rewrite Hy, Hm, Hd, Hh.
Qed.

(** *** The storage writer on a ready card *)

Lemma mkdir_if_absent_ready c path d :
  mounted c = true -> parent path = Some d -> is_dir c d = true ->
  is_file c path = false ->
  mounted (mkdir_if_absent c path) = true /\
  files (mkdir_if_absent c path) = files c /\
  dirs (mkdir_if_absent c path) = {[ path ]} ∪ dirs c.
Proof.
  intros Hm Hp Hd Hf.
  unfold mkdir_if_absent, SD_mkdir, parent_is_dir, SD_exists.
  rewrite Hm, Hp, Hd, Hf, orb_false_r.
  destruct (bool_decide (path ∈ dirs c)) eqn:Hin;
    cbn [andb negb mounted files dirs].
  - apply bool_decide_eq_true_1 in Hin. split; [done|]. split; [done|].
    set_solver.
  - done.
Qed.

(** With the time known and the card ready, [saveDataToSD] leaves the two
    directories in place and the line at the end of the file. *)
Lemma saveDataToSD_ready timeinfo t h s l m st :
  tm_ok timeinfo -> storage_ready (card st) timeinfo ->
  let c' := card (saveDataToSD (Some timeinfo) t h s l m st) in
  mounted c' = true /\
  dirs c' = {[ datePath timeinfo; hourPath timeinfo ]} ∪ dirs (card st) /\
  files c' = <[ filePath timeinfo :=
                  content (card st) (filePath timeinfo)
                    +:+ log_line t h s l m ]> (files (card st)).
Proof.
  clear String_float1. intros Ht (Hm & Hfd & Hfh & Hnd).
  destruct (path_parents _ Ht) as (P1 & P2 & P3).
  destruct (paths_distinct _ Ht) as (D1 & D2 & D3).
  unfold saveDataToSD. cbn [card emit].
  set (c := card st) in Hm, Hfd, Hfh, Hnd |- *.
  destruct (mkdir_if_absent_ready c (datePath timeinfo) "" Hm P1 eq_refl Hfd)
    as (M1 & F1 & Dr1).
  set (c1 := mkdir_if_absent c (datePath timeinfo)) in M1, F1, Dr1 |- *.
  assert (Hd1 : is_dir c1 (datePath timeinfo) = true).
  { unfold is_dir. rewrite (bool_decide_eq_true_2 (_ ∈ dirs c1)).
    - apply orb_true_r.
    - rewrite Dr1. set_solver. }
  assert (Hfh1 : is_file c1 (hourPath timeinfo) = false).
  { unfold is_file in Hfh |- *. by rewrite F1. }
  destruct (mkdir_if_absent_ready c1 (hourPath timeinfo) _ M1 P2 Hd1 Hfh1)
    as (M2 & F2 & Dr2).
  set (c2 := mkdir_if_absent c1 (hourPath timeinfo)) in M2, F2, Dr2 |- *.
  assert (Hnd2 : filePath timeinfo ∉ dirs c2).
  { rewrite Dr2, Dr1. set_solver. }
  unfold SD_open_append, parent_is_dir, is_dir. rewrite M2, P3.
  rewrite (bool_decide_eq_true_2 (hourPath timeinfo ∈ dirs c2))
    by (rewrite Dr2; set_solver).
  rewrite orb_true_r, (bool_decide_eq_false_2 _ Hnd2).
  cbn [andb negb card set_card File_append mounted dirs files].
  split; [done|]. split; [rewrite Dr2, Dr1; set_solver|].
  unfold content, is_file. cbn [files]. rewrite F2, F1.
  case_bool_decide as Hf.
  - done.
  - rewrite lookup_insert_eq, insert_insert_eq. cbn [default].
    destruct (files c !! filePath timeinfo) eqn:E; [|done].
    exfalso. apply Hf. by eexists.
Qed.

(** With the time known and the card ready, the line of the call goes to
    the end of the file of the hour and no other file changes. *)
Lemma saveDataToSD_ready_content timeinfo t h s l m st p :
  tm_ok timeinfo -> storage_ready (card st) timeinfo ->
  content (card (saveDataToSD (Some timeinfo) t h s l m st)) p =
    if decide (p = filePath timeinfo)
    then content (card st) p +:+ log_line t h s l m
    else content (card st) p.
Proof.
  intros Ht Hr.
  destruct (saveDataToSD_ready timeinfo t h s l m st Ht Hr) as (_ & _ & F).
  rewrite (content_insert _ _ _ _ p F). by case_decide as Hp; [subst|].
Qed.

Lemma storage_ready_after timeinfo timeinfo2 t h s l m st :
  tm_ok timeinfo -> storage_ready (card st) timeinfo ->
  same_hour timeinfo timeinfo2 ->
  storage_ready (card (saveDataToSD (Some timeinfo) t h s l m st)) timeinfo2.
Proof.
  clear String_float1. intros Ht Hr Hsame.
  destruct (saveDataToSD_ready timeinfo t h s l m st Ht Hr) as (M & D & F).
  destruct (same_hour_paths _ _ Hsame) as (Ed & Eh & Ef).
  destruct (paths_distinct _ Ht) as (D1 & D2 & D3).
  destruct Hr as (Hm & Hfd & Hfh & Hnd).
  unfold storage_ready, is_file. unfold is_file in Hfd, Hfh.
  rewrite Ed, Eh, Ef, F, D.
  rewrite !lookup_insert_ne by done.
  split; [done|]. split; [done|]. split; [done|]. set_solver.
Qed.

(** C5, amended.  With the time known, a four-digit year and the card
    ready, [saveDataToSD] writes to the file [/YYYY-MM-DD/HH/data.txt]
    named after the time of the call: the directories [/YYYY-MM-DD] and
    [/YYYY-MM-DD/HH] exist afterwards, whether or not they existed before,
    the file ends with the one line of the call and no other file changes.
    A second call within the same hour finds the same path, adds no
    directory and puts its line after the first one. *)
Theorem saveDataToSD_appends_to_hour_file timeinfo t h s l m st :
  tm_ok timeinfo -> storage_ready (card st) timeinfo ->
  let st1 := saveDataToSD (Some timeinfo) t h s l m st in
  filePath timeinfo =
    "/" +:+ date_text timeinfo +:+ "/" +:+ hour_text timeinfo
        +:+ "/data.txt" /\
  dirs (card st1) =
    {[ "/" +:+ date_text timeinfo;
       "/" +:+ date_text timeinfo +:+ "/" +:+ hour_text timeinfo ]}
    ∪ dirs (card st) /\
  (forall p,
     content (card st1) p =
       if decide (p = filePath timeinfo)
       then content (card st) p +:+ log_line t h s l m
       else content (card st) p) /\
  (forall timeinfo2 t2 h2 s2 l2 m2,
     tm_ok timeinfo2 -> same_hour timeinfo timeinfo2 ->
     let st2 := saveDataToSD (Some timeinfo2) t2 h2 s2 l2 m2 st1 in
     filePath timeinfo2 = filePath timeinfo /\
     dirs (card st2) = dirs (card st1) /\
     (forall p,
        content (card st2) p =
          if decide (p = filePath timeinfo)
          then content (card st) p +:+ log_line t h s l m
                 +:+ log_line t2 h2 s2 l2 m2
          else content (card st) p)).
Proof.
  intros Ht Hr st1.
  destruct (saveDataToSD_ready timeinfo t h s l m st Ht Hr) as (M & D & F).
  fold st1 in M, D, F.
  assert (C1 : forall p,
             content (card st1) p =
               if decide (p = filePath timeinfo)
               then content (card st) p +:+ log_line t h s l m
               else content (card st) p).
  { intros p. by apply saveDataToSD_ready_content. }
  split; [by apply filePath_text|].
  split; [by rewrite D, datePath_text, hourPath_text|].
  split; [done|].
  intros timeinfo2 t2 h2 s2 l2 m2 Ht2 Hsame st2.
  pose proof (storage_ready_after _ _ t h s l m st Ht Hr Hsame) as Hr2.
  fold st1 in Hr2.
  destruct (saveDataToSD_ready timeinfo2 t2 h2 s2 l2 m2 st1 Ht2 Hr2)
    as (M2 & D2 & F2).
  fold st2 in M2, D2, F2.
  destruct (same_hour_paths _ _ Hsame) as (Ed & Eh & Ef).
  rewrite Ed, Eh in D2. rewrite Ef in F2.
  split; [done|]. split.
  - rewrite D2, D. by rewrite (assoc_L (∪)), (idemp_L (∪)).
  - intros p. rewrite (content_insert _ _ _ _ p F2).
    case_decide as Hp.
    + subst p. rewrite C1. rewrite decide_True by done.
      by rewrite string_app_assoc.
    + fold (content (card st1) p). rewrite C1. by rewrite decide_False.
Qed.

(** *** The lines of the log *)

Lemma step_content a st st' p :
  step a st = Some st' ->
  content (card st') p = content (card st) p \/
  exists line, record_line line /\
    content (card st') p = content (card st) p +:+ line.
Proof.
  destruct a as [info incoming now|mem|mem|ok].
  - cbn [step]. unfold OnDataRecv.
    destruct (_ && _).
    { destruct (xQueueSend _ _) as [q|]; [|done]. intros [= <-].
      destruct (saveDataToSD_content now f0 f0
                  (soil (memcpy_soil incoming)) 0 0 (set_soilQueue q st) p)
        as [E|(ti & _ & _ & E)]; [by left|].
      right. eexists. split; [|exact E]. left. by eexists. }
    destruct (_ && _); [|intros [= <-]; by left].
    destruct (xQueueSend _ _) as [q|]; [|done]. intros [= <-].
    destruct (saveDataToSD_content now (temp (memcpy_dht incoming))
                (hum (memcpy_dht incoming)) f0 (luz (memcpy_dht incoming))
                (mq5 (memcpy_dht incoming)) (set_dhtQueue q st) p)
      as [E|(ti & _ & _ & E)]; [by left|].
    right. eexists. split; [|exact E]. right. by do 4 eexists.
  - intros Hstep. left.
    by destruct (task_step_card (RunDHT mem) st st' eq_refl Hstep) as [-> _].
  - intros Hstep. left.
    by destruct (task_step_card (RunSoil mem) st st' eq_refl Hstep) as [-> _].
  - intros Hstep. left.
    by destruct (task_step_card (RunTelegram ok) st st' eq_refl Hstep)
      as [-> _].
Qed.

Lemma run_content acts st st' p :
  run acts st = Some st' ->
  exists lines, Forall record_line lines /\
    content (card st') p
      = content (card st) p +:+ foldr String.append "" lines.
Proof.
  revert st. induction acts as [|a acts IH]; intros st; cbn [run].
  - intros [= <-]. exists []. split; [constructor|].
    by rewrite string_app_nil_r.
  - destruct (step a st) as [st1|] eqn:Hstep; [|done]. intros Hrun.
    destruct (IH st1 Hrun) as (lines & Hlines & ->).
    destruct (step_content a st st1 p Hstep) as [->|(line & Hline & ->)].
    + by exists lines.
    + exists (line :: lines). split; [by constructor|].
      cbn [foldr]. by rewrite string_app_assoc.
Qed.

(** C10.  Whatever the class of the record, the line handed to the card
    has the five fields [Temp], [Hum], [Suelo], [Luz] and [MQ5] in this
    order.  For a soil record the callback passes 0 for the temperature,
    the humidity, the light and the gas; for an environment record it
    passes 0 for the soil moisture.  The only change a receive makes to
    the content of any file is to put this line at its end, and it does so
    in the file of the hour when the time is known and the card ready.
    Hence, in every run of the node, what has been added to a file is a
    sequence of such lines. *)
Theorem persisted_line_has_five_fields :
  (forall t h s l m,
     log_line t h s l m =
       "Temp: " +:+ printf_f1 t +:+ "°C, Hum: " +:+ printf_f1 h
         +:+ "%, Suelo: " +:+ printf_f1 s +:+ "%, Luz: " +:+ String_int l
         +:+ ", MQ5: " +:+ String_int m +:+ nl) /\
  (forall info incoming now st st',
     OnDataRecv info incoming now st = Some st' ->
     (is_soil_message info incoming ->
        let line := log_line f0 f0 (soil (memcpy_soil incoming)) 0 0 in
        trace st' =
          trace st ++ [EvSave f0 f0 (soil (memcpy_soil incoming)) 0 0] /\
        (forall p, content (card st') p = content (card st) p \/
                   content (card st') p = content (card st) p +:+ line) /\
        (forall timeinfo,
           now = Some timeinfo -> tm_ok timeinfo ->
           storage_ready (card st) timeinfo ->
           content (card st') (filePath timeinfo) =
             content (card st) (filePath timeinfo) +:+ line)) /\
     (is_dht_message info incoming ->
        let d := memcpy_dht incoming in
        let line := log_line (temp d) (hum d) f0 (luz d) (mq5 d) in
        trace st' =
          trace st ++ [EvSave (temp d) (hum d) f0 (luz d) (mq5 d)] /\
        (forall p, content (card st') p = content (card st) p \/
                   content (card st') p = content (card st) p +:+ line) /\
        (forall timeinfo,
           now = Some timeinfo -> tm_ok timeinfo ->
           storage_ready (card st) timeinfo ->
           content (card st') (filePath timeinfo) =
             content (card st) (filePath timeinfo) +:+ line))) /\
  (forall c acts st p,
     run acts (init c) = Some st ->
     exists lines, Forall record_line lines /\
       content (card st) p = content c p +:+ foldr String.append "" lines).
Proof.
  split; [apply log_line_text|]. split.
  - intros info incoming now st st' Hrecv. split; intros Hmsg; cbv zeta.
    + rewrite (OnDataRecv_soil _ _ now st Hmsg) in Hrecv.
      destruct (xQueueSend _ _) as [q|]; [|done].
      apply (inj Some) in Hrecv. subst st'.
      set (s := memcpy_soil incoming).
      split; [|split].
      * by destruct (saveDataToSD_queues now f0 f0 (soil s) 0 0
                       (set_soilQueue q st)) as (_ & _ & _ & _ & _ & _ & ->).
      * intros p.
        destruct (saveDataToSD_content now f0 f0 (soil s) 0 0
                    (set_soilQueue q st) p) as [E|(ti & _ & _ & E)];
          [by left | by right].
      * intros timeinfo -> Ht Hr.
        rewrite (saveDataToSD_ready_content timeinfo f0 f0 (soil s) 0 0
                   (set_soilQueue q st) _ Ht Hr).
        by rewrite decide_True.
    + rewrite (OnDataRecv_dht _ _ now st Hmsg) in Hrecv.
      destruct (xQueueSend _ _) as [q|]; [|done].
      apply (inj Some) in Hrecv. subst st'.
      set (d := memcpy_dht incoming).
      split; [|split].
      * by destruct (saveDataToSD_queues now (temp d) (hum d) f0 (luz d)
                       (mq5 d) (set_dhtQueue q st))
          as (_ & _ & _ & _ & _ & _ & ->).
      * intros p.
        destruct (saveDataToSD_content now (temp d) (hum d) f0 (luz d) (mq5 d)
                    (set_dhtQueue q st) p) as [E|(ti & _ & _ & E)];
          [by left | by right].
      * intros timeinfo -> Ht Hr.
        rewrite (saveDataToSD_ready_content timeinfo (temp d) (hum d) f0
                   (luz d) (mq5 d) (set_dhtQueue q st) _ Ht Hr).
        by rewrite decide_True.
  - intros c acts st p Hrun. by apply (run_content acts (init c)).
Qed.

(** *** The evaluator tasks *)

Lemma SoilTask_raises st s q text :
  soil_buf st = None -> soilQueue st = s :: q ->
  SoilTask_msg s = text -> nonempty text = true ->
  raises (SoilTask true) soil_buf st text.
Proof.
  intros Hb Hq Hmsg Hne. unfold raises.
  exists (malloc_block (heap st)).
  eexists. split.
  { unfold SoilTask, malloc_copy. rewrite Hb, Hq. cbn [xQueueReceive].
    rewrite Hmsg, Hne. reflexivity. }
  cbn. split; [done|]. split; [apply lookup_insert_eq|]. split; [done|].
  intros Hroom. eexists. split.
  { unfold SoilTask. cbn. rewrite (xQueueSend_room _ _ Hroom). reflexivity. }
  cbn. split; [done|]. apply lookup_insert_eq.
Qed.

Lemma DHTTask_raises st d q text :
  dht_buf st = None -> dhtQueue st = d :: q ->
  DHTTask_msg d = text -> nonempty text = true ->
  raises (DHTTask true) dht_buf st text.
Proof.
  intros Hb Hq Hmsg Hne. unfold raises.
  exists (malloc_block (heap st)).
  eexists. split.
  { unfold DHTTask, malloc_copy. rewrite Hb, Hq. cbn [xQueueReceive].
    rewrite Hmsg, Hne. reflexivity. }
  cbn. split; [done|]. split; [apply lookup_insert_eq|]. split; [done|].
  intros Hroom. eexists. split.
  { unfold DHTTask. cbn. rewrite (xQueueSend_room _ _ Hroom). reflexivity. }
  cbn. split; [done|]. apply lookup_insert_eq.
Qed.

(** C3.  The soil evaluator takes one of three exclusive branches.  Below
    30.0 the alert is the dry-soil line, which announces the pump, and not
    the waterlogged line; above 70.0 it is the waterlogged line and not
    the dry-soil line; in both cases an allocation that finds room gives
    one buffer holding that line, which the next step puts on the alert
    queue.  From 30.0 to 70.0 the text is empty, the record is consumed
    and the step changes nothing else: no buffer is allocated and nothing
    is put on the alert queue.  The comparisons are those of the values,
    see [threshold_comparisons_exact]. *)
Theorem SoilTask_exclusive_branches st s q :
  soil_buf st = None -> soilQueue st = s :: q ->
  (flt (soil s) SOIL_THRESHOLD_LOW = true ->
     SoilTask_msg s = line_dry s /\ SoilTask_msg s <> line_wet s /\
     raises (SoilTask true) soil_buf st (line_dry s)) /\
  (fgt (soil s) SOIL_THRESHOLD_HIGH = true ->
     SoilTask_msg s = line_wet s /\ SoilTask_msg s <> line_dry s /\
     raises (SoilTask true) soil_buf st (line_wet s)) /\
  (fle SOIL_THRESHOLD_LOW (soil s) = true ->
   fle (soil s) SOIL_THRESHOLD_HIGH = true ->
     SoilTask_msg s = "" /\
     forall mem, SoilTask mem st = Some (set_soilQueue q st)).
Proof.
  intros Hb Hq. split; [|split].
  - intros Hlow.
    assert (E : SoilTask_msg s = line_dry s).
    { unfold SoilTask_msg. by rewrite Hlow. }
    split; [done|]. split; [rewrite E; apply line_dry_not_wet|].
    by apply (SoilTask_raises st s q).
  - intros Hhigh.
    assert (E : SoilTask_msg s = line_wet s).
    { unfold SoilTask_msg. rewrite Hhigh.
      destruct (flt (soil s) SOIL_THRESHOLD_LOW) eqn:Hlow; [|done].
      apply below_low_not_above_high in Hlow. congruence. }
    split; [done|].
    split; [rewrite E; intros E'; by apply (line_dry_not_wet s)|].
    by apply (SoilTask_raises st s q).
  - intros Hlo Hhi.
    assert (E : SoilTask_msg s = "").
    { unfold SoilTask_msg.
      by rewrite (fle_not_lt _ _ Hlo), (fle_not_gt _ _ Hhi). }
    split; [done|]. intros mem. unfold SoilTask. rewrite Hb, Hq.
    cbn [xQueueReceive]. by rewrite E.
Qed.

(** C4.  The text built by the environment evaluator is the alert of the
    specification.  Each of the four conditions (temperature above 30.0,
    humidity above 80.0, light above 700, gas index above 1500) is tested
    on its own; each one that holds contributes its own line, the lines of
    two conditions are never the same text, every line is followed by one
    line feed, and the lines follow one another in one text, in the order
    temperature, humidity, light, gas.  For the record with temperature
    31.0, humidity 50.0, light 0 and gas 0 the only condition that holds
    is the high temperature, and the text is the high-temperature line and
    its line feed, nothing else; for a record above all four thresholds it
    is the four lines. *)
Theorem DHTTask_msg_is_the_lines_of_the_conditions_that_hold :
  (forall d, DHTTask_msg d = spec_alert_text d) /\
  (forall d,
     DHTTask_msg d =
       (if fgt (temp d) f30
        then "⚠ Alta temperatura: " +:+ String_float1 (temp d) +:+ "°C"
             +:+ String "010"%char ""
        else "")
       +:+ (if fgt (hum d) f80
            then "💧 Alta humedad: " +:+ String_float1 (hum d) +:+ "%"
                 +:+ String "010"%char ""
            else "")
       +:+ (if 700 <? luz d
            then "🌑 Luz baja: " +:+ String_int (luz d)
                 +:+ String "010"%char ""
            else "")
       +:+ (if 1500 <? mq5 d
            then "🔥 Posible gas detectado: " +:+ String_int (mq5 d)
                 +:+ String "010"%char ""
            else "")) /\
  (forall d c c', spec_line d c = spec_line d c' -> c = c') /\
  (forall d c, spec_line d c <> "") /\
  List.filter (spec_fires (memcpy_dht dht_31)) spec_conditions
    = [HighTemperature] /\
  DHTTask_msg (memcpy_dht dht_31) =
    "⚠ Alta temperatura: " +:+ String_float1 (temp (memcpy_dht dht_31))
      +:+ "°C" +:+ String "010"%char "" /\
  List.filter (spec_fires (memcpy_dht dht_all)) spec_conditions
    = spec_conditions /\
  DHTTask_msg (memcpy_dht dht_all) =
    "⚠ Alta temperatura: " +:+ String_float1 (temp (memcpy_dht dht_all))
      +:+ "°C" +:+ String "010"%char ""
      +:+ "💧 Alta humedad: " +:+ String_float1 (hum (memcpy_dht dht_all))
      +:+ "%" +:+ String "010"%char ""
      +:+ "🌑 Luz baja: 800" +:+ String "010"%char ""
      +:+ "🔥 Posible gas detectado: 1600" +:+ String "010"%char "".
Proof.
  assert (Hlines : forall d,
    DHTTask_msg d =
       (if fgt (temp d) f30
        then "⚠ Alta temperatura: " +:+ String_float1 (temp d) +:+ "°C"
             +:+ String "010"%char ""
        else "")
       +:+ (if fgt (hum d) f80
            then "💧 Alta humedad: " +:+ String_float1 (hum d) +:+ "%"
                 +:+ String "010"%char ""
            else "")
       +:+ (if 700 <? luz d
            then "🌑 Luz baja: " +:+ String_int (luz d)
                 +:+ String "010"%char ""
            else "")
       +:+ (if 1500 <? mq5 d
            then "🔥 Posible gas detectado: " +:+ String_int (mq5 d)
                 +:+ String "010"%char ""
            else "")).
  { intros d. unfold DHTTask_msg.
    unfold TEMP_THRESHOLD, HUM_THRESHOLD, LDR_THRESHOLD, MQ5_THRESHOLD.
    unfold line_temp, line_hum, line_luz, line_mq5, nl.
    destruct (fgt (temp d) f30), (fgt (hum d) f80), (700 <? luz d),
      (1500 <? mq5 d);
      by rewrite ?string_app_assoc, ?string_app_nil_r, ?string_app_nil_l. }
  assert (Hspec : forall d, DHTTask_msg d = spec_alert_text d).
  { intros d. rewrite Hlines. unfold spec_alert_text, spec_conditions.
    cbn [List.filter spec_fires].
    destruct (fgt (temp d) f30), (fgt (hum d) f80), (700 <? luz d),
      (1500 <? mq5 d);
      cbn [map foldr spec_line];
      by rewrite ?string_app_assoc, ?string_app_nil_r, ?string_app_nil_l. }
  assert (Hone :
    List.filter (spec_fires (memcpy_dht dht_31)) spec_conditions
      = [HighTemperature]).
  { rewrite sample_dht_fields. vm_compute. reflexivity. }
  assert (Hall :
    List.filter (spec_fires (memcpy_dht dht_all)) spec_conditions
      = spec_conditions).
  { vm_compute. reflexivity. }
  split; [done|]. split; [done|]. split; [|split; [|split; [done|split]]].
  - intros d [] []; unfold spec_line; try done; discriminate.
  - intros d []; unfold spec_line; discriminate.
  - rewrite Hspec. unfold spec_alert_text. rewrite Hone.
    cbn [map foldr spec_line]. by rewrite ?string_app_assoc.
  - split; [done|]. rewrite Hspec. unfold spec_alert_text. rewrite Hall.
    unfold spec_conditions. cbn [map foldr spec_line].
    replace (luz (memcpy_dht dht_all)) with 800 by (vm_compute; reflexivity).
    replace (mq5 (memcpy_dht dht_all)) with 1600 by (vm_compute; reflexivity).
    change (String_int 800) with "800". change (String_int 1600) with "1600".
    by rewrite ?string_app_assoc.
Qed.



(** *** Ownership of the alert buffers *)

Lemma replay_app tr tr' live :
  replay (tr ++ tr') live = replay tr live ≫= replay tr'.
Proof.
  revert live. induction tr as [|e tr IH]; intros live; [done|].
  destruct e; cbn [app replay]; try apply IH; repeat case_decide;
    by try apply IH.
Qed.

Lemma freed_app tr tr' : freed (tr ++ tr') = freed tr ++ freed tr'.
Proof. apply omap_app. Qed.

Lemma sent_app tr tr' : sent (tr ++ tr') = sent tr ++ sent tr'.
Proof. apply omap_app. Qed.

Lemma not_null_app l1 l2 : not_null (l1 ++ l2) = not_null l1 ++ not_null l2.
Proof. apply filter_app. Qed.

Lemma not_null_cons b l : b <> NULL -> not_null (b :: l) = b :: not_null l.
Proof. intros Hb. unfold not_null. by rewrite filter_cons_True. Qed.

Lemma not_null_NULL l : not_null (NULL :: l) = not_null l.
Proof. unfold not_null. rewrite filter_cons_False; [done|]. by intros H. Qed.

Lemma elem_of_not_null b l : b ∈ not_null l <-> b ∈ l /\ b <> NULL.
Proof. unfold not_null. rewrite list_elem_of_filter. tauto. Qed.

Lemma not_null_nil : not_null [] = [].
Proof. reflexivity. Qed.

Lemma not_null_id l : NULL ∉ l -> not_null l = l.
Proof.
  induction l as [|b l IH]; [done|]. intros Hnot.
  rewrite not_null_cons.
  - f_equal. apply IH. intros Hin. apply Hnot. by right.
  - intros ->. apply Hnot. by left.
Qed.

Ltac fields :=
  cbn [dhtQueue soilQueue msgQueue heap dht_buf soil_buf card trace
       set_dhtQueue set_soilQueue set_msgQueue set_heap set_dht_buf
       set_soil_buf set_card emit option_list option_rect].

Tactic Notation "fields" "in" hyp(H) :=
  cbn [dhtQueue soilQueue msgQueue heap dht_buf soil_buf card trace
       set_dhtQueue set_soilQueue set_msgQueue set_heap set_dht_buf
       set_soil_buf set_card emit option_list option_rect] in H.

Lemma owned_parts st :
  owned st =
    not_null (msgQueue st) ++ not_null (option_list (dht_buf st))
    ++ not_null (option_list (soil_buf st)).
Proof. unfold owned, held. by rewrite !not_null_app. Qed.

Lemma malloc_block_fresh (h : gmap N string) :
  malloc_block h <> NULL /\ malloc_block h ∉ dom h.
Proof.
  clear. unfold malloc_block.
  pose proof (is_fresh ({[ NULL ]} ∪ dom h)) as H.
  split; intros E; apply H; [|by apply elem_of_union_r].
  apply elem_of_union_l, elem_of_singleton. done.
Qed.

Lemma String_of_block (h : gmap N string) buf :
  buf <> NULL -> String_of h buf = default "" (h !! buf).
Proof.
  intros Hb. unfold String_of. by destruct (N.eqb_spec buf NULL).
Qed.

Lemma free_NULL st : free NULL st = emit (EvFree NULL) st.
Proof. reflexivity. Qed.

Lemma free_block buf st :
  buf <> NULL ->
  free buf st = emit (EvFree buf) (set_heap (delete buf (heap st)) st).
Proof. intros Hb. unfold free. by destruct (N.eqb_spec buf NULL). Qed.

Lemma consistent_init c : consistent (init c).
Proof.
  unfold consistent, owned, held, not_null. cbn. split; [constructor|].
  split; [set_solver|]. split; [|split; [constructor|]].
  - intros buf text. by rewrite lookup_empty.
  - by rewrite dom_empty_L.
Qed.

Lemma consistent_saveDataToSD now t h s l m st :
  consistent st -> consistent (saveDataToSD now t h s l m st).
Proof.
  intros (Hnd & Hown & Hne & Htr & Hrep & Hfree).
  destruct (saveDataToSD_queues now t h s l m st)
    as (_ & _ & Hm & Hh & Hd & Hs & Ht).
  unfold consistent, owned, held. rewrite Hm, Hh, Hd, Hs, Ht.
  split; [done|]. split; [done|]. split; [done|].
  split; [|split].
  - apply Forall_app. split; [done|]. by repeat constructor.
  - rewrite replay_app, Hrep. done.
  - rewrite freed_app, sent_app, Hfree. done.
Qed.

Lemma consistent_OnDataRecv info incoming now st st' :
  consistent st -> OnDataRecv info incoming now st = Some st' ->
  consistent st'.
Proof.
  intros Hc. unfold OnDataRecv.
  destruct (_ && _).
  { destruct (xQueueSend _ _) as [q|]; [|done]. intros [= <-].
    by apply consistent_saveDataToSD. }
  destruct (_ && _); [|by intros [= <-]].
  destruct (xQueueSend _ _) as [q|]; [|done]. intros [= <-].
  by apply consistent_saveDataToSD.
Qed.

(** An allocation that finds room keeps the discipline when the new
    buffer, holding a text that is not empty, goes to a party that held
    none. *)
Lemma consistent_alloc (m d s : list N) (h : gmap N string)
    (tr : list event) (msg : string) :
  NoDup (m ++ d ++ s) ->
  (forall buf, buf ∈ m ++ d ++ s <-> buf ∈ dom h) ->
  (forall buf text, h !! buf = Some text -> text <> "") ->
  replay tr ∅ = Some (dom h) ->
  msg <> "" ->
  let buf := malloc_block h in
  (buf ∉ m ++ d ++ s) /\
  (forall b, (b = buf \/ b ∈ m ++ d ++ s) <-> b ∈ dom (<[ buf := msg ]> h)) /\
  (forall b text, <[ buf := msg ]> h !! b = Some text -> text <> "") /\
  replay (tr ++ [EvMalloc buf]) ∅ = Some (dom (<[ buf := msg ]> h)).
Proof.
  intros Hnd Hown Hne Hrep Hmsg buf.
  destruct (malloc_block_fresh h) as [Hnull Hfresh]. fold buf in Hnull, Hfresh.
  split; [by rewrite Hown|]. split; [|split].
  - intros b. rewrite dom_insert, elem_of_union, elem_of_singleton, Hown.
    done.
  - intros b text. destruct (decide (buf = b)) as [<-|Hb].
    + rewrite lookup_insert_eq. by intros [= <-].
    + rewrite lookup_insert_ne by done. apply Hne.
  - rewrite replay_app, Hrep. cbn. rewrite !decide_False by done.
    by rewrite dom_insert_L.
Qed.

(** What an evaluator step does once its record is taken. *)
Lemma SoilTask_take mem st s q :
  soil_buf st = None -> soilQueue st = s :: q ->
  SoilTask mem st =
    Some (if nonempty (SoilTask_msg s)
          then if mem
               then set_soil_buf (Some (malloc_block (heap st)))
                      (emit (EvMalloc (malloc_block (heap st)))
                         (set_heap
                            (<[ malloc_block (heap st) := SoilTask_msg s ]>
                               (heap st))
                            (set_soilQueue q st)))
               else set_soil_buf (Some NULL)
                      (emit (EvMalloc NULL) (set_soilQueue q st))
          else set_soilQueue q st).
Proof.
  intros Hb Hq. unfold SoilTask, malloc_copy. rewrite Hb, Hq.
  cbn [xQueueReceive]. by destruct (nonempty _), mem.
Qed.

Lemma DHTTask_take mem st d q :
  dht_buf st = None -> dhtQueue st = d :: q ->
  DHTTask mem st =
    Some (if nonempty (DHTTask_msg d)
          then if mem
               then set_dht_buf (Some (malloc_block (heap st)))
                      (emit (EvMalloc (malloc_block (heap st)))
                         (set_heap
                            (<[ malloc_block (heap st) := DHTTask_msg d ]>
                               (heap st))
                            (set_dhtQueue q st)))
               else set_dht_buf (Some NULL)
                      (emit (EvMalloc NULL) (set_dhtQueue q st))
          else set_dhtQueue q st).
Proof.
  intros Hb Hq. unfold DHTTask, malloc_copy. rewrite Hb, Hq.
  cbn [xQueueReceive]. by destruct (nonempty _), mem.
Qed.

Lemma consistent_DHTTask mem st st' :
  consistent st -> DHTTask mem st = Some st' -> consistent st'.
Proof.
  intros (Hnd & Hown & Hne & Htr & Hrep & Hfree).
  destruct (dht_buf st) as [buf|] eqn:Hb.
  - unfold DHTTask. rewrite Hb.
    destruct (xQueueSend _ _) as [q|] eqn:Hq; [|done]. intros [= <-].
    apply xQueueSend_Some in Hq. subst q.
    unfold consistent, owned, held in *. cbn. rewrite Hb in Hnd, Hown.
    cbn in *. rewrite <- !app_assoc. done.
  - destruct (dhtQueue st) as [|d q] eqn:Hq;
      [unfold DHTTask; by rewrite Hb, Hq|].
    rewrite (DHTTask_take mem st d q Hb Hq).
    rewrite owned_parts, Hb in Hnd, Hown. fields in Hnd. fields in Hown.
    rewrite not_null_nil in Hnd, Hown.
    destruct (nonempty (DHTTask_msg d)) eqn:Hmsg;
      [destruct mem|]; intros [= <-].
    + apply nonempty_text in Hmsg.
      destruct (consistent_alloc (not_null (msgQueue st)) []
                  (not_null (option_list (soil_buf st)))
                  (heap st) (trace st) (DHTTask_msg d) Hnd Hown Hne Hrep Hmsg)
        as (Hfresh & Hdom & Hne' & Hrep').
      destruct (malloc_block_fresh (heap st)) as [Hnull _].
      unfold consistent. rewrite owned_parts. fields.
      rewrite (not_null_cons _ [] Hnull), not_null_nil. cbn [app] in *.
      split; [|split; [|split; [|split; [|split]]]].
      * apply NoDup_app in Hnd as (N1 & N2 & N3).
        apply NoDup_app. split; [done|]. split.
        -- intros x Hx [->|Hx']%elem_of_cons; [|by apply (N2 x)].
           apply Hfresh. apply elem_of_app. by left.
        -- apply NoDup_cons. split; [|done].
           intros Hin. apply Hfresh. apply elem_of_app. by right.
      * intros b. rewrite elem_of_app, elem_of_cons. rewrite <- Hdom.
        rewrite elem_of_app. tauto.
      * done.
      * apply Forall_app. split; [done|]. by repeat constructor.
      * done.
      * rewrite freed_app, sent_app, Hfree. done.
    + unfold consistent. rewrite owned_parts. fields.
      rewrite (not_null_NULL []), not_null_nil. cbn [app].
      split; [done|]. split; [done|]. split; [done|].
      split; [|split].
      * apply Forall_app. split; [done|]. by repeat constructor.
      * rewrite replay_app, Hrep. done.
      * rewrite freed_app, sent_app, Hfree. done.
    + unfold consistent. rewrite owned_parts. fields. rewrite Hb. fields.
      by rewrite not_null_nil.
Qed.

Lemma consistent_SoilTask mem st st' :
  consistent st -> SoilTask mem st = Some st' -> consistent st'.
Proof.
  intros (Hnd & Hown & Hne & Htr & Hrep & Hfree).
  destruct (soil_buf st) as [buf|] eqn:Hb.
  - unfold SoilTask. rewrite Hb.
    destruct (xQueueSend _ _) as [q|] eqn:Hq; [|done]. intros [= <-].
    apply xQueueSend_Some in Hq. subst q.
    rewrite owned_parts, Hb in Hnd, Hown.
    unfold consistent. rewrite owned_parts. fields.
    rewrite not_null_app, app_nil_r.
    assert (Hperm :
      (not_null (msgQueue st) ++ not_null [buf])
        ++ not_null (option_list (dht_buf st))
      ≡ₚ not_null (msgQueue st) ++ not_null (option_list (dht_buf st))
          ++ not_null (option_list (Some buf))).
    { rewrite <- app_assoc. apply Permutation_app_head, Permutation_app_comm. }
    split; [by rewrite Hperm|]. split; [|done].
    intros b. by rewrite Hperm.
  - destruct (soilQueue st) as [|s q] eqn:Hq;
      [unfold SoilTask; by rewrite Hb, Hq|].
    rewrite (SoilTask_take mem st s q Hb Hq).
    rewrite owned_parts, Hb in Hnd, Hown. fields in Hnd. fields in Hown.
    rewrite not_null_nil in Hnd, Hown.
    destruct (nonempty (SoilTask_msg s)) eqn:Hmsg;
      [destruct mem|]; intros [= <-].
    + apply nonempty_text in Hmsg.
      destruct (consistent_alloc (not_null (msgQueue st))
                  (not_null (option_list (dht_buf st))) []
                  (heap st) (trace st) (SoilTask_msg s) Hnd Hown Hne Hrep Hmsg)
        as (Hfresh & Hdom & Hne' & Hrep').
      destruct (malloc_block_fresh (heap st)) as [Hnull _].
      unfold consistent. rewrite owned_parts. fields.
      rewrite (not_null_cons _ [] Hnull), not_null_nil. cbn [app] in *.
      rewrite app_nil_r in Hnd, Hown, Hfresh, Hdom.
      split; [|split; [|split; [|split; [|split]]]].
      * rewrite app_assoc. apply NoDup_app. split; [done|]. split.
        -- by intros x Hx ->%list_elem_of_singleton.
        -- apply NoDup_singleton.
      * intros b. rewrite app_assoc, elem_of_app, list_elem_of_singleton.
        rewrite <- Hdom. tauto.
      * done.
      * apply Forall_app. split; [done|]. by repeat constructor.
      * done.
      * rewrite freed_app, sent_app, Hfree. done.
    + unfold consistent. rewrite owned_parts. fields.
      rewrite (not_null_NULL []), not_null_nil. cbn [app].
      split; [done|]. split; [done|]. split; [done|].
      split; [|split].
      * apply Forall_app. split; [done|]. by repeat constructor.
      * rewrite replay_app, Hrep. done.
      * rewrite freed_app, sent_app, Hfree. done.
    + unfold consistent. rewrite owned_parts. fields. rewrite Hb. fields.
      by rewrite not_null_nil.
Qed.

Lemma consistent_TelegramTask ok st st' :
  consistent st -> TelegramTask ok st = Some st' -> consistent st'.
Proof.
  intros (Hnd & Hown & Hne & Htr & Hrep & Hfree). unfold TelegramTask.
  destruct (msgQueue st) as [|buf q] eqn:Hq; [done|]. cbn [xQueueReceive].
  rewrite owned_parts, Hq in Hnd, Hown.
  destruct (decide (buf = NULL)) as [->|Hbuf].
  - rewrite free_NULL. intros [= <-].
    rewrite not_null_NULL in Hnd, Hown.
    unfold consistent. rewrite owned_parts. fields.
    split; [done|]. split; [done|]. split; [done|].
    split; [|split].
    + apply Forall_app. split; [|by repeat constructor].
      apply Forall_app. split; [done|]. by repeat constructor.
    + rewrite <- app_assoc, replay_app, Hrep. done.
    + rewrite <- app_assoc, freed_app, sent_app, Hfree. done.
  - rewrite free_block by done. intros [= <-].
    rewrite (not_null_cons _ _ Hbuf) in Hnd, Hown. cbn in Hnd, Hown.
    unfold consistent. rewrite owned_parts. fields.
    assert (Hin : buf ∈ dom (heap st)) by (apply Hown; by left).
    apply NoDup_cons in Hnd as [Hnotin Hnd].
    split; [done|]. split; [|split; [|split; [|split]]].
    + intros b. rewrite dom_delete, elem_of_difference, elem_of_singleton.
      rewrite <- Hown, elem_of_cons. split.
      * intros Hb. split; [by right|]. by intros ->.
      * by intros [[->|Hb] Hne'].
    + intros b text. destruct (decide (buf = b)) as [<-|Hb].
      * by rewrite lookup_delete_eq.
      * rewrite lookup_delete_ne by done. apply Hne.
    + apply Forall_app. split; [|by repeat constructor].
      apply Forall_app. split; [done|]. constructor; [|constructor].
      unfold String_of_buf. cbn. rewrite String_of_block by done.
      apply elem_of_dom in Hin as [text Htext]. rewrite Htext. cbn.
      split; [|done]. intros E. by destruct (Hne buf text Htext).
    + rewrite <- app_assoc, replay_app, Hrep. cbn.
      rewrite decide_False by done. rewrite decide_True by done.
      by rewrite dom_delete_L.
    + rewrite <- app_assoc, freed_app, sent_app, Hfree. done.
Qed.

Lemma consistent_step a st st' :
  consistent st -> step a st = Some st' -> consistent st'.
Proof.
  destruct a as [info incoming now|mem|mem|ok]; cbn [step].
  - apply consistent_OnDataRecv.
  - apply consistent_DHTTask.
  - apply consistent_SoilTask.
  - apply consistent_TelegramTask.
Qed.

Lemma consistent_run acts st st' :
  consistent st -> run acts st = Some st' -> consistent st'.
Proof.
  revert st. induction acts as [|a acts IH]; intros st Hc; cbn [run].
  - by intros [= <-].
  - destruct (step a st) as [st1|] eqn:E; [|done].
    apply IH. by apply (consistent_step a st).
Qed.

(** *** One alert from its evaluator to the dispatcher *)

Lemma state_eq (st st' : state) :
  dhtQueue st = dhtQueue st' -> soilQueue st = soilQueue st' ->
  msgQueue st = msgQueue st' -> heap st = heap st' ->
  dht_buf st = dht_buf st' -> soil_buf st = soil_buf st' ->
  card st = card st' -> trace st = trace st' -> st = st'.
Proof. destruct st, st'. cbn. congruence. Qed.

(** The two steps of an evaluator on the only record in transit, then the
    pass of the dispatcher: with room in the allocator the text goes out
    from its block, without room the empty text goes out from the null
    pointer. *)
Lemma soil_alert_cycle mem mem' st s ok :
  soilQueue st = [s] -> dhtQueue st = [] -> msgQueue st = [] ->
  dht_buf st = None -> soil_buf st = None ->
  nonempty (SoilTask_msg s) = true ->
  exists st',
    run [RunSoil mem; RunSoil mem'; RunTelegram ok] st = Some st' /\
    quiescent st' /\ heap st' = heap st /\ card st' = card st /\
    trace st' =
      trace st
      ++ if mem
         then [EvMalloc (malloc_block (heap st));
               EvSendMessage (malloc_block (heap st)) (SoilTask_msg s) ok;
               EvFree (malloc_block (heap st))]
         else [EvMalloc NULL; EvSendMessage NULL "" ok; EvFree NULL].
Proof.
  intros Hs Hd Hm Hdb Hsb Hne. cbn [run step].
  rewrite (SoilTask_take mem st s [] Hsb Hs), Hne.
  destruct (malloc_block_fresh (heap st)) as [Hnull Hfresh].
  destruct mem.
  - unfold SoilTask. fields. rewrite Hm.
    cbn [xQueueSend length Nat.ltb Nat.leb QUEUE_LENGTH app].
    unfold TelegramTask. fields. cbn [xQueueReceive].
    unfold String_of_buf. fields.
    rewrite String_of_block, free_block by done. fields.
    eexists. split; [reflexivity|].
    unfold quiescent. fields. rewrite Hd, Hdb, lookup_insert_eq.
    split; [done|]. split.
    + by apply delete_insert_id, not_elem_of_dom.
    + split; [done|]. by rewrite <- !app_assoc.
  - unfold SoilTask. fields. rewrite Hm.
    cbn [xQueueSend length Nat.ltb Nat.leb QUEUE_LENGTH app].
    unfold TelegramTask. fields. cbn [xQueueReceive].
    unfold String_of_buf. fields. rewrite free_NULL. fields.
    eexists. split; [reflexivity|].
    unfold quiescent. fields. rewrite Hd, Hdb.
    split; [done|]. split; [done|]. split; [done|].
    by rewrite <- !app_assoc.
Qed.

Lemma dht_alert_cycle mem mem' st d ok :
  dhtQueue st = [d] -> soilQueue st = [] -> msgQueue st = [] ->
  dht_buf st = None -> soil_buf st = None ->
  nonempty (DHTTask_msg d) = true ->
  exists st',
    run [RunDHT mem; RunDHT mem'; RunTelegram ok] st = Some st' /\
    quiescent st' /\ heap st' = heap st /\ card st' = card st /\
    trace st' =
      trace st
      ++ if mem
         then [EvMalloc (malloc_block (heap st));
               EvSendMessage (malloc_block (heap st)) (DHTTask_msg d) ok;
               EvFree (malloc_block (heap st))]
         else [EvMalloc NULL; EvSendMessage NULL "" ok; EvFree NULL].
Proof.
  intros Hd Hs Hm Hdb Hsb Hne. cbn [run step].
  rewrite (DHTTask_take mem st d [] Hdb Hd), Hne.
  destruct (malloc_block_fresh (heap st)) as [Hnull Hfresh].
  destruct mem.
  - unfold DHTTask. fields. rewrite Hm.
    cbn [xQueueSend length Nat.ltb Nat.leb QUEUE_LENGTH app].
    unfold TelegramTask. fields. cbn [xQueueReceive].
    unfold String_of_buf. fields.
    rewrite String_of_block, free_block by done. fields.
    eexists. split; [reflexivity|].
    unfold quiescent. fields. rewrite Hs, Hsb, lookup_insert_eq.
    split; [done|]. split.
    + by apply delete_insert_id, not_elem_of_dom.
    + split; [done|]. by rewrite <- !app_assoc.
  - unfold DHTTask. fields. rewrite Hm.
    cbn [xQueueSend length Nat.ltb Nat.leb QUEUE_LENGTH app].
    unfold TelegramTask. fields. cbn [xQueueReceive].
    unfold String_of_buf. fields. rewrite free_NULL. fields.
    eexists. split; [reflexivity|].
    unfold quiescent. fields. rewrite Hs, Hsb.
    split; [done|]. split; [done|]. split; [done|].
    by rewrite <- !app_assoc.
Qed.

(** *** The null pointer on the alert queue *)

(** While every allocation finds room, no pointer held is null and none
    was handed to the dispatcher. *)
Lemma no_null_step a st st' :
  mallocs_succeed a -> step a st = Some st' ->
  (NULL ∉ held st) /\ (NULL ∉ sent (trace st)) ->
  (NULL ∉ held st') /\ (NULL ∉ sent (trace st')).
Proof.
  unfold held.
  destruct a as [info incoming now|mem|mem|ok]; cbn [step mallocs_succeed].
  - intros _ Hrecv. unfold OnDataRecv in Hrecv.
    assert (Hsave : forall t h s l m st0,
      msgQueue (saveDataToSD now t h s l m st0) = msgQueue st0 /\
      dht_buf (saveDataToSD now t h s l m st0) = dht_buf st0 /\
      soil_buf (saveDataToSD now t h s l m st0) = soil_buf st0 /\
      sent (trace (saveDataToSD now t h s l m st0)) = sent (trace st0)).
    { intros t h s l m st0.
      destruct (saveDataToSD_queues now t h s l m st0)
        as (_ & _ & -> & _ & -> & -> & ->).
      rewrite sent_app. cbn. by rewrite app_nil_r. }
    destruct (_ && _).
    { destruct (xQueueSend _ _) as [q|]; [|done].
      apply (inj Some) in Hrecv. subst st'.
      by destruct (Hsave f0 f0 (soil (memcpy_soil incoming)) 0 0
                     (set_soilQueue q st)) as (-> & -> & -> & ->). }
    destruct (_ && _); [|by apply (inj Some) in Hrecv; subst st'].
    destruct (xQueueSend _ _) as [q|]; [|done].
    apply (inj Some) in Hrecv. subst st'.
    by destruct (Hsave (temp (memcpy_dht incoming))
                   (hum (memcpy_dht incoming)) f0
                   (luz (memcpy_dht incoming)) (mq5 (memcpy_dht incoming))
                   (set_dhtQueue q st)) as (-> & -> & -> & ->).
  - intros ->. destruct (dht_buf st) as [buf|] eqn:Hb.
    + unfold DHTTask. rewrite Hb.
      destruct (xQueueSend _ _) as [q|] eqn:Hq; [|done]. intros [= <-].
      apply xQueueSend_Some in Hq. subst q. fields.
      rewrite <- !app_assoc. done.
    + destruct (dhtQueue st) as [|d q] eqn:Hq;
        [unfold DHTTask; by rewrite Hb, Hq|].
      rewrite (DHTTask_take true st d q Hb Hq).
      destruct (malloc_block_fresh (heap st)) as [Hnull _].
      destruct (nonempty _); intros [= <-]; fields; rewrite ?Hb; fields;
        [|done].
      assert (Hs : sent (trace st ++ [EvMalloc (malloc_block (heap st))])
                   = sent (trace st))
        by (rewrite sent_app; cbn; apply app_nil_r).
      rewrite Hs. intros [Hheld Hsent]. split; [|done].
      intros [Hin|[Hin%list_elem_of_singleton|Hin]%elem_of_app]%elem_of_app.
      * apply Hheld, elem_of_app. by left.
      * by apply Hnull.
      * apply Hheld, elem_of_app. right. apply elem_of_app. by right.
  - intros ->. destruct (soil_buf st) as [buf|] eqn:Hb.
    + unfold SoilTask. rewrite Hb.
      destruct (xQueueSend _ _) as [q|] eqn:Hq; [|done]. intros [= <-].
      apply xQueueSend_Some in Hq. subst q. fields.
      intros [Hheld Hsent]. split; [|done].
      intros [[Hin|Hin]%elem_of_app|[Hin|Hin]%elem_of_app]%elem_of_app.
      * apply Hheld, elem_of_app. by left.
      * apply Hheld, elem_of_app. right. apply elem_of_app. by right.
      * apply Hheld, elem_of_app. right. apply elem_of_app. by left.
      * by apply elem_of_nil in Hin.
    + destruct (soilQueue st) as [|s q] eqn:Hq;
        [unfold SoilTask; by rewrite Hb, Hq|].
      rewrite (SoilTask_take true st s q Hb Hq).
      destruct (malloc_block_fresh (heap st)) as [Hnull _].
      destruct (nonempty _); intros [= <-]; fields; rewrite ?Hb; fields;
        [|done].
      assert (Hs : sent (trace st ++ [EvMalloc (malloc_block (heap st))])
                   = sent (trace st))
        by (rewrite sent_app; cbn; apply app_nil_r).
      rewrite Hs. intros [Hheld Hsent]. split; [|done].
      intros [Hin|[Hin|Hin%list_elem_of_singleton]%elem_of_app]%elem_of_app.
      * apply Hheld, elem_of_app. by left.
      * apply Hheld, elem_of_app. right. apply elem_of_app. by left.
      * by apply Hnull.
  - intros _. unfold TelegramTask.
    destruct (msgQueue st) as [|buf q] eqn:Hq; [done|].
    cbn [xQueueReceive]. intros Hst [Hheld Hsent].
    assert (Hbuf : buf <> NULL).
    { intros ->. apply Hheld. by left. }
    rewrite free_block in Hst by done. apply (inj Some) in Hst. subst st'.
    fields. split.
    + intros Hin. apply Hheld. by right.
    + rewrite !sent_app. cbn [sent omap list_omap]. rewrite !app_nil_r.
      rewrite elem_of_app, list_elem_of_singleton. intros [?|?]; [done|].
      by apply Hbuf.
Qed.

Lemma no_null_run acts st st' :
  Forall mallocs_succeed acts -> run acts st = Some st' ->
  (NULL ∉ held st) /\ (NULL ∉ sent (trace st)) ->
  (NULL ∉ held st') /\ (NULL ∉ sent (trace st')).
Proof.
  intros Hall. revert st. induction Hall as [|a acts Ha _ IH]; intros st;
    cbn [run].
  - by intros [= <-].
  - destruct (step a st) as [st1|] eqn:E; [|done]. intros Hrun H0.
    apply (IH st1 Hrun). by apply (no_null_step a st).
Qed.



(** *** The dispatcher *)

Lemma dispatch_events_delete h buf bufs oks :
  buf ∉ bufs ->
  dispatch_events (delete buf h) bufs oks = dispatch_events h bufs oks.
Proof.
  revert oks. induction bufs as [|b bufs IH]; intros [|ok oks] Hnotin;
    try done.
  apply not_elem_of_cons in Hnotin as [Hne Hnotin].
  unfold dispatch_events, String_of in *. cbn [zip zip_with flat_map].
  rewrite lookup_delete_ne by done. rewrite IH by done. done.
Qed.

Lemma freed_dispatch_events h bufs oks :
  length oks = length bufs -> freed (dispatch_events h bufs oks) = bufs.
Proof.
  revert oks. induction bufs as [|b bufs IH]; intros [|ok oks] Hlen;
    try done.
  unfold dispatch_events, freed in *. cbn. f_equal. apply IH.
  cbn in Hlen. lia.
Qed.

Lemma sent_dispatch_events h bufs oks :
  length oks = length bufs -> sent (dispatch_events h bufs oks) = bufs.
Proof.
  revert oks. induction bufs as [|b bufs IH]; intros [|ok oks] Hlen;
    try done.
  unfold dispatch_events, sent in *. cbn. f_equal. apply IH.
  cbn in Hlen. lia.
Qed.

Lemma deliveries_dispatch_events h bufs oks :
  length oks = length bufs -> deliveries (dispatch_events h bufs oks) = oks.
Proof.
  revert oks. induction bufs as [|b bufs IH]; intros [|ok oks] Hlen;
    try done.
  unfold dispatch_events, deliveries in *. cbn. f_equal. apply IH.
  cbn in Hlen. lia.
Qed.

Lemma not_null_take (n : nat) (l : list N) :
  not_null (take n l) `sublist_of` not_null l.
Proof.
  revert n. induction l as [|x l IH]; intros [|n]; cbn [take];
    try apply sublist_nil_l.
  unfold not_null. rewrite !filter_cons. destruct (decide (x <> NULL)).
  - apply sublist_skip, IH.
  - apply IH.
Qed.

(** The dispatcher run on the first pointers of the alert queue, one
    delivery result each. *)
Lemma dispatch_spec oks st :
  NoDup (not_null (msgQueue st)) ->
  (length oks <= length (msgQueue st))%nat ->
  exists st',
    dispatch oks st = Some st' /\
    msgQueue st' = drop (length oks) (msgQueue st) /\
    trace st' =
      trace st
        ++ dispatch_events (heap st) (take (length oks) (msgQueue st)) oks /\
    (forall b, heap st' !! b =
                 if decide (b ∈ not_null (take (length oks) (msgQueue st)))
                 then None
                 else heap st !! b).
Proof.
  revert st. induction oks as [|ok oks IH]; intros st Hnd Hlen.
  - exists st. cbn. rewrite app_nil_r, take_0, drop_0. by repeat split.
  - destruct (msgQueue st) as [|buf q] eqn:Hq; [cbn in Hlen; lia|].
    cbn in Hlen.
    set (st1 := free buf
                  (emit (EvSendMessage buf
                           (String_of_buf (set_msgQueue q st) buf) ok)
                     (set_msgQueue q st))).
    assert (Hstep : TelegramTask ok st = Some st1).
    { unfold TelegramTask. by rewrite Hq. }
    assert (Hq1 : msgQueue st1 = q).
    { unfold st1, free. by destruct (buf =? NULL)%N. }
    assert (Ht1 : trace st1 =
                    trace st ++ [EvSendMessage buf (String_of (heap st) buf) ok;
                                 EvFree buf]).
    { unfold st1, free, String_of_buf.
      destruct (buf =? NULL)%N; cbn; by rewrite <- !app_assoc. }
    destruct (decide (buf = NULL)) as [->|Hbuf].
    + rewrite not_null_NULL in Hnd.
      assert (Hh1 : heap st1 = heap st) by done.
      destruct (IH st1) as (st' & Hrun & Hqueue & Htrace & Hheap).
      { by rewrite Hq1. }
      { rewrite Hq1. lia. }
      exists st'. split.
      { unfold dispatch in *. cbn [map run step]. by rewrite Hstep. }
      rewrite Hq1, Hh1 in *. cbn [length take drop].
      split; [done|]. split.
      * rewrite Htrace, Ht1. unfold dispatch_events. cbn.
        by rewrite <- !app_assoc.
      * intros b. rewrite Hheap, not_null_NULL. done.
    + rewrite (not_null_cons _ _ Hbuf) in Hnd.
      apply NoDup_cons in Hnd as [Hnotin Hnd].
      assert (Hnotq : buf ∉ q).
      { intros Hin. apply Hnotin. by apply elem_of_not_null. }
      assert (Hh1 : heap st1 = delete buf (heap st)).
      { unfold st1. by rewrite free_block. }
      destruct (IH st1) as (st' & Hrun & Hqueue & Htrace & Hheap).
      { by rewrite Hq1. }
      { rewrite Hq1. lia. }
      exists st'. split.
      { unfold dispatch in *. cbn [map run step]. by rewrite Hstep. }
      rewrite Hq1, Hh1 in *. cbn [length take drop].
      split; [done|]. split.
      * rewrite Htrace, Ht1. rewrite dispatch_events_delete.
        -- unfold dispatch_events. cbn. by rewrite <- !app_assoc.
        -- intros Hin. apply Hnotq.
           by apply elem_of_take in Hin as (i & Hi%list_elem_of_lookup_2 & _).
      * intros b. rewrite Hheap, (not_null_cons _ _ Hbuf).
        destruct (decide (b = buf)) as [->|Hb].
        -- rewrite lookup_delete_eq.
           rewrite (decide_True (P := buf ∈ buf :: _)).
           ++ by case_decide.
           ++ by left.
        -- rewrite lookup_delete_ne by done.
           destruct (decide (b ∈ not_null (take (length oks) q)))
             as [Hin|Hin].
           ++ rewrite decide_True; [done|by right].
           ++ rewrite decide_False; [done|].
              by intros [?|?]%elem_of_cons.
Qed.

(** C8.  In every state the node can reach, whatever the interleaving of
    the tasks, whatever the results of the deliveries so far and whether or
    not the allocations found room, the pointers released are exactly the
    pointers whose delivery was attempted, once each and in the same
    order; every release was of a block in use or of the null pointer, so
    no block was released twice; and every block still in use has exactly
    one owner, so none is lost.  From such a state the dispatcher, given
    one delivery result per pointer, success or failure, takes the
    pointers from the front of the alert queue one at a time, attempts the
    delivery of each and then releases it: each of the blocks among them
    was allocated before, is released once, and is not allocated
    afterwards, while the other blocks are untouched.  If every allocation
    so far found room, the alert queue holds no null pointer and no
    pointer twice. *)
Theorem TelegramTask_releases_each_buffer_once c acts st :
  run acts (init c) = Some st ->
  freed (trace st) = sent (trace st) /\
  replay (trace st) ∅ = Some (dom (heap st)) /\
  NoDup (owned st) /\
  (forall buf, buf ∈ dom (heap st) <-> buf ∈ owned st) /\
  (forall oks,
     (length oks <= length (msgQueue st))%nat ->
     let bufs := take (length oks) (msgQueue st) in
     exists st',
       dispatch oks st = Some st' /\
       msgQueue st' = drop (length oks) (msgQueue st) /\
       trace st' = trace st ++ dispatch_events (heap st) bufs oks /\
       deliveries (dispatch_events (heap st) bufs oks) = oks /\
       sent (dispatch_events (heap st) bufs oks) = bufs /\
       freed (dispatch_events (heap st) bufs oks) = bufs /\
       NoDup (not_null bufs) /\
       (forall buf, buf ∈ bufs -> buf <> NULL ->
          is_Some (heap st !! buf) /\ heap st' !! buf = None) /\
       (forall buf, buf ∉ not_null bufs ->
          heap st' !! buf = heap st !! buf)) /\
  (Forall mallocs_succeed acts ->
     (NULL ∉ msgQueue st) /\ NoDup (msgQueue st)).
Proof.
  intros Hrun.
  destruct (consistent_run _ _ _ (consistent_init c) Hrun)
    as (Hnd & Hown & _ & _ & Hrep & Hfree).
  split; [done|]. split; [done|]. split; [done|].
  split; [intros buf; by rewrite Hown|].
  assert (Hndq : NoDup (not_null (msgQueue st))).
  { rewrite owned_parts in Hnd. by apply NoDup_app in Hnd as (? & _ & _). }
  split; cycle 1.
  { intros Hall.
    destruct (no_null_run acts (init c) st Hall Hrun) as [Hheld _].
    { split; apply not_elem_of_nil. }
    assert (Hq : NULL ∉ msgQueue st).
    { intros Hin. apply Hheld. unfold held. apply elem_of_app. by left. }
    split; [done|]. by rewrite <- (not_null_id _ Hq). }
  intros oks Hlen bufs.
  assert (Hlenb : length oks = length bufs).
  { unfold bufs. rewrite length_take. lia. }
  destruct (dispatch_spec oks st Hndq Hlen)
    as (st' & Hdisp & Hqueue & Htrace & Hheap).
  exists st'. fold bufs in Htrace, Hheap.
  split; [done|]. split; [done|]. split; [done|].
  split; [by apply deliveries_dispatch_events|].
  split; [by apply sent_dispatch_events|].
  split; [by apply freed_dispatch_events|].
  split.
  { apply (sublist_NoDup _ (not_null (msgQueue st))); [done|].
    apply not_null_take. }
  split.
  - intros buf Hin Hbuf.
    assert (Hin' : buf ∈ msgQueue st).
    { by apply elem_of_take in Hin as (i & Hi%list_elem_of_lookup_2 & _). }
    split.
    + apply elem_of_dom, Hown. rewrite owned_parts. apply elem_of_app. left.
      by apply elem_of_not_null.
    + rewrite Hheap. rewrite decide_True; [done|].
      by apply elem_of_not_null.
  - intros buf Hnotin. rewrite Hheap. by rewrite decide_False.
Qed.

(** ** Further properties of the receiver *)

(** *** Capacity and back-pressure *)

Lemma xQueueSend_within {A} (q q' : list A) (item : A) :
  xQueueSend q item = Some q' -> (length q' <= QUEUE_LENGTH)%nat.
Proof.
  unfold xQueueSend. destruct (Nat.ltb_spec (length q) QUEUE_LENGTH);
    [|done].
  intros [= <-]. rewrite length_app. simpl. lia.
Qed.

(** What a call of the callback that returns can have done to the queues,
    the allocator and the trace. *)
Lemma OnDataRecv_fields info incoming now st st' :
  OnDataRecv info incoming now st = Some st' ->
  msgQueue st' = msgQueue st /\ heap st' = heap st /\
  dht_buf st' = dht_buf st /\ soil_buf st' = soil_buf st /\
  ((st' = st /\ alerting info incoming = false) \/
   (alerting info incoming = nonempty (SoilTask_msg (memcpy_soil incoming)) /\
    xQueueSend (soilQueue st) (memcpy_soil incoming) = Some (soilQueue st') /\
    dhtQueue st' = dhtQueue st /\
    trace st' =
      trace st ++ [EvSave f0 f0 (soil (memcpy_soil incoming)) 0 0]) \/
   (alerting info incoming = nonempty (DHTTask_msg (memcpy_dht incoming)) /\
    xQueueSend (dhtQueue st) (memcpy_dht incoming) = Some (dhtQueue st') /\
    soilQueue st' = soilQueue st /\
    trace st' =
      trace st ++ [EvSave (temp (memcpy_dht incoming))
                     (hum (memcpy_dht incoming)) f0
                     (luz (memcpy_dht incoming))
                     (mq5 (memcpy_dht incoming))])).
Proof.
  unfold OnDataRecv, alerting.
  destruct (_ && _).
  { destruct (xQueueSend _ _) as [q|] eqn:Hq; [|done]. intros Hrecv.
    apply (inj Some) in Hrecv. subst st'.
    destruct (saveDataToSD_queues now f0 f0 (soil (memcpy_soil incoming))
                0 0 (set_soilQueue q st))
      as (Hd & Hs & Hm & Hh & Hdb & Hsb & Ht).
    rewrite Hm, Hh, Hdb, Hsb. repeat (split; [done|]).
    right. left. by rewrite Hs, Hd, Ht. }
  destruct (_ && _).
  { destruct (xQueueSend _ _) as [q|] eqn:Hq; [|done]. intros Hrecv.
    apply (inj Some) in Hrecv. subst st'.
    destruct (saveDataToSD_queues now (temp (memcpy_dht incoming))
                (hum (memcpy_dht incoming)) f0 (luz (memcpy_dht incoming))
                (mq5 (memcpy_dht incoming)) (set_dhtQueue q st))
      as (Hd & Hs & Hm & Hh & Hdb & Hsb & Ht).
    rewrite Hm, Hh, Hdb, Hsb. repeat (split; [done|]).
    right. right. by rewrite Hs, Hd, Ht. }
  intros Hrecv. apply (inj Some) in Hrecv. subst st'.
  repeat (split; [done|]). by left.
Qed.

Lemma within_capacity_step a st st' :
  within_capacity st -> step a st = Some st' -> within_capacity st'.
Proof.
  intros (Hd & Hs & Hm). unfold within_capacity.
  destruct a as [info incoming now|mem|mem|ok]; cbn [step].
  - intros Hrecv.
    destruct (OnDataRecv_fields _ _ _ _ _ Hrecv)
      as (-> & _ & _ & _ & [[-> _]|[(_ & Hq & -> & _)|(_ & Hq & -> & _)]]).
    + done.
    + split; [done|]. split; [|done]. by apply xQueueSend_within in Hq.
    + split; [|done]. by apply xQueueSend_within in Hq.
  - unfold DHTTask, malloc_copy. destruct (dht_buf st).
    + destruct (xQueueSend _ _) as [q|] eqn:Hq; [|done]. intros [= <-].
      cbn. split; [done|]. split; [done|]. by apply xQueueSend_within in Hq.
    + destruct (dhtQueue st) as [|d q]; [done|]. cbn [xQueueReceive].
      cbn in Hd.
      destruct (nonempty _); [destruct mem|]; intros [= <-]; cbn;
        (split; [lia|done]).
  - unfold SoilTask, malloc_copy. destruct (soil_buf st).
    + destruct (xQueueSend _ _) as [q|] eqn:Hq; [|done]. intros [= <-].
      cbn. split; [done|]. split; [done|]. by apply xQueueSend_within in Hq.
    + destruct (soilQueue st) as [|s q]; [done|]. cbn [xQueueReceive].
      cbn in Hs.
      destruct (nonempty _); [destruct mem|]; intros [= <-]; cbn;
        (split; [done|]; split; [lia|done]).
  - unfold TelegramTask. destruct (msgQueue st) as [|b q]; [done|].
    cbn [xQueueReceive]. cbn in Hm. unfold free.
    destruct (b =? NULL)%N; intros [= <-]; cbn;
      (split; [done|]; split; [done|]; lia).
Qed.

(** X1.  Whatever messages arrive and however the tasks are scheduled, none
    of the three queues ever holds more than the five items it was created
    for. *)
Theorem queues_stay_within_capacity c acts st :
  run acts (init c) = Some st -> within_capacity st.
Proof.
  assert (Hinit : within_capacity (init c)).
  { unfold within_capacity, QUEUE_LENGTH. cbn. lia. }
  revert Hinit. generalize (init c). induction acts as [|a acts IH];
    intros st0 H0; cbn [run].
  - by intros [= <-].
  - destruct (step a st0) as [st1|] eqn:E; [|done].
    apply IH. by apply (within_capacity_step a st0).
Qed.

(** X2.  Back-pressure on the receive path.  While the queue of its class
    holds five records the callback accepts nothing from that class; as soon
    as the evaluator has taken the oldest record, whether or not its
    allocation finds room, the same message goes through, behind the four
    records that were waiting. *)
Theorem full_queue_stalls_until_consumed info incoming now mem st :
  (is_soil_message info incoming ->
   length (soilQueue st) = QUEUE_LENGTH -> soil_buf st = None ->
     OnDataRecv info incoming now st = None /\
     exists st1 st2,
       SoilTask mem st = Some st1 /\
       OnDataRecv info incoming now st1 = Some st2 /\
       soilQueue st2 = tail (soilQueue st) ++ [memcpy_soil incoming]) /\
  (is_dht_message info incoming ->
   length (dhtQueue st) = QUEUE_LENGTH -> dht_buf st = None ->
     OnDataRecv info incoming now st = None /\
     exists st1 st2,
       DHTTask mem st = Some st1 /\
       OnDataRecv info incoming now st1 = Some st2 /\
       dhtQueue st2 = tail (dhtQueue st) ++ [memcpy_dht incoming]).
Proof.
  split; intros Hmsg Hlen Hbuf.
  - split.
    { rewrite (OnDataRecv_soil _ _ now st Hmsg).
      rewrite xQueueSend_full by lia. done. }
    destruct (soilQueue st) as [|s q] eqn:Hq; [done|].
    cbn in Hlen. injection Hlen as Hlen.
    assert (Hstep : exists st1,
      SoilTask mem st = Some st1 /\ soilQueue st1 = q).
    { unfold SoilTask, malloc_copy. rewrite Hbuf, Hq. cbn [xQueueReceive].
      destruct (nonempty _); [destruct mem|]; eexists;
        (split; [reflexivity|done]). }
    destruct Hstep as (st1 & Hstep & Hq1).
    exists st1. eexists. split; [done|].
    rewrite (OnDataRecv_soil _ _ now st1 Hmsg), Hq1.
    rewrite xQueueSend_room by (unfold QUEUE_LENGTH in *; lia).
    split; [reflexivity|].
    by destruct (saveDataToSD_queues now f0 f0
                   (soil (memcpy_soil incoming)) 0 0
                   (set_soilQueue (q ++ [memcpy_soil incoming]) st1))
      as (_ & -> & _).
  - split.
    { rewrite (OnDataRecv_dht _ _ now st Hmsg).
      rewrite xQueueSend_full by lia. done. }
    destruct (dhtQueue st) as [|d q] eqn:Hq; [done|].
    cbn in Hlen. injection Hlen as Hlen.
    assert (Hstep : exists st1,
      DHTTask mem st = Some st1 /\ dhtQueue st1 = q).
    { unfold DHTTask, malloc_copy. rewrite Hbuf, Hq. cbn [xQueueReceive].
      destruct (nonempty _); [destruct mem|]; eexists;
        (split; [reflexivity|done]). }
    destruct Hstep as (st1 & Hstep & Hq1).
    exists st1. eexists. split; [done|].
    rewrite (OnDataRecv_dht _ _ now st1 Hmsg), Hq1.
    rewrite xQueueSend_room by (unfold QUEUE_LENGTH in *; lia).
    split; [reflexivity|].
    by destruct (saveDataToSD_queues now (temp (memcpy_dht incoming))
                   (hum (memcpy_dht incoming)) f0
                   (luz (memcpy_dht incoming)) (mq5 (memcpy_dht incoming))
                   (set_dhtQueue (q ++ [memcpy_dht incoming]) st1))
      as (-> & _).
Qed.

(** *** One record from end to end *)

(** X3.  One record through the idle node.  When nothing is in transit, a
    record that makes its evaluator build a text leads to exactly one call
    of the Telegram client, after the call of the storage writer, and the
    node is idle again with the heap as before, whatever the result of the
    delivery.  If the allocation finds room the client is called with that
    text, from a buffer that is released afterwards.  If it does not, the
    client is called with the empty text, from the null pointer, which is
    then handed to [free].  A record that builds no text is consumed
    without any allocation, and the dispatcher stays suspended. *)
Theorem record_gives_at_most_one_alert info incoming now ok mem mem' st :
  quiescent st ->
  (is_soil_message info incoming ->
     let s := memcpy_soil incoming in
     let b := malloc_block (heap st) in
     (nonempty (SoilTask_msg s) = true ->
        exists st',
          run [Receive info incoming now; RunSoil mem; RunSoil mem';
               RunTelegram ok] st = Some st' /\
          quiescent st' /\ heap st' = heap st /\
          trace st' =
            trace st
            ++ EvSave f0 f0 (soil s) 0 0
               :: if mem
                  then [EvMalloc b; EvSendMessage b (SoilTask_msg s) ok;
                        EvFree b]
                  else [EvMalloc NULL; EvSendMessage NULL "" ok;
                        EvFree NULL]) /\
     (nonempty (SoilTask_msg s) = false ->
        exists st',
          run [Receive info incoming now; RunSoil mem] st = Some st' /\
          quiescent st' /\ heap st' = heap st /\
          trace st' = trace st ++ [EvSave f0 f0 (soil s) 0 0] /\
          TelegramTask ok st' = None)) /\
  (is_dht_message info incoming ->
     let d := memcpy_dht incoming in
     let b := malloc_block (heap st) in
     (nonempty (DHTTask_msg d) = true ->
        exists st',
          run [Receive info incoming now; RunDHT mem; RunDHT mem';
               RunTelegram ok] st = Some st' /\
          quiescent st' /\ heap st' = heap st /\
          trace st' =
            trace st
            ++ EvSave (temp d) (hum d) f0 (luz d) (mq5 d)
               :: if mem
                  then [EvMalloc b; EvSendMessage b (DHTTask_msg d) ok;
                        EvFree b]
                  else [EvMalloc NULL; EvSendMessage NULL "" ok;
                        EvFree NULL]) /\
     (nonempty (DHTTask_msg d) = false ->
        exists st',
          run [Receive info incoming now; RunDHT mem] st = Some st' /\
          quiescent st' /\ heap st' = heap st /\
          trace st' =
            trace st ++ [EvSave (temp d) (hum d) f0 (luz d) (mq5 d)] /\
          TelegramTask ok st' = None)).
Proof.
  intros (Qd & Qs & Qm & Qdb & Qsb). split; intros Hmsg; cbv zeta.
  - set (s := memcpy_soil incoming).
    set (st1 := saveDataToSD now f0 f0 (soil s) 0 0 (set_soilQueue [s] st)).
    assert (Hrecv : OnDataRecv info incoming now st = Some st1).
    { rewrite (OnDataRecv_soil _ _ now st Hmsg), Qs. reflexivity. }
    destruct (saveDataToSD_queues now f0 f0 (soil s) 0 0
                (set_soilQueue [s] st))
      as (Hd & Hs & Hm & Hh & Hdb & Hsb & Ht).
    fold st1 in Hd, Hs, Hm, Hh, Hdb, Hsb, Ht. cbn in Hd, Hs, Hm, Hh, Hdb, Hsb, Ht.
    rewrite Qd in Hd. rewrite Qm in Hm. rewrite Qdb in Hdb.
    rewrite Qsb in Hsb.
    split; intros Hne.
    + destruct (soil_alert_cycle mem mem' st1 s ok Hs Hd Hm Hdb Hsb Hne)
        as (st' & Hrun & Hq & Hh' & _ & Ht').
      exists st'. split.
      { cbn [run step]. rewrite Hrecv. exact Hrun. }
      split; [done|]. split; [by rewrite Hh', Hh|].
      rewrite Ht', Ht, Hh, <- app_assoc. done.
    + exists (set_soilQueue [] st1). split.
      { cbn [run step]. rewrite Hrecv.
        by rewrite (SoilTask_take mem st1 s [] Hsb Hs), Hne. }
      split; [done|]. split; [done|]. split; [done|].
      unfold TelegramTask. cbn. by rewrite Hm.
  - set (d := memcpy_dht incoming).
    set (st1 := saveDataToSD now (temp d) (hum d) f0 (luz d) (mq5 d)
                  (set_dhtQueue [d] st)).
    assert (Hrecv : OnDataRecv info incoming now st = Some st1).
    { rewrite (OnDataRecv_dht _ _ now st Hmsg), Qd. reflexivity. }
    destruct (saveDataToSD_queues now (temp d) (hum d) f0 (luz d) (mq5 d)
                (set_dhtQueue [d] st))
      as (Hd & Hs & Hm & Hh & Hdb & Hsb & Ht).
    fold st1 in Hd, Hs, Hm, Hh, Hdb, Hsb, Ht. cbn in Hd, Hs, Hm, Hh, Hdb, Hsb, Ht.
    rewrite Qs in Hs. rewrite Qm in Hm. rewrite Qdb in Hdb.
    rewrite Qsb in Hsb.
    split; intros Hne.
    + destruct (dht_alert_cycle mem mem' st1 d ok Hd Hs Hm Hdb Hsb Hne)
        as (st' & Hrun & Hq & Hh' & _ & Ht').
      exists st'. split.
      { cbn [run step]. rewrite Hrecv. exact Hrun. }
      split; [done|]. split; [by rewrite Hh', Hh|].
      rewrite Ht', Ht, Hh, <- app_assoc. done.
    + exists (set_dhtQueue [] st1). split.
      { cbn [run step]. rewrite Hrecv.
        by rewrite (DHTTask_take mem st1 d [] Hdb Hd), Hne. }
      split; [done|]. split; [done|]. split; [done|].
      unfold TelegramTask. cbn. by rewrite Hm.
Qed.

(** *** Records that raise no alert *)

Lemma silent_step a st st' :
  quiet_action a -> silent st -> step a st = Some st' -> silent st'.
Proof.
  intros Hq (Hd & Hs & Hm & Hh & Hdb & Hsb & Ht). unfold silent.
  destruct a as [info incoming now|mem|mem|ok]; cbn [step].
  - intros Hrecv. cbn in Hq.
    destruct (OnDataRecv_fields _ _ _ _ _ Hrecv)
      as (-> & -> & -> & -> &
          [[-> _]|[(Ha & Hsend & -> & ->)|(Ha & Hsend & -> & ->)]]).
    + done.
    + apply xQueueSend_Some in Hsend. rewrite Hsend.
      split; [done|]. split.
      { apply Forall_app. split; [done|]. constructor; [congruence|done]. }
      repeat (split; [done|]).
      apply Forall_app. split; [done|]. by constructor.
    + apply xQueueSend_Some in Hsend. rewrite Hsend.
      split.
      { apply Forall_app. split; [done|]. constructor; [congruence|done]. }
      repeat (split; [done|]).
      apply Forall_app. split; [done|]. by constructor.
  - unfold DHTTask, malloc_copy. rewrite Hdb.
    destruct (dhtQueue st) as [|d q] eqn:Eq; [done|]. cbn [xQueueReceive].
    apply Forall_cons in Hd as [Hd1 Hd]. rewrite Hd1. by intros [= <-].
  - unfold SoilTask, malloc_copy. rewrite Hsb.
    destruct (soilQueue st) as [|s q] eqn:Eq; [done|]. cbn [xQueueReceive].
    apply Forall_cons in Hs as [Hs1 Hs]. rewrite Hs1. by intros [= <-].
  - unfold TelegramTask. by rewrite Hm.
Qed.

(** X4.  No alert without a cause.  If none of the records received makes
    its evaluator build a text (every soil reading is neither below 30 nor
    above 70, every environment reading exceeds none of its four thresholds,
    and messages that are not accepted count for nothing), then however the
    tasks are scheduled the Telegram client is never called, nothing is ever
    allocated and the alert queue stays empty. *)
Theorem quiet_records_raise_no_alert c acts st :
  Forall quiet_action acts -> run acts (init c) = Some st ->
  sent (trace st) = [] /\ deliveries (trace st) = [] /\
  saves (trace st) = trace st /\ heap st = ∅ /\ msgQueue st = [] /\
  dht_buf st = None /\ soil_buf st = None.
Proof.
  intros Hq Hrun.
  assert (Hs : silent st).
  { assert (Hinit : silent (init c)).
    { unfold silent. cbn. repeat (split; [done|]). constructor. }
    revert Hinit Hrun. generalize (init c).
    induction Hq as [|a acts Ha Hq IH]; intros st0 H0; cbn [run].
    - by intros [= <-].
    - destruct (step a st0) as [st1|] eqn:E; [|done].
      apply IH. by apply (silent_step a st0). }
  destruct Hs as (_ & _ & Hm & Hh & Hdb & Hsb & Ht).
  assert (Htr : sent (trace st) = [] /\ deliveries (trace st) = [] /\
                saves (trace st) = trace st).
  { clear -Ht. induction Ht as [|e tr He Ht IH]; [done|].
    destruct IH as (IH1 & IH2 & IH3).
    destruct e; try discriminate He. unfold sent, deliveries, saves in *.
    cbn. rewrite IH1, IH2. repeat split; try done.
    cbn in IH3 |- *. by f_equal. }
  destruct Htr as (? & ? & ?). done.
Qed.

(** *** Clearing the backlog *)

(** Every step of a task reduces the work left. *)
Lemma task_step_backlog a st st1 :
  is_task a = true -> step a st = Some st1 ->
  (backlog st1 < backlog st)%nat.
Proof.
  unfold backlog.
  destruct a as [info incoming now|mem|mem|ok]; cbn [step is_task];
    [done|..]; intros _.
  - destruct (dht_buf st) as [b|] eqn:Edb.
    + unfold DHTTask. rewrite Edb.
      destruct (xQueueSend _ _) as [q|] eqn:Hq; [|done]. intros [= <-].
      apply xQueueSend_Some in Hq. subst q. fields. rewrite length_app.
      cbn. lia.
    + destruct (dhtQueue st) as [|d q] eqn:Ed;
        [unfold DHTTask; by rewrite Edb, Ed|].
      rewrite (DHTTask_take mem st d q Edb Ed).
      destruct (nonempty _); [destruct mem|]; intros [= <-]; fields;
        rewrite ?Edb; cbn; lia.
  - destruct (soil_buf st) as [b|] eqn:Esb.
    + unfold SoilTask. rewrite Esb.
      destruct (xQueueSend _ _) as [q|] eqn:Hq; [|done]. intros [= <-].
      apply xQueueSend_Some in Hq. subst q. fields. rewrite length_app.
      cbn. lia.
    + destruct (soilQueue st) as [|s q] eqn:Es;
        [unfold SoilTask; by rewrite Esb, Es|].
      rewrite (SoilTask_take mem st s q Esb Es).
      destruct (nonempty _); [destruct mem|]; intros [= <-]; fields;
        rewrite ?Esb; cbn; lia.
  - unfold TelegramTask. destruct (msgQueue st) as [|b q] eqn:Em; [done|].
    cbn [xQueueReceive]. unfold free.
    destruct (b =? NULL)%N; intros [= <-]; cbn; lia.
Qed.

(** While work is left some task can take a step, whatever the result of
    a delivery or of an allocation would be. *)
Lemma task_progress ok mem st :
  quiescent st \/
  exists a st1, task_step ok mem a /\ step a st = Some st1.
Proof.
  unfold quiescent.
  destruct (msgQueue st) as [|b q] eqn:Em.
  2:{ right. exists (RunTelegram ok). eexists. split; [done|].
      cbn [step]. unfold TelegramTask. rewrite Em. cbn [xQueueReceive].
      reflexivity. }
  destruct (dht_buf st) as [b|] eqn:Edb.
  { right. exists (RunDHT mem). eexists. split; [done|].
    cbn [step]. unfold DHTTask. rewrite Edb, Em.
    cbn [xQueueSend length Nat.ltb Nat.leb QUEUE_LENGTH app].
    reflexivity. }
  destruct (soil_buf st) as [b|] eqn:Esb.
  { right. exists (RunSoil mem). eexists. split; [done|].
    cbn [step]. unfold SoilTask. rewrite Esb, Em.
    cbn [xQueueSend length Nat.ltb Nat.leb QUEUE_LENGTH app].
    reflexivity. }
  destruct (dhtQueue st) as [|d q] eqn:Ed.
  2:{ right. exists (RunDHT mem). eexists. split; [done|]. cbn [step].
      by rewrite (DHTTask_take mem st d q Edb Ed). }
  destruct (soilQueue st) as [|s q] eqn:Es.
  2:{ right. exists (RunSoil mem). eexists. split; [done|]. cbn [step].
      by rewrite (SoilTask_take mem st s q Esb Es). }
  by left.
Qed.

Lemma task_step_is_task ok mem a : task_step ok mem a -> is_task a = true.
Proof. by destruct a. Qed.

Lemma drain_steps ok mem n st :
  (backlog st <= n)%nat ->
  exists sched st',
    Forall (task_step ok mem) sched /\ (length sched <= n)%nat /\
    run sched st = Some st' /\ quiescent st'.
Proof.
  revert st. induction n as [|n IH]; intros st Hb.
  - exists [], st. split; [constructor|]. split; [done|]. split; [done|].
    unfold backlog in Hb. unfold quiescent.
    destruct (dhtQueue st), (soilQueue st), (msgQueue st), (dht_buf st),
      (soil_buf st); cbn in Hb; try lia; done.
  - destruct (task_progress ok mem st) as [Hq|(a & st1 & Ha & Hstep)].
    + exists [], st. split; [constructor|]. split; [cbn; lia|]. done.
    + pose proof (task_step_backlog a st st1
                    (task_step_is_task ok mem a Ha) Hstep) as Hlt.
      destruct (IH st1) as (sched & st' & Hall & Hlen & Hrun & Hq); [lia|].
      exists (a :: sched), st'. split; [by constructor|].
      split; [cbn; lia|]. split; [|done]. cbn [run]. by rewrite Hstep.
Qed.

Lemma task_steps_are_tasks ok mem sched :
  Forall (task_step ok mem) sched -> forallb is_task sched = true.
Proof.
  induction 1 as [|a sched Ha _ IH]; [done|]. cbn. rewrite IH.
  by destruct a.
Qed.

(** X5.  The node cannot get stuck and leaks nothing.  From every state it
    can reach, whatever the results of the deliveries and whether or not
    the allocations find room, the three tasks alone can finish the work
    in hand: a schedule of at most three steps per queued record, two per
    pointer held by an evaluator and one per queued alert empties all
    queues, after which no buffer is allocated; the card is not touched.
    Nor does the choice of the steps matter: while work is left some task
    can take a step, with any result of its delivery or allocation, and
    every step a task takes reduces the work left. *)
Theorem backlog_can_always_be_cleared c acts st ok mem :
  run acts (init c) = Some st ->
  (exists sched st',
     Forall (task_step ok mem) sched /\ (length sched <= backlog st)%nat /\
     run sched st = Some st' /\ quiescent st' /\ heap st' = ∅ /\
     card st' = card st /\ saves (trace st') = saves (trace st)) /\
  (quiescent st \/
   exists a st1, task_step ok mem a /\ step a st = Some st1) /\
  (forall a st1, is_task a = true -> step a st = Some st1 ->
     (backlog st1 < backlog st)%nat).
Proof.
  intros Hreach.
  split; [|split; [apply task_progress|]];
    [|intros a st1; apply task_step_backlog].
  destruct (drain_steps ok mem (backlog st) st) as
    (sched & st' & Hall & Hlen & Hrun & Hq); [done|].
  exists sched, st'. repeat (split; [done|]).
  assert (Hc : consistent st').
  { apply (consistent_run sched st); [|done].
    apply (consistent_run acts (init c)); [apply consistent_init|done]. }
  split.
  - destruct Hc as (_ & Hown & _). destruct Hq as (_ & _ & Hm & Hdb & Hsb).
    apply map_eq. intros buf. rewrite lookup_empty.
    apply not_elem_of_dom. intros Hin. apply Hown in Hin.
    rewrite owned_parts, Hm, Hdb, Hsb in Hin. cbn in Hin.
    by apply elem_of_nil in Hin.
  - by apply (task_run_card sched); [apply (task_steps_are_tasks ok mem)|].
Qed.

(** *** Alerting does not depend on the card or on the clock *)

Lemma saveDataToSD_card now t h s l m st :
  saveDataToSD now t h s l m st =
    set_card (card (saveDataToSD now t h s l m st))
      (emit (EvSave t h s l m) st).
Proof.
  unfold saveDataToSD. destruct now as [timeinfo|]; [|by destruct st].
  by destruct (SD_open_append _ _).
Qed.

Lemma step_set_card a b c st st' :
  forget_time a = forget_time b -> step a st = Some st' ->
  exists c', step b (set_card c st) = Some (set_card c' st').
Proof.
  destruct a as [info incoming now|mem|mem|ok]; destruct b; try discriminate;
    intros [=]; subst; cbn [step].
  - unfold OnDataRecv. cbn [soilQueue dhtQueue set_card].
    destruct (_ && _).
    { destruct (xQueueSend _ _) as [q|]; [|done]. intros Hst.
      apply (inj Some) in Hst. subst st'. eexists. f_equal.
      rewrite (saveDataToSD_card now0), (saveDataToSD_card now).
      by destruct st. }
    destruct (_ && _).
    { destruct (xQueueSend _ _) as [q|]; [|done]. intros Hst.
      apply (inj Some) in Hst. subst st'. eexists. f_equal.
      rewrite (saveDataToSD_card now0), (saveDataToSD_card now).
      by destruct st. }
    intros [= <-]. by exists c.
  - exists c. revert H. unfold DHTTask, malloc_copy. cbn [dht_buf dhtQueue msgQueue set_card].
    destruct (dht_buf st).
    + destruct (xQueueSend _ _); [|done]. by intros [= <-].
    + destruct (xQueueReceive _) as [[d q]|]; [|done].
      destruct (nonempty _); [destruct mem0|]; by intros [= <-].
  - exists c. revert H. unfold SoilTask, malloc_copy.
    cbn [soil_buf soilQueue msgQueue set_card].
    destruct (soil_buf st).
    + destruct (xQueueSend _ _); [|done]. by intros [= <-].
    + destruct (xQueueReceive _) as [[s q]|]; [|done].
      destruct (nonempty _); [destruct mem0|]; by intros [= <-].
  - exists c. revert H. unfold TelegramTask, free. cbn [msgQueue set_card].
    destruct (xQueueReceive _) as [[buf q]|]; [|done].
    destruct (buf =? NULL)%N; by intros [= <-].
Qed.

(** X6.  Alerting does not depend on the card or on the clock.  Two runs of
    the node over the same messages and the same schedule, with any two
    cards at the start and any readings of the clock, go through the same
    steps: the second is suspended nowhere the first is not, and it ends
    in the state of the first except for the card.  Queues, buffers,
    allocations, deliveries and the calls of the storage writer are the
    same; a missing card or a failed time source changes what is on the
    card and nothing else. *)
Theorem alerting_independent_of_card_and_clock c1 c2 acts1 acts2 st1 :
  map forget_time acts1 = map forget_time acts2 ->
  run acts1 (init c1) = Some st1 ->
  exists st2,
    run acts2 (init c2) = Some st2 /\ st2 = set_card (card st2) st1.
Proof.
  intros Hacts Hrun.
  assert (Hgen : forall acts1 acts2 sa sa' c,
    map forget_time acts1 = map forget_time acts2 ->
    run acts1 sa = Some sa' ->
    exists c', run acts2 (set_card c sa) = Some (set_card c' sa')).
  { clear. induction acts1 as [|a acts1 IH]; intros [|b acts2] sa sa' c;
      try discriminate; cbn [map run].
    - intros _ [= <-]. by exists c.
    - intros [= Hab Hrest]. destruct (step a sa) as [sa1|] eqn:E; [|done].
      intros Hrun.
      destruct (step_set_card a b c sa sa1 Hab E) as (c1 & ->).
      by apply (IH acts2 sa1 sa' c1). }
  destruct (Hgen acts1 acts2 (init c1) st1 c2 Hacts Hrun) as (c' & Hrun2).
  exists (set_card c' st1). split; [exact Hrun2|]. by destruct st1.
Qed.

(** *** One file per hour *)

Lemma String_int_inj (a b : Z) : String_int a = String_int b -> a = b.
Proof.
  unfold String_int. intros E.
  assert (Hnn : forall z, Z.to_int z <> Decimal.Pos Decimal.Nil /\
                          Z.to_int z <> Decimal.Neg Decimal.Nil).
  { intros [|p|p]; cbn; split; try discriminate; intros [= H];
      by apply DecimalPos.Unsigned.to_uint_nonnil in H. }
  assert (E' : Some (Z.to_int a) = Some (Z.to_int b)).
  { rewrite <- (NilZero.isi (Z.to_int a)), <- (NilZero.isi (Z.to_int b));
      try apply Hnn. by rewrite E. }
  injection E' as E'.
  by rewrite <- (DecimalZ.of_to a), <- (DecimalZ.of_to b), E'.
Qed.

Lemma two_digits_inj (a b : Z) :
  0 <= a <= 99 -> 0 <= b <= 99 -> two_digits a = two_digits b -> a = b.
Proof.
  intros Ha Hb E.
  assert (Hall :
    forallb (fun x => forallb (fun y =>
       implb (String.eqb (two_digits x) (two_digits y)) (x =? y))
       (seqZ 0 100)) (seqZ 0 100) = true) by (vm_compute; reflexivity).
  rewrite forallb_forall in Hall.
  assert (Hina : In a (seqZ 0 100)).
  { apply list_elem_of_In, elem_of_seqZ. lia. }
  assert (Hinb : In b (seqZ 0 100)).
  { apply list_elem_of_In, elem_of_seqZ. lia. }
  specialize (Hall a Hina). rewrite forallb_forall in Hall.
  specialize (Hall b Hinb). rewrite E, String.eqb_refl in Hall.
  by apply Z.eqb_eq in Hall.
Qed.

Lemma string_app_cancel (a a' b b' : string) :
  String.length a = String.length a' -> a +:+ b = a' +:+ b' ->
  a = a' /\ b = b'.
Proof.
  revert a'. induction a as [|c a IH]; intros [|c' a']; try discriminate.
  - done.
  - intros [= L]. rewrite !string_app_cons. intros [= -> E].
    destruct (IH a' L E) as [-> ->]. done.
Qed.

(** X7.  One file per hour.  For a date with a four-digit year none of the
    three calls of [strftime] lacks room in its buffer, and two records go
    to the same file exactly when they are received in the same hour of the
    same day. *)
Theorem one_file_per_hour t1 t2 :
  tm_ok t1 -> tm_ok t2 ->
  datePath t1 = strftime_text "/%Y-%m-%d" t1 /\
  hourPath t1 = strftime_text "/%Y-%m-%d/%H" t1 /\
  filePath t1 = strftime_text "/%Y-%m-%d/%H/data.txt" t1 /\
  (filePath t1 = filePath t2 <-> same_hour t1 t2).
Proof.
  intros H1 H2.
  destruct (path_lengths t1 H1) as (L1 & L2 & L3).
  assert (Hfit : forall n fmt,
    String.length (strftime n fmt t1) <> 0%nat ->
    strftime n fmt t1 = strftime_text fmt t1).
  { intros n fmt. unfold strftime. by destruct (_ <? _)%nat. }
  split; [apply Hfit; fold (datePath t1); by rewrite L1|].
  split; [apply Hfit; fold (hourPath t1); by rewrite L2|].
  split; [apply Hfit; fold (filePath t1); by rewrite L3|].
  split; [|intros Hs; symmetry; by apply same_hour_paths].
  rewrite !filePath_text by done.
  rewrite !string_app_cons, !string_app_nil_l. intros [= E].
  destruct (date_text_ok t1 H1) as [D1 _].
  destruct (date_text_ok t2 H2) as [D2 _].
  destruct (hour_text_ok t1 H1) as [T1 _].
  destruct (hour_text_ok t2 H2) as [T2 _].
  apply string_app_cancel in E as [Ed E]; [|congruence].
  injection E as E.
  apply string_app_cancel in E as [Eh _]; [|congruence].
  destruct H1 as (Y1 & M1 & Dy1 & Hr1 & _).
  destruct H2 as (Y2 & M2 & Dy2 & Hr2 & _).
  unfold hour_text in Eh. apply two_digits_inj in Eh; [|lia..].
  unfold date_text in Ed.
  destruct (year_text (tm_year t1 + 1900)) as [Ly1 _]; [lia|].
  destruct (year_text (tm_year t2 + 1900)) as [Ly2 _]; [lia|].
  destruct (two_digits_text (tm_mon t1 + 1)) as [Lm1 _]; [lia|].
  destruct (two_digits_text (tm_mon t2 + 1)) as [Lm2 _]; [lia|].
  apply string_app_cancel in Ed as [Ey Ed]; [|congruence].
  rewrite ?string_app_cons, ?string_app_nil_l in Ed. injection Ed as Ed.
  apply string_app_cancel in Ed as [Em Ed]; [|congruence].
  rewrite ?string_app_cons, ?string_app_nil_l in Ed. injection Ed as Ed.
  apply String_int_inj in Ey. apply two_digits_inj in Em; [|lia..].
  apply two_digits_inj in Ed; [|lia..].
  unfold same_hour. lia.
Qed.

(** ** The link between the nodes *)

(** *** What is sent is what is decoded *)

Lemma byteZ_byte_of (z : Z) : Wire.byteZ (Repr.byte_of z) = z mod 2 ^ 8.
Proof.
  unfold Wire.byteZ, Repr.byte_of. change 256 with (2 ^ 8).
  assert (Hz : 0 <= z mod 2 ^ 8 < 2 ^ 8) by (apply Z.mod_pos_bound; lia).
  pose proof (Byte.to_of_N_option_map (Z.to_N (z mod 2 ^ 8))) as H.
  destruct (N.leb_spec (Z.to_N (z mod 2 ^ 8)) 255) as [_|Hgt]; [|lia].
  destruct (Byte.of_N _) as [b|]; [|done]. cbn in H |- *.
  injection H as ->. lia.
Qed.

Lemma le32_bytes_of_word (w : Z) :
  0 <= w < 2 ^ 32 ->
  Wire.le32 (Repr.byte_of w) (Repr.byte_of (Z.shiftr w 8))
    (Repr.byte_of (Z.shiftr w 16)) (Repr.byte_of (Z.shiftr w 24)) = w.
Proof.
  intros Hw. unfold Wire.le32. rewrite !byteZ_byte_of.
  apply Z.bits_inj'. intros n Hn.
  rewrite !Z.lor_spec, !Z.shiftl_spec by lia.
  assert (Hbyte : forall k, 0 <= k ->
    Z.testbit (Z.shiftr w k mod 2 ^ 8) (n - k) =
      if (k <=? n) && (n <? k + 8) then Z.testbit w n else false).
  { intros k Hk. destruct (Z.leb_spec k n); cbn [andb].
    - destruct (Z.ltb_spec n (k + 8)).
      + rewrite Z.mod_pow2_bits_low by lia. rewrite Z.shiftr_spec by lia.
        f_equal. lia.
      + by rewrite Z.mod_pow2_bits_high by lia.
    - by rewrite Z.testbit_neg_r by lia. }
  assert (H0 : Z.testbit (w mod 2 ^ 8) n =
                 if n <? 8 then Z.testbit w n else false).
  { destruct (Z.ltb_spec n 8).
    - by rewrite Z.mod_pow2_bits_low by lia.
    - by rewrite Z.mod_pow2_bits_high by lia. }
  rewrite H0, !Hbyte by lia.
  assert (Hhigh : 32 <= n -> Z.testbit w n = false).
  { intros Hge. destruct (Z.eq_dec w 0) as [->|Hnz];
      [apply Z.testbit_0_l|].
    apply Z.bits_above_log2; [lia|].
    assert (Z.log2 w < 32) by (apply Z.log2_lt_pow2; lia). lia. }
  destruct (Z.ltb_spec n 8), (Z.leb_spec 8 n), (Z.ltb_spec n (8 + 8)),
    (Z.leb_spec 16 n), (Z.ltb_spec n (16 + 8)), (Z.leb_spec 24 n),
    (Z.ltb_spec n (24 + 8)); cbn [andb orb]; rewrite ?orb_false_r; try lia;
    try done.
  symmetry. apply Hhigh. lia.
Qed.

Lemma int_of_bits_of_int (n : Z) :
  - 2 ^ 31 <= n < 2 ^ 31 -> Wire.int_of_bits (Repr.bits_of_int n) = n.
Proof.
  intros Hn. unfold Wire.int_of_bits, Repr.bits_of_int.
  destruct (Z.ltb_spec (n mod 2 ^ 32) (2 ^ 31));
    Z.to_euclidean_division_equations; lia.
Qed.

Lemma bits_of_int_range (n : Z) : 0 <= Repr.bits_of_int n < 2 ^ 32.
Proof. apply Z.mod_pos_bound. lia. Qed.

Lemma word_fields (s : bool) (E F : Z) :
  0 <= E < 2 ^ 8 -> 0 <= F < 2 ^ 23 ->
  let w := Z.b2z s * 2 ^ 31 + E * 2 ^ 23 + F in
  Z.testbit w 31 = s /\ Z.land (Z.shiftr w 23) 255 = E /\
  Z.land w (2 ^ 23 - 1) = F /\ 0 <= w < 2 ^ 32.
Proof.
  intros HE HF w.
  assert (Hs : 0 <= Z.b2z s <= 1) by (destruct s; cbn; lia).
  split; [|split; [|split]].
  - rewrite Z.testbit_eqb by lia.
    assert (Hq : w / 2 ^ 31 = Z.b2z s).
    { symmetry. apply (Z.div_unique _ _ _ (E * 2 ^ 23 + F)); lia. }
    rewrite Hq. by destruct s.
  - change 255 with (Z.ones 8).
    rewrite Z.land_ones, Z.shiftr_div_pow2 by lia.
    assert (Hq : w / 2 ^ 23 = Z.b2z s * 2 ^ 8 + E).
    { symmetry. apply (Z.div_unique _ _ _ F); lia. }
    rewrite Hq. symmetry. apply (Z.mod_unique _ _ (Z.b2z s)); lia.
  - change (2 ^ 23 - 1) with (Z.ones 23). rewrite Z.land_ones by lia.
    symmetry. apply (Z.mod_unique _ _ (Z.b2z s * 2 ^ 8 + E)); lia.
  - unfold w. lia.
Qed.

Lemma bits_of_float_fields (x : spec_float) :
  binary32 x ->
  0 <= Repr.bits_of_float x < 2 ^ 32 /\
  Wire.float_of_bits (Repr.bits_of_float x) = x.
Proof.
  destruct x as [s|s| |s m e]; try (by destruct s); [done|].
  intros (He & Hm & Hn). unfold Repr.bits_of_float.
  destruct (Z.ltb_spec (Z.pos m) (2 ^ 23)) as [Hsub|Hnorm].
  - assert (e = -149) as -> by lia.
    destruct (word_fields s 0 (Z.pos m)) as (Hs & HE & HF & Hw); [lia..|].
    rewrite Z.mul_0_l, Z.add_0_r in Hs, HE, HF, Hw. split; [done|].
    unfold Wire.float_of_bits. rewrite Hs, HE, HF. cbn [Z.eqb].
    done.
  - destruct (word_fields s (e + 150) (Z.pos m - 2 ^ 23))
      as (Hs & HE & HF & Hw); [lia..|].
    split; [done|].
    unfold Wire.float_of_bits. rewrite Hs, HE, HF.
    destruct (Z.eqb_spec (e + 150) 0); [lia|].
    destruct (Z.eqb_spec (e + 150) 255); [lia|].
    f_equal; [|lia].
    replace (Z.pos m - 2 ^ 23 + 2 ^ 23) with (Z.pos m) by lia. done.
Qed.

Lemma binary32_check_ok (x : spec_float) :
  binary32_check x = true -> binary32 x.
Proof.
  destruct x as [s|s| |s m e]; try done. cbn [binary32_check binary32].
  intros H. repeat (apply andb_prop in H as [H ?]).
  apply orb_prop in H0. lia.
Qed.

Lemma percentage_values (p : Z) :
  0 <= p <= 100 ->
  binary32 (Repr.float_of_int p) /\
  float_units (Repr.float_of_int p) = Some (p * 2 ^ 149) /\
  flt (Repr.float_of_int p) SOIL_THRESHOLD_LOW = (p <? 30) /\
  fgt (Repr.float_of_int p) SOIL_THRESHOLD_HIGH = (70 <? p).
Proof.
  intros Hp.
  assert (Hall : forallb percentage_ok (seqZ 0 101) = true)
    by (vm_compute; reflexivity).
  rewrite forallb_forall in Hall.
  assert (Hin : In p (seqZ 0 101)).
  { apply list_elem_of_In, elem_of_seqZ. lia. }
  apply Hall in Hin. unfold percentage_ok in Hin.
  repeat (apply andb_prop in Hin as [Hin ?]).
  split; [by apply binary32_check_ok|]. split.
  - destruct (float_units _) as [u|]; [|done]. f_equal. lia.
  - split; by apply Bool.eqb_prop.
Qed.

(** *** The soil node *)

Lemma map_pct (raw : Z) :
  SoilNode.map raw SoilNode.VALOR_SECO SoilNode.VALOR_MOJADO 0 100 =
    Z.quot ((2590 - raw) * 100) 1390.
Proof.
  unfold SoilNode.map, SoilNode.VALOR_SECO, SoilNode.VALOR_MOJADO.
  change (1200 - 2590 =? 0) with false. cbv beta iota zeta.
  replace ((raw - 2590) * (100 - 0)) with (- ((2590 - raw) * 100)) by lia.
  change (1200 - 2590) with (- (1390)). rewrite Z.quot_opp_opp by lia. lia.
Qed.

Lemma pct_range (raw : Z) : 0 <= SoilNode.pct raw <= 100.
Proof.
  unfold SoilNode.pct, SoilNode.constrain.
  destruct (Z.ltb_spec (SoilNode.map raw SoilNode.VALOR_SECO
                          SoilNode.VALOR_MOJADO 0 100) 0); [lia|].
  destruct (Z.ltb_spec 100 (SoilNode.map raw SoilNode.VALOR_SECO
                          SoilNode.VALOR_MOJADO 0 100)); lia.
Qed.

Lemma pct_dry (raw : Z) : (SoilNode.pct raw <? 30) = (2173 <? raw).
Proof.
  unfold SoilNode.pct, SoilNode.constrain. rewrite map_pct.
  destruct (Z.ltb_spec (Z.quot ((2590 - raw) * 100) 1390) 0);
    [|destruct (Z.ltb_spec 100 (Z.quot ((2590 - raw) * 100) 1390))];
    destruct (Z.ltb_spec 2173 raw);
    match goal with |- (?a <? ?b) = _ => destruct (Z.ltb_spec a b) end;
    try done; Z.to_euclidean_division_equations; lia.
Qed.

Lemma pct_wet (raw : Z) : (70 <? SoilNode.pct raw) = (raw <? 1604).
Proof.
  unfold SoilNode.pct, SoilNode.constrain. rewrite map_pct.
  destruct (Z.ltb_spec (Z.quot ((2590 - raw) * 100) 1390) 0);
    [|destruct (Z.ltb_spec 100 (Z.quot ((2590 - raw) * 100) 1390))];
    destruct (Z.ltb_spec raw 1604);
    match goal with |- (?a <? ?b) = _ => destruct (Z.ltb_spec a b) end;
    try done; Z.to_euclidean_division_equations; lia.
Qed.

Lemma pct_antitone (raw raw' : Z) :
  raw <= raw' -> SoilNode.pct raw' <= SoilNode.pct raw.
Proof.
  intros Hle. unfold SoilNode.pct, SoilNode.constrain. rewrite !map_pct.
  assert (Hq : Z.quot ((2590 - raw') * 100) 1390
               <= Z.quot ((2590 - raw) * 100) 1390).
  { apply Z.quot_le_mono; lia. }
  repeat match goal with
         | |- context [?a <? ?b] => destruct (Z.ltb_spec a b)
         end; lia.
Qed.

(** X8.  The percentage of the soil node.  For every reading of the 12-bit
    converter the products of [map] stay inside the range of [long], the
    result is a percentage between 0 and 100 that does not increase when
    the reading increases, it is 0 from the dry calibration value up and
    100 from the wet one down, and it lies below the pump threshold
    exactly for the readings above 2173. *)
Theorem pct_is_a_calibrated_percentage raw raw' :
  0 <= raw <= 4095 -> 0 <= raw' <= 4095 ->
  - 2 ^ 31 <= (raw - SoilNode.VALOR_SECO) * (100 - 0) < 2 ^ 31 /\
  0 <= SoilNode.pct raw <= 100 /\
  (raw <= raw' -> SoilNode.pct raw' <= SoilNode.pct raw) /\
  (SoilNode.VALOR_SECO <= raw -> SoilNode.pct raw = 0) /\
  (raw <= SoilNode.VALOR_MOJADO -> SoilNode.pct raw = 100) /\
  (SoilNode.pct raw < SoilNode.UMBRAL_HUMEDAD <-> 2173 < raw).
Proof.
  intros Hr Hr'. split; [unfold SoilNode.VALOR_SECO; lia|].
  split; [apply pct_range|]. split; [apply pct_antitone|].
  unfold SoilNode.VALOR_SECO, SoilNode.VALOR_MOJADO,
    SoilNode.UMBRAL_HUMEDAD.
  split; [|split].
  - intros Hdry. pose proof (pct_antitone 2590 raw Hdry) as H.
    pose proof (pct_range raw). change (SoilNode.pct 2590) with 0 in H. lia.
  - intros Hwet. pose proof (pct_antitone raw 1200 Hwet) as H.
    pose proof (pct_range raw). change (SoilNode.pct 1200) with 100 in H.
    lia.
  - pose proof (pct_dry raw) as H.
    destruct (Z.ltb_spec (SoilNode.pct raw) 30),
      (Z.ltb_spec 2173 raw); try done; lia.
Qed.

Lemma wait_send_delays fuel seen k waited :
  SoilNode.wait_send fuel seen k = Some waited ->
  waited = repeat (SoilNode.TaskDelay 10) (length waited).
Proof.
  revert k waited. induction fuel as [|fuel IH]; intros k waited;
    cbn [SoilNode.wait_send]; [done|].
  destruct (_ && _); [|by intros [= <-]].
  destruct (SoilNode.wait_send fuel seen (S k)) as [l|] eqn:E; [|done].
  cbn. intros [= <-]. cbn. f_equal. by apply (IH (S k)).
Qed.

Lemma advancing_elapsed seen k :
  SoilNode.advancing seen -> Z.of_nat k <= SoilNode.elapsed (seen k).
Proof.
  intros [H0 Hstep]. induction k as [|k IH]; [cbn; lia|].
  specialize (Hstep k). lia.
Qed.

Lemma wait_send_ends seen fuel k :
  SoilNode.advancing seen -> (k <= 500)%nat -> (500 - k < fuel)%nat ->
  exists n, (k + n <= 500)%nat /\
    SoilNode.wait_send fuel seen k = Some (repeat (SoilNode.TaskDelay 10) n).
Proof.
  intros Hadv. revert k. induction fuel as [|fuel IH]; intros k Hk Hfuel;
    [lia|].
  cbn [SoilNode.wait_send].
  destruct (negb _ && _) eqn:Hc.
  - apply andb_prop in Hc as [_ Hlt]. apply Z.ltb_lt in Hlt.
    pose proof (advancing_elapsed seen k Hadv).
    destruct (IH (S k)) as (n & Hn & ->); [lia..|].
    exists (S n). split; [lia|done].
  - exists O. split; [lia|done].
Qed.

(** X9.  One wake period of the soil node.  [setup] first switches the
    relay off and programs the wake-up after 30 s.  If ESP-NOW cannot be
    initialised or the peer cannot be added nothing else happens: nothing
    is sent, the pump stays off and deep sleep is not entered.  Otherwise,
    provided the clock advances, the task comes to its end: it sends the
    percentage once, waits for the confirmation through at most 500 delays
    of 10 ms, runs the pump for 2 s exactly when the reading is above 2173,
    whether or not the send was confirmed, switches it off again and enters
    deep sleep. *)
Theorem soil_wake_period fuel init_ok peer_ok raw seen :
  0 <= raw <= 4095 -> SoilNode.advancing seen -> (501 <= fuel)%nat ->
  exists n, (n <= 500)%nat /\
    SoilNode.wake fuel init_ok peer_ok raw seen =
      Some
        ([SoilNode.DigitalWrite 23 false; SoilNode.TimerWakeup 30000000]
         ++ if init_ok && peer_ok
            then
              [SoilNode.EspNowSend SoilNode.receiverMAC
                 (SoilNode.sensorSend_bytes (soil_sent raw))]
              ++ repeat (SoilNode.TaskDelay 10) n
              ++ (if 2173 <? raw
                  then [SoilNode.DigitalWrite 23 true;
                        SoilNode.TaskDelay 2000;
                        SoilNode.DigitalWrite 23 false]
                  else [])
              ++ [SoilNode.TaskDelay 100; SoilNode.DeepSleepStart]
            else []).
Proof.
  intros _ Hadv Hfuel.
  destruct (wait_send_ends seen fuel 0 Hadv) as (n & Hn & Hwait); [lia..|].
  exists n. split; [lia|].
  unfold SoilNode.wake, SoilNode.setup.
  destruct init_ok; [|done]. destruct peer_ok; [|done].
  cbn [negb andb]. unfold SoilNode.tareaHumedad. rewrite Hwait.
  fold (SoilNode.pct raw). unfold SoilNode.UMBRAL_HUMEDAD.
  rewrite pct_dry. done.
Qed.

Lemma soil_sent_decodes raw :
  length (SoilNode.sensorSend_bytes (soil_sent raw)) = 4%nat /\
  memcpy_soil (SoilNode.sensorSend_bytes (soil_sent raw)) =
    {| soil := Repr.float_of_int (SoilNode.pct raw) |}.
Proof.
  split; [done|].
  destruct (percentage_values _ (pct_range raw)) as (Hb & _).
  destruct (bits_of_float_fields _ Hb) as (Hw & Hx).
  unfold memcpy_soil, SoilNode.sensorSend_bytes, soil_sent,
    Repr.bytes_of_word, Wire.word_at, Wire.byte_at.
  cbn [nth Nat.add SoilNode.soil]. by rewrite le32_bytes_of_word, Hx.
Qed.

(** X10.  The soil alert tells what the pump did.  For every reading of
    the converter the four bytes sent by the soil node are accepted by the
    receiver as a soil record whose value is exactly the percentage, and
    the text built by the soil evaluator is the line announcing that the
    pump was switched on exactly when the node did run the pump; it is the
    line of the wet soil exactly for the readings below 1604, and there is
    no alert in between. *)
Theorem soil_alert_matches_the_pump raw info now st :
  0 <= raw <= 4095 -> src_addr info = soilSenderMAC ->
  (length (soilQueue st) < QUEUE_LENGTH)%nat ->
  let data := SoilNode.sensorSend_bytes (soil_sent raw) in
  let s := {| soil := Repr.float_of_int (SoilNode.pct raw) |} in
  (forall fuel seen effects,
     SoilNode.tareaHumedad fuel raw seen = Some effects ->
     SoilNode.sends effects = [(SoilNode.receiverMAC, data)] /\
     SoilNode.relay_levels effects =
       if 2173 <? raw then [true; false] else []) /\
  OnDataRecv info data now st =
    Some (saveDataToSD now f0 f0 (soil s) 0 0
            (set_soilQueue (soilQueue st ++ [s]) st)) /\
  float_units (soil s) = Some (SoilNode.pct raw * 2 ^ 149) /\
  SoilTask_msg s =
    if 2173 <? raw then line_dry s
    else if raw <? 1604 then line_wet s else "".
Proof.
  intros _ Hmac Hroom. cbv zeta.
  destruct (soil_sent_decodes raw) as (Hlen & Hdec).
  destruct (percentage_values _ (pct_range raw)) as (_ & Hu & Hlow & Hhigh).
  split; [|split; [|split]].
  - intros fuel seen effects. unfold SoilNode.tareaHumedad.
    destruct (SoilNode.wait_send fuel seen 0) as [waited|] eqn:Hw; [|done].
    intros [= <-]. apply wait_send_delays in Hw.
    fold (SoilNode.pct raw). fold (soil_sent raw).
    unfold SoilNode.UMBRAL_HUMEDAD. rewrite pct_dry.
    unfold SoilNode.sends, SoilNode.relay_levels.
    match goal with
    | |- context [?x :: waited ++ ?r] =>
        change (x :: waited ++ r) with ([x] ++ waited ++ r)
    end.
    rewrite !omap_app, Hw.
    assert (Hrep : forall (A : Type) (f : SoilNode.effect -> option A) n,
      f (SoilNode.TaskDelay 10) = None ->
      omap f (repeat (SoilNode.TaskDelay 10) n) = []).
    { intros A f n Hf. induction n as [|n IH]; [done|].
      cbn. by rewrite Hf. }
    rewrite !Hrep by done. by destruct (2173 <? raw).
  - rewrite (OnDataRecv_soil info _ now st); [|done].
    rewrite Hdec. by rewrite xQueueSend_room.
  - done.
  - unfold SoilTask_msg. cbn [soil]. rewrite Hlow, Hhigh, pct_dry, pct_wet.
    done.
Qed.

(** X11.  The environment node and the receiver.  After its first pause
    of 100 ms the node stays in an endless loop of pauses of one second if
    ESP-NOW cannot be initialised or the peer cannot be added.  Otherwise
    it sends at most one message, none when the temperature or the
    humidity reading is not a number, pauses 100 ms again and goes to
    sleep for 30 s.  What it sends is 16 bytes that the receiver accepts
    as an environment record and decodes to the four readings, bit for
    bit: the record put on the queue and handed to the storage writer is
    the one that was read. *)
Theorem environment_record_survives_the_link
    init_ok peer_ok t h l m info now st :
  binary32 t -> binary32 h ->
  - 2 ^ 31 <= l < 2 ^ 31 -> - 2 ^ 31 <= m < 2 ^ 31 ->
  let data := DhtNode.sensorSend_bytes (dht_sent t h l m) in
  let d := {| temp := t; hum := h; luz := l; mq5 := m |} in
  DhtNode.setup init_ok peer_ok t h l m =
    (if init_ok && peer_ok
     then if Repr.isnan t || Repr.isnan h
          then DhtNode.Asleep
                 [DhtNode.Delay 100; DhtNode.Delay 100;
                  DhtNode.DeepSleep 30000000]
          else DhtNode.Asleep
                 [DhtNode.Delay 100;
                  DhtNode.EspNowSend DhtNode.receiverMAC data;
                  DhtNode.Delay 100; DhtNode.DeepSleep 30000000]
     else DhtNode.Stuck [DhtNode.Delay 100]) /\
  (init_ok && peer_ok = false ->
   forall n,
     DhtNode.observed n (DhtNode.setup init_ok peer_ok t h l m) =
       DhtNode.Delay 100 :: repeat (DhtNode.Delay 1000) n) /\
  length data = 16%nat /\ memcpy_dht data = d /\
  (src_addr info = unifiedSenderMAC ->
   (length (dhtQueue st) < QUEUE_LENGTH)%nat ->
   OnDataRecv info data now st =
     Some (saveDataToSD now t h f0 l m
             (set_dhtQueue (dhtQueue st ++ [d]) st))).
Proof.
  intros Ht Hh Hl Hm. cbv zeta. split.
  { unfold DhtNode.setup. destruct init_ok; [|done].
    destruct peer_ok; [|done]. cbn [negb andb].
    by destruct (Repr.isnan t || Repr.isnan h). }
  split.
  { intros Hko n. unfold DhtNode.setup.
    destruct init_ok; [|done]. by destruct peer_ok. }
  split; [done|].
  assert (Hdec : memcpy_dht (DhtNode.sensorSend_bytes (dht_sent t h l m))
                 = {| temp := t; hum := h; luz := l; mq5 := m |}).
  { destruct (bits_of_float_fields _ Ht) as (Hwt & Hxt).
    destruct (bits_of_float_fields _ Hh) as (Hwh & Hxh).
    pose proof (bits_of_int_range l). pose proof (bits_of_int_range m).
    unfold memcpy_dht, DhtNode.sensorSend_bytes, dht_sent,
      Repr.bytes_of_word, Wire.word_at, Wire.byte_at.
    cbn [nth Nat.add app DhtNode.temp DhtNode.hum DhtNode.luz DhtNode.mq5].
    rewrite !le32_bytes_of_word by done.
    by rewrite Hxt, Hxh, !int_of_bits_of_int. }
  split; [done|]. intros Hmac Hroom.
  rewrite (OnDataRecv_dht info _ now st); [|done].
  rewrite Hdec. by rewrite xQueueSend_room.
Qed.

(** *** One delivery per alert *)

Lemma alert_count_step a st st' :
  step a st = Some st' ->
  (length (sent (trace st')) + alerts_under_way st' =
   length (sent (trace st)) + alerts_under_way st
   + (if brings_alert a then 1 else 0))%nat.
Proof.
  unfold alerts_under_way, sent.
  destruct a as [info incoming now|mem|mem|ok]; cbn [step brings_alert].
  - intros Hrecv.
    destruct (OnDataRecv_fields _ _ _ _ _ Hrecv)
      as (-> & _ & -> & -> &
          [[-> ->]|[(-> & Hq & -> & ->)|(-> & Hq & -> & ->)]]).
    + lia.
    + apply xQueueSend_Some in Hq. rewrite Hq, omap_app, List.filter_app.
      rewrite !length_app. cbn [List.filter omap list_omap].
      destruct (nonempty _); cbn; lia.
    + apply xQueueSend_Some in Hq. rewrite Hq, omap_app, List.filter_app.
      rewrite !length_app. cbn [List.filter omap list_omap].
      destruct (nonempty _); cbn; lia.
  - unfold DHTTask, malloc_copy. destruct (dht_buf st) as [b|] eqn:Eb.
    + destruct (xQueueSend _ _) as [q|] eqn:Hq; [|done]. intros [= <-].
      apply xQueueSend_Some in Hq. subst q. cbn. rewrite length_app. cbn.
      lia.
    + destruct (dhtQueue st) as [|d q]; [done|]. cbn [xQueueReceive].
      cbn [List.filter].
      destruct (nonempty _); [destruct mem|]; intros [= <-]; cbn;
        rewrite ?omap_app, ?Eb; cbn; rewrite ?length_app; cbn; lia.
  - unfold SoilTask, malloc_copy. destruct (soil_buf st) as [b|] eqn:Eb.
    + destruct (xQueueSend _ _) as [q|] eqn:Hq; [|done]. intros [= <-].
      apply xQueueSend_Some in Hq. subst q. cbn. rewrite length_app. cbn.
      lia.
    + destruct (soilQueue st) as [|s q]; [done|]. cbn [xQueueReceive].
      cbn [List.filter].
      destruct (nonempty _); [destruct mem|]; intros [= <-]; cbn;
        rewrite ?omap_app, ?Eb; cbn; rewrite ?length_app; cbn; lia.
  - unfold TelegramTask. destruct (msgQueue st) as [|b q]; [done|].
    cbn [xQueueReceive]. unfold free.
    destruct (b =? NULL)%N; intros [= <-]; cbn; rewrite !omap_app; cbn;
      rewrite !length_app; cbn; lia.
Qed.

(** X12.  One delivery per alert.  At every point of a run, the deliveries
    attempted so far and the alerts still under way add up to the number of
    records received for which an alert is due.  So once the node is idle
    again the Telegram client has been called exactly once for each of
    them: no alert is lost and none is sent twice. *)
Theorem one_delivery_per_alert c acts st :
  run acts (init c) = Some st ->
  (length (deliveries (trace st)) + alerts_under_way st =
   length (List.filter brings_alert acts))%nat /\
  (quiescent st ->
   length (deliveries (trace st)) = length (List.filter brings_alert acts)).
Proof.
  intros Hrun.
  assert (Hlen : forall tr, length (deliveries tr) = length (sent tr)).
  { induction tr as [|e tr IH]; [done|].
    unfold deliveries, sent in *. destruct e; cbn; congruence. }
  assert (Hgen : forall acts st0 st,
    run acts st0 = Some st ->
    (length (sent (trace st)) + alerts_under_way st =
     length (sent (trace st0)) + alerts_under_way st0
     + length (List.filter brings_alert acts))%nat).
  { clear. induction acts as [|a acts IH]; intros st0 st; cbn [run].
    - intros [= <-]. cbn. lia.
    - destruct (step a st0) as [st1|] eqn:E; [|done]. intros Hrun.
      rewrite (IH _ _ Hrun), (alert_count_step _ _ _ E).
      cbn [List.filter]. destruct (brings_alert a); cbn; lia. }
  assert (Hsum :
    (length (deliveries (trace st)) + alerts_under_way st =
     length (List.filter brings_alert acts))%nat).
  { rewrite Hlen, (Hgen _ _ _ Hrun). cbn. lia. }
  split; [done|]. intros (Hd & Hs & Hm & Hdb & Hsb).
  rewrite <- Hsum. unfold alerts_under_way.
  rewrite Hd, Hs, Hm, Hdb, Hsb. cbn. lia.
Qed.

(** *** The decisions of the evaluators on what arrives *)

Lemma byteZ_range (b : byte) : 0 <= Wire.byteZ b < 2 ^ 8.
Proof.
  unfold Wire.byteZ. pose proof (Byte.to_N_bounded b). lia.
Qed.

Lemma word_at_range (incoming : list byte) (i : nat) :
  0 <= Wire.word_at incoming i < 2 ^ 32.
Proof.
  unfold Wire.word_at, Wire.le32.
  set (w := Z.lor _ _).
  assert (Hmod : w mod 2 ^ 32 = w).
  { apply Z.bits_inj'. intros n Hn.
    destruct (Z.lt_ge_cases n 32) as [Hlt|Hge].
    - by rewrite Z.mod_pow2_bits_low by lia.
    - rewrite Z.mod_pow2_bits_high by lia. symmetry. unfold w.
      rewrite !Z.lor_spec, !Z.shiftl_spec by lia.
      assert (Hhigh : forall b k, 8 <= k -> Z.testbit (Wire.byteZ b) k = false).
      { intros b k Hk. rewrite <- (Z.mod_small (Wire.byteZ b) (2 ^ 8))
          by apply byteZ_range.
        by rewrite Z.mod_pow2_bits_high by lia. }
      by rewrite !Hhigh by lia. }
  rewrite <- Hmod. apply Z.mod_pos_bound. lia.
Qed.

Lemma line_dry_text s : line_dry s <> "".
Proof. unfold line_dry. discriminate. Qed.

Lemma line_wet_text s : line_wet s <> "".
Proof. unfold line_wet. discriminate. Qed.

Lemma SoilTask_msg_cases s :
  (flt (soil s) SOIL_THRESHOLD_LOW = true /\ SoilTask_msg s = line_dry s) \/
  (flt (soil s) SOIL_THRESHOLD_LOW = false /\
   fgt (soil s) SOIL_THRESHOLD_HIGH = true /\ SoilTask_msg s = line_wet s) \/
  (flt (soil s) SOIL_THRESHOLD_LOW = false /\
   fgt (soil s) SOIL_THRESHOLD_HIGH = false /\ SoilTask_msg s = "").
Proof.
  unfold SoilTask_msg.
  destruct (flt (soil s) SOIL_THRESHOLD_LOW); [left; by split|].
  destruct (fgt (soil s) SOIL_THRESHOLD_HIGH); right; [left|right];
    by repeat split.
Qed.

(** X13.  The decisions of the evaluators are those of the numbers.
    Whatever bytes arrive, a decoded float is a finite number, an infinity
    or a NaN.  A finite one is compared with its threshold exactly as its
    value is, without any rounding: the soil evaluator reports dry soil
    exactly below 30 and wet soil exactly above 70, the environment
    evaluator a high temperature exactly above 30 and a high humidity
    exactly above 80.  Plus infinity is above every threshold and minus
    infinity below: the first gives the wet-soil line, the
    high-temperature line and the high-humidity line, the second the
    dry-soil line and neither of the other two.  A NaN triggers none of
    these lines. *)
Theorem evaluator_decisions_are_exact (incoming : list byte) :
  let s := memcpy_soil incoming in
  let d := memcpy_dht incoming in
  (forall x, float_units x = None ->
     x = S754_infinity false \/ x = S754_infinity true \/ x = S754_nan) /\
  (forall v, float_units (soil s) = Some v ->
     (SoilTask_msg s = line_dry s <-> v < 30 * 2 ^ 149) /\
     (SoilTask_msg s = line_wet s <-> 70 * 2 ^ 149 < v) /\
     (SoilTask_msg s = "" <-> 30 * 2 ^ 149 <= v <= 70 * 2 ^ 149)) /\
  (forall v, float_units (temp d) = Some v ->
     (fgt (temp d) TEMP_THRESHOLD = true <-> 30 * 2 ^ 149 < v)) /\
  (forall v, float_units (hum d) = Some v ->
     (fgt (hum d) HUM_THRESHOLD = true <-> 80 * 2 ^ 149 < v)) /\
  (soil s = S754_infinity false -> SoilTask_msg s = line_wet s) /\
  (soil s = S754_infinity true -> SoilTask_msg s = line_dry s) /\
  (temp d = S754_infinity false -> fgt (temp d) TEMP_THRESHOLD = true) /\
  (temp d = S754_infinity true -> fgt (temp d) TEMP_THRESHOLD = false) /\
  (hum d = S754_infinity false -> fgt (hum d) HUM_THRESHOLD = true) /\
  (hum d = S754_infinity true -> fgt (hum d) HUM_THRESHOLD = false) /\
  (soil s = S754_nan -> SoilTask_msg s = "") /\
  (temp d = S754_nan -> fgt (temp d) TEMP_THRESHOLD = false) /\
  (hum d = S754_nan -> fgt (hum d) HUM_THRESHOLD = false).
Proof.
  cbv zeta.
  assert (Hb : forall i,
    binary32 (Wire.float_of_bits (Wire.word_at incoming i))).
  { intros i. apply float_of_bits_binary32, word_at_range. }
  split.
  { clear. intros [sg|sg| |sg m e] H; cbn [float_units] in H.
    - discriminate H.
    - destruct sg; [right; left|left]; reflexivity.
    - right. right. reflexivity.
    - discriminate H. }
  split; [|split; [|split]].
  - intros v Hv.
    destruct (threshold_comparisons_exact _ v (Hb 0%nat) Hv)
      as (Hlow & Hhigh & _).
    pose proof (line_dry_not_wet (memcpy_soil incoming)) as Hne.
    pose proof (line_dry_text (memcpy_soil incoming)) as Hdry.
    pose proof (line_wet_text (memcpy_soil incoming)) as Hwet.
    destruct (SoilTask_msg_cases (memcpy_soil incoming))
      as [(El & ->)|[(El & Eh & ->)|(El & Eh & ->)]].
    + apply Hlow in El. clear Hlow Hhigh Hv.
      split; [split; [intros _; exact El|reflexivity]|].
      split; (split; [intros E; by destruct Hne + by destruct Hdry|lia]).
    + apply Hhigh in Eh. apply not_true_iff_false in El.
      rewrite Hlow in El. clear Hlow Hhigh Hv.
      split; [split; [intros E; symmetry in E; by destruct Hne|lia]|].
      split; [split; [intros _; exact Eh|reflexivity]|].
      split; [intros E; by destruct Hwet|lia].
    + apply not_true_iff_false in El, Eh. rewrite Hlow in El.
      rewrite Hhigh in Eh. clear Hlow Hhigh Hv.
      split; [split; [intros E; symmetry in E; by destruct Hdry|lia]|].
      split; [split; [intros E; symmetry in E; by destruct Hwet|lia]|].
      split; [intros _; lia|reflexivity].
  - intros v Hv.
    exact (proj1 (proj2 (proj2 (proj2 (proj2
             (threshold_comparisons_exact _ v (Hb 0%nat) Hv)))))).
  - intros v Hv.
    exact (proj2 (proj2 (proj2 (proj2 (proj2
             (threshold_comparisons_exact _ v (Hb 4%nat) Hv)))))).
  - unfold SoilTask_msg.
    repeat split; intros ->; reflexivity.
Qed.

End Receiver.


(** * Runs of the model on concrete inputs *)

Lemma sample_time_ok : tm_ok sample_time.
Proof. unfold tm_ok, sample_time. simpl. lia. Qed.

Lemma sample_time_later_ok : tm_ok sample_time_later.
Proof. unfold tm_ok, sample_time_later. simpl. lia. Qed.

Lemma empty_card_ready (st : state) (t : tm) :
  card st = empty_card -> storage_ready (card st) t.
Proof.
  intros ->. unfold storage_ready, is_file, empty_card. simpl.
  split; [done|]. split; [done|]. split; [done|]. apply not_elem_of_empty.
Qed.

(** A soil reading of 25.0 arrives at the node in its initial state. *)
Lemma OnDataRecv_routes_witness :
  is_soil_message from_soil soil_25 /\
  (length (soilQueue (init empty_card)) < QUEUE_LENGTH)%nat /\
  exists st',
    OnDataRecv fixed1 from_soil soil_25 (Some sample_time) (init empty_card)
      = Some st' /\
    soilQueue st' = soilQueue (init empty_card) ++ [memcpy_soil soil_25] /\
    dhtQueue st' = dhtQueue (init empty_card) /\
    msgQueue st' = msgQueue (init empty_card).
Proof.
  assert (Hmsg : is_soil_message from_soil soil_25) by (split; reflexivity).
  assert (Hroom : (length (soilQueue (init empty_card)) < QUEUE_LENGTH)%nat)
    by (simpl; unfold QUEUE_LENGTH; lia).
  split; [exact Hmsg|]. split; [exact Hroom|].
  exact (proj1 (proj1 (OnDataRecv_routes_to_own_queue fixed1 from_soil soil_25
                         (Some sample_time) (init empty_card)) Hmsg) Hroom).
Defined.

(** A message from an address that is not registered, and sixteen bytes
    from the soil node. *)
Lemma OnDataRecv_drops_witness :
  length (src_addr from_stranger) = 6%nat /\
  OnDataRecv fixed1 from_stranger soil_25 (Some sample_time) (init empty_card)
    = Some (init empty_card) /\
  OnDataRecv fixed1 from_soil dht_31 (Some sample_time) (init empty_card)
    = Some (init empty_card).
Proof.
  split; [reflexivity|]. split.
  - apply (OnDataRecv_drops_unknown_or_malformed fixed1 from_stranger soil_25
             (Some sample_time) (init empty_card)); [reflexivity|].
    left. split; discriminate.
  - apply (OnDataRecv_drops_unknown_or_malformed fixed1 from_soil dht_31
             (Some sample_time) (init empty_card)); [reflexivity|].
    right. left. split; [reflexivity|]. simpl. lia.
Defined.

(** A soil reading is received while the time is unknown; the soil task
    and the dispatcher then run. *)
Lemma saveDataToSD_without_time_witness :
  forallb is_task [RunSoil true; RunSoil true; RunTelegram true] = true /\
  exists st',
    run fixed1 fixed1 [RunSoil true; RunSoil true; RunTelegram true]
      (saveDataToSD fixed1 None f0 f0 (soil (memcpy_soil soil_25)) 0 0
         (set_soilQueue [memcpy_soil soil_25] (init empty_card))) = Some st' /\
    card st' = empty_card.
Proof.
  split; [reflexivity|]. eexists. split; [vm_compute; reflexivity|].
  apply (proj2 (proj2 (saveDataToSD_without_time_writes_nothing fixed1 fixed1
                         f0 f0 (soil (memcpy_soil soil_25)) 0 0
                         (set_soilQueue [memcpy_soil soil_25]
                            (init empty_card))))
           [RunSoil true; RunSoil true; RunTelegram true]);
    [reflexivity | vm_compute; reflexivity].
Defined.

(** The first record of 2024-03-01 14:22 on an empty card goes to
    [/2024-03-01/14/data.txt]; nothing exists at [/2024-03-01/14/data]. *)
Lemma persist_path_counterexample :
  tm_ok sample_time /\
  storage_ready (card (init empty_card)) sample_time /\
  filePath sample_time <> "/2024-03-01/14/data" /\
  files (card (saveDataToSD fixed1 (Some sample_time)
                 (temp (memcpy_dht dht_31)) (hum (memcpy_dht dht_31)) f0
                 (luz (memcpy_dht dht_31)) (mq5 (memcpy_dht dht_31))
                 (init empty_card)))
    !! "/2024-03-01/14/data" = None /\
  files (card (saveDataToSD fixed1 (Some sample_time)
                 (temp (memcpy_dht dht_31)) (hum (memcpy_dht dht_31)) f0
                 (luz (memcpy_dht dht_31)) (mq5 (memcpy_dht dht_31))
                 (init empty_card)))
    !! "/2024-03-01/14/data.txt"
    = Some ("Temp: 31.0°C, Hum: 50.0%, Suelo: 0.0%, Luz: 0, MQ5: 0" +:+ nl).
Proof.
  split; [exact sample_time_ok|].
  split; [by apply empty_card_ready|].
  split; [discriminate|].
  split; vm_compute; reflexivity.
Qed.

(** Two records within the hour 14 of 2024-03-01 on an empty card. *)
Lemma saveDataToSD_appends_witness :
  tm_ok sample_time /\ tm_ok sample_time_later /\
  same_hour sample_time sample_time_later /\
  storage_ready (card (init empty_card)) sample_time /\
  filePath sample_time = "/2024-03-01/14/data.txt" /\
  content
    (card (saveDataToSD fixed1 (Some sample_time_later)
             f0 f0 (soil (memcpy_soil soil_25)) 0 0
             (saveDataToSD fixed1 (Some sample_time)
                (temp (memcpy_dht dht_31)) (hum (memcpy_dht dht_31)) f0
                (luz (memcpy_dht dht_31)) (mq5 (memcpy_dht dht_31))
                (init empty_card))))
    "/2024-03-01/14/data.txt"
  = ("Temp: 31.0°C, Hum: 50.0%, Suelo: 0.0%, Luz: 0, MQ5: 0" +:+ nl)
      +:+ ("Temp: 0.0°C, Hum: 0.0%, Suelo: 25.0%, Luz: 0, MQ5: 0" +:+ nl).
Proof.
  assert (Hr : storage_ready (card (init empty_card)) sample_time)
    by (by apply empty_card_ready).
  assert (Hsame : same_hour sample_time sample_time_later)
    by (repeat split; reflexivity).
  split; [exact sample_time_ok|]. split; [exact sample_time_later_ok|].
  split; [exact Hsame|]. split; [exact Hr|]. split; [reflexivity|].
  destruct (saveDataToSD_appends_to_hour_file fixed1 sample_time
              (temp (memcpy_dht dht_31)) (hum (memcpy_dht dht_31)) f0
              (luz (memcpy_dht dht_31)) (mq5 (memcpy_dht dht_31))
              (init empty_card) sample_time_ok Hr) as (_ & _ & _ & H2).
  destruct (H2 sample_time_later f0 f0 (soil (memcpy_soil soil_25)) 0 0
              sample_time_later_ok Hsame) as (_ & _ & Hc).
  rewrite (Hc "/2024-03-01/14/data.txt"). vm_compute. reflexivity.
Defined.

(** Soil readings of 25.0, 75.0 and 50.0. *)
Lemma SoilTask_exclusive_branches_witness :
  (flt (soil (memcpy_soil soil_25)) SOIL_THRESHOLD_LOW = true /\
   SoilTask_msg fixed1 (memcpy_soil soil_25)
     = "🚨 Suelo muy seco, Bomba encendida: 25.0%" +:+ nl) /\
  (fgt (soil (memcpy_soil soil_75)) SOIL_THRESHOLD_HIGH = true /\
   SoilTask_msg fixed1 (memcpy_soil soil_75)
     = "🌊 Suelo demasiado húmedo: 75.0%" +:+ nl) /\
  (fle SOIL_THRESHOLD_LOW (soil (memcpy_soil soil_50)) = true /\
   fle (soil (memcpy_soil soil_50)) SOIL_THRESHOLD_HIGH = true /\
   SoilTask fixed1 true
     (set_soilQueue [memcpy_soil soil_50] (init empty_card))
     = Some (set_soilQueue [] (set_soilQueue [memcpy_soil soil_50]
                                 (init empty_card)))).
Proof.
  assert (H25 : flt (soil (memcpy_soil soil_25)) SOIL_THRESHOLD_LOW = true)
    by (vm_compute; reflexivity).
  assert (H75 : fgt (soil (memcpy_soil soil_75)) SOIL_THRESHOLD_HIGH = true)
    by (vm_compute; reflexivity).
  assert (H50 : fle SOIL_THRESHOLD_LOW (soil (memcpy_soil soil_50)) = true)
    by (vm_compute; reflexivity).
  assert (H50' : fle (soil (memcpy_soil soil_50)) SOIL_THRESHOLD_HIGH = true)
    by (vm_compute; reflexivity).
  split; [|split].
  - split; [exact H25|].
    destruct (SoilTask_exclusive_branches fixed1
                (set_soilQueue [memcpy_soil soil_25] (init empty_card))
                (memcpy_soil soil_25) [] eq_refl eq_refl) as (Hdry & _ & _).
    destruct (Hdry H25) as (-> & _ & _). vm_compute. reflexivity.
  - split; [exact H75|].
    destruct (SoilTask_exclusive_branches fixed1
                (set_soilQueue [memcpy_soil soil_75] (init empty_card))
                (memcpy_soil soil_75) [] eq_refl eq_refl) as (_ & Hwet & _).
    destruct (Hwet H75) as (-> & _ & _). vm_compute. reflexivity.
  - split; [exact H50|]. split; [exact H50'|].
    destruct (SoilTask_exclusive_branches fixed1
                (set_soilQueue [memcpy_soil soil_50] (init empty_card))
                (memcpy_soil soil_50) [] eq_refl eq_refl) as (_ & _ & Hmid).
    exact (proj2 (Hmid H50 H50') true).
Defined.

(** The environment task consumes the record of 31.0 degrees: its pass
    allocates the alert and makes no call of [saveDataToSD]. *)
Lemma evaluator_does_not_persist_counterexample :
  exists st st',
    OnDataRecv fixed1 from_dht dht_31 (Some sample_time) (init empty_card)
      = Some st /\
    dhtQueue st = [memcpy_dht dht_31] /\
    DHTTask fixed1 true st = Some st' /\
    dhtQueue st' = [] /\
    trace st' = trace st ++ [EvMalloc 1%N] /\
    saves (trace st') = saves (trace st) /\
    card st' = card st.
Proof.
  eexists. eexists. split; [vm_compute; reflexivity|].
  split; [reflexivity|]. split; [vm_compute; reflexivity|].
  repeat split.
Qed.

(** The same record received while the time is unknown: the callback has
    made the call, the task adds none. *)
Lemma persistence_by_the_callback_witness :
  exists st st',
    OnDataRecv fixed1 from_dht dht_31 None (init empty_card) = Some st /\
    saves (trace st)
      = [EvSave (temp (memcpy_dht dht_31)) (hum (memcpy_dht dht_31)) f0 0 0] /\
    is_task (RunDHT true) = true /\
    step fixed1 fixed1 (RunDHT true) st = Some st' /\
    saves (trace st') = saves (trace st) /\ card st' = card st.
Proof.
  destruct (OnDataRecv fixed1 from_dht dht_31 None (init empty_card))
    as [st|] eqn:Hrecv; [|vm_compute in Hrecv; discriminate Hrecv].
  destruct (step fixed1 fixed1 (RunDHT true) st) as [st'|] eqn:Hstep.
  2: { vm_compute in Hrecv. injection Hrecv as <-.
       vm_compute in Hstep. discriminate Hstep. }
  destruct (persistence_is_requested_by_the_callback fixed1 fixed1)
    as [Hcb Htask].
  exists st, st'. split; [reflexivity|].
  destruct (Hcb from_dht dht_31 None (init empty_card) st Hrecv) as [_ Hd].
  destruct (Hd (conj eq_refl eq_refl)) as [_ Hs].
  split; [exact Hs|]. split; [reflexivity|]. split; [exact Hstep|].
  exact (Htask (RunDHT true) st st' eq_refl Hstep).
Defined.

(** Two alerts are on the queue; the first delivery succeeds, the second
    fails. *)
Lemma TelegramTask_releases_witness :
  exists st st',
    run fixed1 fixed1 sample_actions (init empty_card) = Some st /\
    msgQueue st = [1%N; 2%N] /\
    (length [true; false] <= length (msgQueue st))%nat /\
    dispatch fixed1 fixed1 [true; false] st = Some st' /\
    msgQueue st' = [] /\
    freed (dispatch_events (heap st) (msgQueue st) [true; false])
      = [1%N; 2%N] /\
    heap st' !! 1%N = None /\ heap st' !! 2%N = None.
Proof.
  destruct (run fixed1 fixed1 sample_actions (init empty_card))
    as [st|] eqn:Hrun; [|vm_compute in Hrun; discriminate Hrun].
  assert (Hq : msgQueue st = [1%N; 2%N]).
  { vm_compute in Hrun. injection Hrun as <-. reflexivity. }
  assert (Hlen : (length [true; false] <= length (msgQueue st))%nat).
  { rewrite Hq. simpl. lia. }
  destruct (TelegramTask_releases_each_buffer_once fixed1 fixed1 empty_card
              sample_actions st Hrun) as (_ & _ & _ & _ & Hdisp & _).
  destruct (Hdisp [true; false] Hlen)
    as (st' & Hrun' & Hq' & _ & _ & _ & Hfreed & _ & Hgone & _).
  rewrite Hq in Hq', Hfreed, Hgone. simpl in Hq', Hfreed, Hgone.
  exists st, st'. split; [reflexivity|]. split; [exact Hq|].
  split; [exact Hlen|]. split; [exact Hrun'|]. split; [exact Hq'|].
  split; [rewrite Hq; exact Hfreed|].
  split.
  - apply (Hgone 1%N); [|discriminate]. apply elem_of_cons. left.
    reflexivity.
  - apply (Hgone 2%N); [|discriminate]. apply elem_of_cons. right.
    apply elem_of_cons. left. reflexivity.
Defined.


(** The line of a soil reading of 25.0. *)
Lemma persisted_line_witness :
  exists st',
    OnDataRecv fixed1 from_soil soil_25 (Some sample_time) (init empty_card)
      = Some st' /\
    is_soil_message from_soil soil_25 /\
    tm_ok sample_time /\
    storage_ready (card (init empty_card)) sample_time /\
    content (card st') "/2024-03-01/14/data.txt"
      = "Temp: 0.0°C, Hum: 0.0%, Suelo: 25.0%, Luz: 0, MQ5: 0" +:+ nl.
Proof.
  destruct (OnDataRecv fixed1 from_soil soil_25 (Some sample_time)
              (init empty_card)) as [st'|] eqn:Hrecv;
    [|vm_compute in Hrecv; discriminate Hrecv].
  assert (Hmsg : is_soil_message from_soil soil_25) by (split; reflexivity).
  assert (Hr : storage_ready (card (init empty_card)) sample_time)
    by (by apply empty_card_ready).
  destruct (persisted_line_has_five_fields fixed1 fixed1) as (_ & Hrecv' & _).
  destruct (Hrecv' from_soil soil_25 (Some sample_time) (init empty_card) st'
              Hrecv) as [Hsoil _].
  destruct (Hsoil Hmsg) as (_ & _ & Hfile).
  exists st'. split; [reflexivity|]. split; [exact Hmsg|].
  split; [exact sample_time_ok|]. split; [exact Hr|].
  change "/2024-03-01/14/data.txt" with (filePath sample_time).
  rewrite (Hfile sample_time eq_refl sample_time_ok Hr).
  vm_compute. reflexivity.
Defined.


(** The two sample environment records, with one digit after the point:
    the first raises the high-temperature line alone, the second all four
    lines. *)
Lemma DHTTask_msg_lines_witness :
  DHTTask_msg fixed1 (memcpy_dht dht_31) =
    String.concat (String "010"%char "")
      ["⚠ Alta temperatura: 31.0°C"; ""] /\
  DHTTask_msg fixed1 (memcpy_dht dht_all) =
    String.concat (String "010"%char "")
      ["⚠ Alta temperatura: 31.0°C"; "💧 Alta humedad: 85.0%";
       "🌑 Luz baja: 800"; "🔥 Posible gas detectado: 1600"; ""] /\
  (forall c c',
     spec_line fixed1 (memcpy_dht dht_all) c
       = spec_line fixed1 (memcpy_dht dht_all) c' -> c = c').
Proof.
  destruct (DHTTask_msg_is_the_lines_of_the_conditions_that_hold fixed1)
    as (_ & _ & Hinj & _ & _ & Hone & _ & Hall).
  split; [rewrite Hone; vm_compute; reflexivity|].
  split; [rewrite Hall; vm_compute; reflexivity|].
  exact (Hinj (memcpy_dht dht_all)).
Defined.


(** ** Further runs *)

(** The sample run ends with two alerts on the queue. *)
Lemma queues_stay_within_capacity_witness :
  exists st,
    run fixed1 fixed1 sample_actions (init empty_card) = Some st /\
    within_capacity st.
Proof.
  destruct (run fixed1 fixed1 sample_actions (init empty_card))
    as [st|] eqn:Hrun; [|vm_compute in Hrun; discriminate Hrun].
  exists st. split; [reflexivity|].
  exact (queues_stay_within_capacity fixed1 fixed1 empty_card sample_actions
           st Hrun).
Defined.

(** A sixth soil record has to wait until the evaluator has taken one. *)
Lemma full_queue_stalls_witness :
  is_soil_message from_soil soil_25 /\
  length (soilQueue full_soil_queue) = QUEUE_LENGTH /\
  soil_buf full_soil_queue = None /\
  OnDataRecv fixed1 from_soil soil_25 None full_soil_queue = None /\
  exists st1 st2,
    SoilTask fixed1 true full_soil_queue = Some st1 /\
    OnDataRecv fixed1 from_soil soil_25 None st1 = Some st2 /\
    soilQueue st2 =
      tail (soilQueue full_soil_queue) ++ [memcpy_soil soil_25].
Proof.
  assert (Hmsg : is_soil_message from_soil soil_25) by (split; reflexivity).
  split; [exact Hmsg|]. split; [reflexivity|]. split; [reflexivity|].
  exact (proj1 (full_queue_stalls_until_consumed fixed1 fixed1 from_soil
                  soil_25 None true full_soil_queue) Hmsg eq_refl eq_refl).
Defined.

(** A soil reading of 25.0 percent arrives at the idle node and its
    delivery fails, once with room for the text and once without. *)
Lemma record_gives_one_alert_witness :
  quiescent (init empty_card) /\ is_soil_message from_soil soil_25 /\
  nonempty (SoilTask_msg fixed1 (memcpy_soil soil_25)) = true /\
  (exists st',
     run fixed1 fixed1
       [Receive from_soil soil_25 None; RunSoil true; RunSoil true;
        RunTelegram false]
       (init empty_card) = Some st' /\
     quiescent st' /\ heap st' = heap (init empty_card) /\
     trace st' =
       [EvSave f0 f0 (soil (memcpy_soil soil_25)) 0 0;
        EvMalloc 1%N;
        EvSendMessage 1%N (SoilTask_msg fixed1 (memcpy_soil soil_25)) false;
        EvFree 1%N]) /\
  (exists st',
     run fixed1 fixed1
       [Receive from_soil soil_25 None; RunSoil false; RunSoil true;
        RunTelegram false]
       (init empty_card) = Some st' /\
     quiescent st' /\ heap st' = heap (init empty_card) /\
     trace st' =
       [EvSave f0 f0 (soil (memcpy_soil soil_25)) 0 0;
        EvMalloc NULL; EvSendMessage NULL "" false; EvFree NULL]).
Proof.
  assert (Hq : quiescent (init empty_card)) by (repeat split).
  assert (Hmsg : is_soil_message from_soil soil_25) by (split; reflexivity).
  assert (Hne : nonempty (SoilTask_msg fixed1 (memcpy_soil soil_25)) = true)
    by (vm_compute; reflexivity).
  split; [exact Hq|]. split; [exact Hmsg|]. split; [exact Hne|].
  split.
  - exact (proj1 (proj1 (record_gives_at_most_one_alert fixed1 fixed1
                           from_soil soil_25 None false true true
                           (init empty_card) Hq) Hmsg) Hne).
  - exact (proj1 (proj1 (record_gives_at_most_one_alert fixed1 fixed1
                           from_soil soil_25 None false false true
                           (init empty_card) Hq) Hmsg) Hne).
Defined.

(** A soil reading of 50.0 percent raises nothing. *)
Lemma quiet_records_witness :
  Forall (quiet_action fixed1) quiet_actions /\
  exists st,
    run fixed1 fixed1 quiet_actions (init empty_card) = Some st /\
    sent (trace st) = [] /\ heap st = ∅ /\ msgQueue st = [].
Proof.
  assert (Hquiet : Forall (quiet_action fixed1) quiet_actions).
  { repeat constructor; vm_compute; reflexivity. }
  split; [exact Hquiet|].
  destruct (run fixed1 fixed1 quiet_actions (init empty_card))
    as [st|] eqn:Hrun; [|vm_compute in Hrun; discriminate Hrun].
  destruct (quiet_records_raise_no_alert fixed1 fixed1 empty_card
              quiet_actions st Hquiet Hrun) as (H1 & _ & _ & H2 & H3 & _).
  exists st. split; [reflexivity|]. split; [exact H1|].
  split; [exact H2 | exact H3].
Defined.

(** After the sample run two failed deliveries clear the backlog. *)
Lemma backlog_cleared_witness :
  exists st sched st',
    run fixed1 fixed1 sample_actions (init empty_card) = Some st /\
    Forall (task_step false true) sched /\
    run fixed1 fixed1 sched st = Some st' /\
    quiescent st' /\ heap st' = ∅ /\ card st' = card st.
Proof.
  destruct (run fixed1 fixed1 sample_actions (init empty_card))
    as [st|] eqn:Hrun; [|vm_compute in Hrun; discriminate Hrun].
  destruct (backlog_can_always_be_cleared fixed1 fixed1 empty_card
              sample_actions st false true Hrun)
    as ((sched & st' & Hall & _ & Hrun' & Hq & Hh & Hc & _) & _).
  exists st, sched, st'. split; [reflexivity|]. split; [exact Hall|].
  split; [exact Hrun'|]. split; [exact Hq|]. split; [exact Hh|exact Hc].
Defined.

(** The sample run without a clock and without a card. *)
Lemma independent_of_card_and_clock_witness :
  map forget_time sample_actions
    = map forget_time (map forget_time sample_actions) /\
  exists st1 st2,
    run fixed1 fixed1 sample_actions (init empty_card) = Some st1 /\
    run fixed1 fixed1 (map forget_time sample_actions)
      (init {| mounted := false; dirs := ∅; files := ∅ |}) = Some st2 /\
    st2 = set_card (card st2) st1.
Proof.
  split; [reflexivity|].
  destruct (run fixed1 fixed1 sample_actions (init empty_card))
    as [st1|] eqn:Hrun; [|vm_compute in Hrun; discriminate Hrun].
  destruct (alerting_independent_of_card_and_clock fixed1 fixed1 empty_card
              {| mounted := false; dirs := ∅; files := ∅ |}
              sample_actions (map forget_time sample_actions) st1
              eq_refl Hrun) as (st2 & Hrun2 & Heq).
  exists st1, st2. split; [reflexivity|]. split; [exact Hrun2|exact Heq].
Defined.

(** 14:22 and 14:40 of the same day share their file. *)
Lemma one_file_per_hour_witness :
  tm_ok sample_time /\ tm_ok sample_time_later /\
  filePath sample_time = strftime_text "/%Y-%m-%d/%H/data.txt" sample_time /\
  (filePath sample_time = filePath sample_time_later <->
   same_hour sample_time sample_time_later).
Proof.
  split; [exact sample_time_ok|]. split; [exact sample_time_later_ok|].
  destruct (one_file_per_hour sample_time sample_time_later sample_time_ok
              sample_time_later_ok) as (_ & _ & H3 & H4).
  split; [exact H3 | exact H4].
Defined.

(** The readings 2000 and 3000. *)
Lemma pct_witness :
  0 <= 2000 <= 4095 /\ 0 <= 3000 <= 4095 /\
  0 <= SoilNode.pct 2000 <= 100 /\
  (2000 <= 3000 -> SoilNode.pct 3000 <= SoilNode.pct 2000) /\
  (SoilNode.pct 2000 < SoilNode.UMBRAL_HUMEDAD <-> 2173 < 2000).
Proof.
  assert (H1 : 0 <= 2000 <= 4095) by lia.
  assert (H2 : 0 <= 3000 <= 4095) by lia.
  split; [exact H1|]. split; [exact H2|].
  destruct (pct_is_a_calibrated_percentage 2000 3000 H1 H2)
    as (_ & Hr & Hm & _ & _ & Hd).
  split; [exact Hr|]. split; [exact Hm | exact Hd].
Defined.

(** The reading 2500, with a send confirmed after 30 ms. *)
Lemma soil_wake_period_witness :
  0 <= 2500 <= 4095 /\ SoilNode.advancing sample_glances /\
  (501 <= 501)%nat /\
  exists n, (n <= 500)%nat /\
    SoilNode.wake 501 true true 2500 sample_glances =
      Some
        ([SoilNode.DigitalWrite 23 false; SoilNode.TimerWakeup 30000000]
         ++ [SoilNode.EspNowSend SoilNode.receiverMAC
               (SoilNode.sensorSend_bytes (soil_sent 2500))]
         ++ repeat (SoilNode.TaskDelay 10) n
         ++ [SoilNode.DigitalWrite 23 true; SoilNode.TaskDelay 2000;
             SoilNode.DigitalWrite 23 false]
         ++ [SoilNode.TaskDelay 100; SoilNode.DeepSleepStart]).
Proof.
  assert (H1 : 0 <= 2500 <= 4095) by lia.
  assert (H2 : SoilNode.advancing sample_glances).
  { split; [simpl; lia|]. intros k. simpl. lia. }
  assert (H3 : (501 <= 501)%nat) by lia.
  split; [exact H1|]. split; [exact H2|]. split; [exact H3|].
  exact (soil_wake_period 501 true true 2500 sample_glances H1 H2 H3).
Defined.

(** The reading 2500 gives 6 percent: the pump runs and the receiver says
    so. *)
Lemma soil_alert_matches_the_pump_witness :
  0 <= 2500 <= 4095 /\ src_addr from_soil = soilSenderMAC /\
  (length (soilQueue (init empty_card)) < QUEUE_LENGTH)%nat /\
  float_units (Repr.float_of_int (SoilNode.pct 2500)) = Some (6 * 2 ^ 149) /\
  SoilTask_msg fixed1 {| soil := Repr.float_of_int (SoilNode.pct 2500) |} =
    "🚨 Suelo muy seco, Bomba encendida: 6.0%" +:+ nl.
Proof.
  assert (H1 : 0 <= 2500 <= 4095) by lia.
  assert (H3 : (length (soilQueue (init empty_card)) < QUEUE_LENGTH)%nat)
    by (simpl; unfold QUEUE_LENGTH; lia).
  split; [exact H1|]. split; [reflexivity|]. split; [exact H3|].
  destruct (soil_alert_matches_the_pump fixed1 fixed1 2500 from_soil None
              (init empty_card) H1 eq_refl H3) as (_ & _ & Hu & Hmsg).
  cbn [soil] in Hu. split.
  - rewrite Hu. vm_compute. reflexivity.
  - rewrite Hmsg. vm_compute. reflexivity.
Defined.

(** The readings 31.0 degrees, 50.0 percent, light 900 and gas 0. *)
Lemma environment_record_witness :
  binary32 (temp (memcpy_dht dht_31)) /\ binary32 (hum (memcpy_dht dht_31)) /\
  - 2 ^ 31 <= 900 < 2 ^ 31 /\ - 2 ^ 31 <= 0 < 2 ^ 31 /\
  DhtNode.setup true true (temp (memcpy_dht dht_31))
    (hum (memcpy_dht dht_31)) 900 0 =
    DhtNode.Asleep
      [DhtNode.Delay 100;
       DhtNode.EspNowSend DhtNode.receiverMAC
         (DhtNode.sensorSend_bytes
            (dht_sent (temp (memcpy_dht dht_31)) (hum (memcpy_dht dht_31))
               900 0));
       DhtNode.Delay 100; DhtNode.DeepSleep 30000000] /\
  memcpy_dht
    (DhtNode.sensorSend_bytes
       (dht_sent (temp (memcpy_dht dht_31)) (hum (memcpy_dht dht_31))
          900 0)) =
    {| temp := temp (memcpy_dht dht_31); hum := hum (memcpy_dht dht_31);
       luz := 900; mq5 := 0 |}.
Proof.
  assert (Ht : binary32 (temp (memcpy_dht dht_31))).
  { apply binary32_check_ok. vm_compute. reflexivity. }
  assert (Hh : binary32 (hum (memcpy_dht dht_31))).
  { apply binary32_check_ok. vm_compute. reflexivity. }
  assert (Hl : - 2 ^ 31 <= 900 < 2 ^ 31) by lia.
  assert (Hm : - 2 ^ 31 <= 0 < 2 ^ 31) by lia.
  split; [exact Ht|]. split; [exact Hh|]. split; [exact Hl|].
  split; [exact Hm|].
  destruct (environment_record_survives_the_link fixed1 true true
              (temp (memcpy_dht dht_31)) (hum (memcpy_dht dht_31)) 900 0
              from_dht None (init empty_card) Ht Hh Hl Hm)
    as (Hsetup & _ & _ & Hdec & _).
  split; [|exact Hdec].
  rewrite Hsetup. reflexivity.
Defined.

(** The sample run has received two records for which an alert is due and
    has delivered none yet. *)
Lemma one_delivery_per_alert_witness :
  exists st,
    run fixed1 fixed1 sample_actions (init empty_card) = Some st /\
    (length (deliveries (trace st)) + alerts_under_way fixed1 st =
     length (List.filter (brings_alert fixed1) sample_actions))%nat.
Proof.
  destruct (run fixed1 fixed1 sample_actions (init empty_card))
    as [st|] eqn:Hrun; [|vm_compute in Hrun; discriminate Hrun].
  exists st. split; [reflexivity|].
  exact (proj1 (one_delivery_per_alert fixed1 fixed1 empty_card
                  sample_actions st Hrun)).
Defined.


(** The payload of 25.0 percent is below the low threshold, and the
    payload 00 00 80 7f decodes to plus infinity, which is above the high
    one. *)
Lemma evaluator_decisions_witness :
  float_units (soil (memcpy_soil soil_25)) = Some (25 * 2 ^ 149) /\
  25 * 2 ^ 149 < 30 * 2 ^ 149 /\
  SoilTask_msg fixed1 (memcpy_soil soil_25) =
    line_dry fixed1 (memcpy_soil soil_25) /\
  soil (memcpy_soil [x00; x00; x80; x7f]) = S754_infinity false /\
  SoilTask_msg fixed1 (memcpy_soil [x00; x00; x80; x7f]) =
    line_wet fixed1 (memcpy_soil [x00; x00; x80; x7f]).
Proof.
  assert (Hv : float_units (soil (memcpy_soil soil_25)) = Some (25 * 2 ^ 149))
    by (vm_compute; reflexivity).
  assert (Hlt : 25 * 2 ^ 149 < 30 * 2 ^ 149) by lia.
  assert (Hinf : soil (memcpy_soil [x00; x00; x80; x7f])
                 = S754_infinity false) by (vm_compute; reflexivity).
  split; [exact Hv|]. split; [exact Hlt|]. split.
  - exact (proj2 (proj1 (proj1 (proj2
             (evaluator_decisions_are_exact fixed1 soil_25))
             (25 * 2 ^ 149) Hv)) Hlt).
  - split; [exact Hinf|].
    exact (proj1 (proj2 (proj2 (proj2 (proj2
             (evaluator_decisions_are_exact fixed1 [x00; x00; x80; x7f])))))
             Hinf).
Defined.
